(** * TCP flow forensics: a shallow embedding of the capture-analysis scripts

    The repository holds several stand-alone Python scripts that walk a
    packet capture once and accumulate per-flow TCP health metrics.  This
    development embeds the stateful cores of

    - [analyze_and_generate_report.py]   (module [Report]),
    - [tcp_professional_report.py]       (module [ProReport]),
    - [pcap_analyzer_v4.py]              (module [V4]),
    - [pcap_analyzer_v5.py]              (module [V5]),
    - [pcap_analyzer_v9.py]              (module [V9]),
    - [pcap_analyzer_v10.py]             (module [V10]),
    - [analyze_tcp_dpkt_full_trend.py]   (module [FullTrend]),

    and proves properties of them.

    Conventions of the embedding.
    - Python [int] is [Z]; no script wraps sequence numbers.
    - Python [float] (timestamps, scores, probabilities) is modelled by the
      exact rationals [Q]; equalities between such values are stated with
      [==] ([Qeq]).  Rounding of binary64 arithmetic is not modelled.
    - [dict] is [gmap], [set] is [gset], [list] is [list] with [append]
      written [l ++ [x]]; a [defaultdict] creates the default on access.
    - A Python exception ([ZeroDivisionError], [ValueError]) and numpy's
      [nan] are the [None] of an [option]. *)

From Stdlib Require Import ZArith QArith Qminmax Qabs Lia Lqa String.
From stdpp Require Import base option gmap sets list strings pretty.

#[local] Set Warnings "-clear-no-such-hyp".
Local Open Scope Z_scope.

(** ** Python and numpy primitives *)

Definition Qltb (a b : Q) : bool := negb (Qle_bool b a).

(** [a / b] on Python numbers: raises [ZeroDivisionError] when [b] is zero. *)
Definition py_truediv (a b : Q) : option Q :=
  if Qeq_bool b 0 then None else Some (a / b)%Q.

Definition Qsum (l : list Q) : Q := foldr Qplus 0%Q l.

(** [np.mean]: [nan] on the empty list. *)
Definition np_mean (l : list Q) : option Q :=
  match l with
  | [] => None
  | _ => Some (Qsum l / inject_Z (Z.of_nat (length l)))%Q
  end.

(** [np.max]: [ValueError] on the empty list. *)
Definition np_max (l : list Q) : option Q :=
  match l with
  | [] => None
  | x :: l' => Some (foldl Qmax x l')
  end.

(** [l[-2]] of a Python list ([IndexError] when shorter than 2). *)
Definition py_index_m2 {A} (l : list A) : option A :=
  match rev l with
  | _ :: x :: _ => Some x
  | _ => None
  end.

(** ** Decoded TCP segments

    One record per captured packet that decodes to Ethernet/IP/TCP; this is
    what every script holds in [ts], [ip] and [tcp] inside its loop body. *)

Definition TH_FIN : Z := 1.
Definition TH_SYN : Z := 2.
Definition TH_RST : Z := 4.
Definition TH_PUSH : Z := 8.
Definition TH_ACK : Z := 16.

(** Truth value of [flags & bit]. *)
Definition has_flag (flags bit : Z) : bool := negb (Z.land flags bit =? 0).

Record Segment := mkSegment {
  ts : Q;               (* capture timestamp, seconds *)
  src_ip : string;
  sport : Z;
  dst_ip : string;
  dport : Z;
  tcp_seq : Z;
  tcp_ack : Z;
  tcp_flags : Z;
  tcp_win : Z;
  payload_len : Z;      (* len(tcp.data) *)
  wire_len : Z          (* len(buf) *)
}.

Definition Endpoint : Type := string * Z.
Definition FlowKey : Type := string * Z * string * Z.

Definition flow_key_of (s : Segment) : FlowKey :=
  (src_ip s, sport s, dst_ip s, dport s).
Definition rev_flow_key_of (s : Segment) : FlowKey :=
  (dst_ip s, dport s, src_ip s, sport s).

(** Python's [<] on [(str, int)] tuples: lexicographic, strings by code
    point. *)
Definition endpoint_ltb (a b : Endpoint) : bool :=
  match String.compare a.1 b.1 with
  | Lt => true
  | Eq => a.2 <? b.2
  | Gt => false
  end.

(** [d[k]] on a [defaultdict]: the stored value, or the factory's. *)
Definition dd_get `{Countable K} {V} (dflt : V) (k : K) (m : gmap K V) : V :=
  default dflt (m !! k).

(** Mutation of [d[k]] through the reference the [defaultdict] hands out. *)
Definition dd_update `{Countable K} {V} (dflt : V) (f : V → V) (k : K)
    (m : gmap K V) : gmap K V :=
  <[k := f (dd_get dflt k m)]> m.

(** [sum(g(v) for v in d.values())] over integers. *)
Definition sum_values `{Countable K} {V} (g : V → Z) (m : gmap K V) : Z :=
  map_fold (λ _ v acc, g v + acc) 0 m.

(** [[x for v in d.values() for x in g(v)]]; the order of the values is the
    map's, the scripts only take sums, minima and maxima of the result. *)
Definition concat_values `{Countable K} {V} {A} (g : V → list A)
    (m : gmap K V) : list A :=
  map_fold (λ _ v acc, g v ++ acc) [] m.

(** The builtin [sum] of a list of floats. *)
Definition py_sum (l : list Q) : Q := foldl Qplus 0%Q l.

(** The builtin [min] of a list: [ValueError] on the empty list. *)
Definition py_min (l : list Q) : option Q :=
  match l with
  | [] => None
  | x :: l' => Some (foldl Qmin x l')
  end.

(** ** analyze_and_generate_report.py *)

Module Report.

Definition RTT_JITTER_THRESH : Q := 0.05.
Definition MIN_RTT_SAMPLES : nat := 3.
Definition RTO_HEURISTIC_THRESH : Q := 1.0.

Record FlowMetrics := mkFlowMetrics {
  count : Z;
  payload_bytes : Z;
  retrans : Z;
  rto_cnt : Z;
  cont_retrans : Z;
  small_win_cnt : Z;
  wins : list Z;
  timestamps : list Q;
  rtt_samples : list Q;
  win_ts : list (Q * Z);
  seen_seqs : gset Z;
  last_seq : option Z;
  max_seq : Z
}.

(** [FlowMetrics.__init__] *)
Definition new_FlowMetrics : FlowMetrics :=
  mkFlowMetrics 0 0 0 0 0 0 [] [] [] [] ∅ None 0.

(** [analyze_pcap], lines 141-148: the bookkeeping done for every packet. *)
Definition record_packet (s : Segment) (fm : FlowMetrics) : FlowMetrics :=
  mkFlowMetrics (count fm + 1) (payload_bytes fm + payload_len s)
    (retrans fm) (rto_cnt fm) (cont_retrans fm) (small_win_cnt fm)
    (wins fm ++ [tcp_win s]) (timestamps fm ++ [ts s]) (rtt_samples fm)
    (win_ts fm ++ [(ts s, tcp_win s)]) (seen_seqs fm) (last_seq fm)
    (max_seq fm).

(** Line 163: [flows[rev_flow_key].rtt_samples.append(rtt)]. *)
Definition add_rtt_sample (rtt : Q) (fm : FlowMetrics) : FlowMetrics :=
  mkFlowMetrics (count fm) (payload_bytes fm) (retrans fm) (rto_cnt fm)
    (cont_retrans fm) (small_win_cnt fm) (wins fm) (timestamps fm)
    (rtt_samples fm ++ [rtt]) (win_ts fm) (seen_seqs fm) (last_seq fm)
    (max_seq fm).

(** Lines 186-189: the RTO heuristic; [timestamps] already holds the
    current packet, so [timestamps[-2]] is the previous packet of the flow. *)
Definition rto_hit (s : Segment) (fm : FlowMetrics) : bool :=
  if decide (1 < length (timestamps fm))%nat then
    match py_index_m2 (timestamps fm) with
    | Some prev => Qltb RTO_HEURISTIC_THRESH (ts s - prev)
    | None => false
    end
  else false.

(** Lines 172-194: retransmission and RTO detection, then the sequence
    state update; runs when [payload_len > 0]. *)
Definition track_retrans (s : Segment) (fm : FlowMetrics) : FlowMetrics :=
  let sq := tcp_seq s in
  let keepalive := (payload_len s <=? 1) && has_flag (tcp_flags s) TH_ACK in
  let is_retrans := negb keepalive && bool_decide (sq ∈ seen_seqs fm) in
  let retrans' := if is_retrans then retrans fm + 1 else retrans fm in
  let cont' :=
    if is_retrans && bool_decide (last_seq fm = Some sq)
    then cont_retrans fm + 1 else cont_retrans fm in
  let rto' :=
    if is_retrans && rto_hit s fm then rto_cnt fm + 1 else rto_cnt fm in
  mkFlowMetrics (count fm) (payload_bytes fm) retrans' rto' cont'
    (small_win_cnt fm) (wins fm) (timestamps fm) (rtt_samples fm)
    (win_ts fm) ({[sq]} ∪ seen_seqs fm) (Some sq) (Z.max (max_seq fm) sq).

(** Lines 198-199. *)
Definition track_small_win (s : Segment) (fm : FlowMetrics) : FlowMetrics :=
  if (tcp_win s <? 200) && negb (has_flag (tcp_flags s) TH_SYN)
     && negb (has_flag (tcp_flags s) TH_RST)
  then
    mkFlowMetrics (count fm) (payload_bytes fm) (retrans fm) (rto_cnt fm)
      (cont_retrans fm) (small_win_cnt fm + 1) (wins fm) (timestamps fm)
      (rtt_samples fm) (win_ts fm) (seen_seqs fm) (last_seq fm) (max_seq fm)
  else fm.

(** The two dictionaries of [analyze_pcap] and its packet counter. *)
Record State := mkState {
  flows : gmap FlowKey FlowMetrics;
  unacked_packets : gmap FlowKey (gmap Z Q);
  packet_count : Z
}.

Definition init : State := mkState ∅ ∅ 0.

(** Lines 156-163: an ACK that matches a pending entry of the reverse flow
    pops that entry and, when the sample is sane, appends it to the
    reverse flow's samples. *)
Definition resolve_rtt (s : Segment)
    (fl : gmap FlowKey FlowMetrics) (un : gmap FlowKey (gmap Z Q))
    : gmap FlowKey FlowMetrics * gmap FlowKey (gmap Z Q) :=
  if has_flag (tcp_flags s) TH_ACK then
    let pending := default ∅ (un !! rev_flow_key_of s) in
    match pending !! tcp_ack s with
    | Some sent_ts =>
        let rtt := (ts s - sent_ts)%Q in
        (if Qltb 0 rtt && Qltb rtt 10.0
         then dd_update new_FlowMetrics (add_rtt_sample rtt)
                (rev_flow_key_of s) fl
         else fl,
         alter (delete (tcp_ack s)) (rev_flow_key_of s) un)
    | None => (fl, un)
    end
  else (fl, un).

(** Lines 166-168: every payload segment records the ACK it expects. *)
Definition register_unacked (s : Segment) (un : gmap FlowKey (gmap Z Q))
    : gmap FlowKey (gmap Z Q) :=
  if 0 <? payload_len s then
    dd_update ∅ (<[tcp_seq s + payload_len s := ts s]>) (flow_key_of s) un
  else un.

(** One iteration of the [for ts, buf in pcap] loop on a decoded segment.
    None of the operations below raises on a decoded segment, so the
    [except Exception: continue] arm is not taken. *)
Definition process_segment (st : State) (s : Segment) : State :=
  let fl1 := dd_update new_FlowMetrics (record_packet s) (flow_key_of s)
               (flows st) in
  let '(fl2, un2) := resolve_rtt s fl1 (unacked_packets st) in
  let un3 := register_unacked s un2 in
  let fl3 :=
    if 0 <? payload_len s
    then alter (track_retrans s) (flow_key_of s) fl2 else fl2 in
  let fl4 := alter (track_small_win s) (flow_key_of s) fl3 in
  mkState fl4 un3 (packet_count st + 1).

Definition analyze_pcap_from (st : State) (pkts : list Segment) : State :=
  foldl process_segment st pkts.

Definition analyze_pcap (pkts : list Segment) : State :=
  analyze_pcap_from init pkts.

(** *** [calculate_probabilities] *)

Record Diagnosis := mkDiagnosis {
  p_client : Q;
  p_network : Q;
  p_server : Q;
  rtt_avg : Q;
  rtt_max : Q;
  rtt_std : Q;
  avg_win : Q
}.

Section Scorer.
(** [np.std] is numpy's; the scorer only compares its result with a
    threshold and hands it back, so it stays a parameter. *)
Variable np_std : list Q → Q.

(** Lines 214-221. *)
Definition base_metrics (fm : FlowMetrics) : option (Q * Q * Q * Q) :=
  aw ← (match wins fm with
        | [] => Some 0%Q
        | _ => np_mean (inject_Z <$> wins fm)
        end);
  if decide (MIN_RTT_SAMPLES ≤ length (rtt_samples fm))%nat then
    ra ← np_mean (rtt_samples fm);
    rm ← np_max (rtt_samples fm);
    Some (aw, ra, rm, np_std (rtt_samples fm))
  else Some (aw, 0%Q, 0%Q, 0%Q).

(** Lines 224-245: the three unnormalised scores
    [(score_client, score_network, score_server)]. *)
Definition raw_scores (fm : FlowMetrics) (aw rs : Q)
    : option (Q * Q * Q) :=
  let '(sc1, sn1, ss1) :=
    if Qltb aw 500 && (10 <? count fm)
    then (0.2, 0, 0.6)%Q else (0, 0, 0)%Q in
  '(sn2, ss2) ←
    (if 0 <? retrans fm then
       ratio ← py_truediv (inject_Z (retrans fm)) (inject_Z (count fm));
       Some (sn1 + ratio * 10.0, ss1 + ratio * 2.0)%Q
     else Some (sn1, ss1));
  let sn3 :=
    if 0 <? rto_cnt fm
    then (sn2 + inject_Z (rto_cnt fm) * 0.5)%Q else sn2 in
  let sn4 := if Qltb RTT_JITTER_THRESH rs then (sn3 + 1.0)%Q else sn3 in
  Some (sc1, sn4, ss2).

Definition calculate_probabilities (fm : FlowMetrics) : option Diagnosis :=
  '(aw, ra, rm, rs) ← base_metrics fm;
  '(score_client, score_network, score_server) ← raw_scores fm aw rs;
  let total := (score_client + score_network + score_server)%Q in
  if Qltb total 0.001 then
    Some (mkDiagnosis 0.33 0.33 0.34 ra rm rs aw)
  else
    p_c ← py_truediv score_client total;
    p_n ← py_truediv score_network total;
    p_s ← py_truediv score_server total;
    Some (mkDiagnosis p_c p_n p_s ra rm rs aw).
End Scorer.

(** [main], line 395: the sort key of a flow row, from the flow and the
    [rtt_std] of its diagnosis. *)
Definition score (fm : FlowMetrics) (d : Diagnosis) : Q :=
  (inject_Z (retrans fm * 5) + inject_Z (rto_cnt fm * 10) + rtt_std d * 100
   + inject_Z (count fm) * 0.01)%Q.

(** *** [main], lines 369-384: the bidirectional session count *)

Definition session_key (k : FlowKey) : FlowKey :=
  let '(src, sp, dst, dp) := k in
  if endpoint_ltb (src, sp) (dst, dp)
  then (src, sp, dst, dp) else (dst, dp, src, sp).

Definition unique_sessions (keys : gset FlowKey) : gset FlowKey :=
  set_map session_key keys.

Definition total_tcp_sessions (fl : gmap FlowKey FlowMetrics) : nat :=
  size (unique_sessions (dom fl)).

(** *** [generate_plot], lines 279-293: the downsampled window trend *)

Definition PLOT_MAX_POINTS : nat := 300.

(** [l[::step]] for a positive [step]: the elements at indices 0, [step],
    [2*step], ...; [skip] counts the elements still to drop before the next
    one is kept. *)
Fixpoint slice_step_from {A} (step skip : nat) (l : list A) : list A :=
  match l with
  | [] => []
  | x :: l' =>
      match skip with
      | O => x :: slice_step_from step (step - 1) l'
      | S k => slice_step_from step k l'
      end
  end.

Definition py_slice_step {A} (step : nat) (l : list A) : list A :=
  slice_step_from step 0 l.

(** The pair [(t_axis, w_axis)] plotted for a flow; [None] is the
    [continue] taken when [fm.win_ts] is empty. *)
Definition plot_axes (fm : FlowMetrics) : option (list Q * list Z) :=
  let ts_raw := (win_ts fm).*1 in
  let win_raw := (win_ts fm).*2 in
  match ts_raw with
  | [] => None
  | start_time :: _ =>
      let step := Nat.max 1 (length ts_raw / PLOT_MAX_POINTS) in
      Some ((λ t, (t - start_time)%Q) <$> py_slice_step step ts_raw,
            py_slice_step step win_raw)
  end.

(** *** [generate_plot], lines 325-344: per-source-IP aggregation *)

(** The fields of a [flow_rows] entry that the aggregation reads. *)
Record FlowRow := mkFlowRow {
  row_src_ip : string;
  row_p_client : Q;
  row_p_network : Q;
  row_p_server : Q
}.

Record IpStat := mkIpStat {
  stat_c : Q;
  stat_n : Q;
  stat_s : Q;
  stat_count : Z
}.

Definition new_IpStat : IpStat := mkIpStat 0 0 0 0.

(** A Python [dict] whose iteration order matters: keys in order of first
    insertion. *)
Fixpoint od_update {V} (dflt : V) (f : V → V) (k : string)
    (d : list (string * V)) : list (string * V) :=
  match d with
  | [] => [(k, f dflt)]
  | (k', v) :: d' =>
      if decide (k' = k) then (k', f v) :: d'
      else (k', v) :: od_update dflt f k d'
  end.


Definition add_row (r : FlowRow) (st : IpStat) : IpStat :=
  mkIpStat (stat_c st + row_p_client r) (stat_n st + row_p_network r)
    (stat_s st + row_p_server r) (stat_count st + 1).

(** The [for row in flow_rows] loop, from a given dictionary. *)
Definition ip_stats_loop (rows : list FlowRow)
    (ip_stats : list (string * IpStat)) : list (string * IpStat) :=
  foldl (λ d r, od_update new_IpStat (add_row r) (row_src_ip r) d)
    ip_stats rows.

(** [sorted(..., key=count, reverse=True)]: stable, descending. *)
Fixpoint insert_desc (x : string * IpStat) (l : list (string * IpStat))
    : list (string * IpStat) :=
  match l with
  | [] => [x]
  | y :: l' =>
      if stat_count (snd y) <? stat_count (snd x) then x :: y :: l'
      else y :: insert_desc x l'
  end.

Definition sorted_desc (l : list (string * IpStat))
    : list (string * IpStat) :=
  foldl (λ acc x, insert_desc x acc) [] l.

(** One bar triple [(c/count, n/count, s/count)] per IP. *)
Definition ip_bar (x : string * IpStat) : option (string * Q * Q * Q) :=
  let n := inject_Z (stat_count (snd x)) in
  c ← py_truediv (stat_c (snd x)) n;
  nn ← py_truediv (stat_n (snd x)) n;
  s ← py_truediv (stat_s (snd x)) n;
  Some (fst x, c, nn, s).

(** The aggregation of one [generate_plot] call: its dictionary is a fresh
    local on every call. *)
Definition ip_stats_of (rows : list FlowRow) : list (string * IpStat) :=
  ip_stats_loop rows [].

Definition ip_bars (rows : list FlowRow)
    : option (list (string * Q * Q * Q)) :=
  mapM ip_bar (take 12 (sorted_desc (ip_stats_of rows))).

End Report.

(** ** tcp_professional_report.py *)

Module ProReport.

Definition RTT_JITTER_THRESH : Q := 0.03.

(** The per-stream dictionary built by [main]; [compute_flow_metrics]
    reads [wins], [seq_ack_time], [rto], [retrans] and [cont_retrans]. *)
Record Stats := mkStats {
  count : Z;
  wins : list Z;
  seq_ack_time : list (Q * Q);
  retrans : Z;
  rto : Z;
  cont_retrans : Z;
  last_seq : option Z;
  psh_small : Z;
  seq_history : gmap Z Q
}.

Record Metrics := mkMetrics {
  avg_win : Q;
  rtt_avg : Q;
  rtt_max : Q;
  rtt_jitter : Q;
  client : Q;
  network : Q;
  server : Q
}.

Definition rto_w : Q := 0.45.
Definition cont_retrans_w : Q := 0.2.
Definition retrans_w : Q := 0.15.
Definition win_w : Q := 0.1.
Definition rtt_w : Q := 0.1.

Section Scorer.
Variable np_std : list Q → Q.

(** Line 38. *)
Definition rtt_list (stats : Stats) : list Q :=
  (λ p, (p.2 - p.1)%Q) <$> seq_ack_time stats.

(** Lines 50-72: the unnormalised [(prob_client, prob_network,
    prob_server)]. *)
Definition raw_probs (stats : Stats) (aw jitter : Q) : Q * Q * Q :=
  let '(c1, n1, s1) :=
    if negb (Qeq_bool aw 0) && Qltb aw 200
    then (win_w, win_w * 0.4, win_w * 0.2)%Q else (0, 0, 0)%Q in
  let n2 := (n1 + inject_Z (rto stats) * rto_w)%Q in
  let c2 := (c1 + inject_Z (rto stats) * rto_w * 0.4)%Q in
  let s2 := (s1 + inject_Z (rto stats) * rto_w * 0.2)%Q in
  let n3 := (n2 + inject_Z (retrans stats) * retrans_w)%Q in
  let c3 := (c2 + inject_Z (retrans stats) * retrans_w * 0.4)%Q in
  let s3 := (s2 + inject_Z (retrans stats) * retrans_w * 0.2)%Q in
  let n4 := (n3 + inject_Z (cont_retrans stats) * cont_retrans_w)%Q in
  let c4 := (c3 + inject_Z (cont_retrans stats) * cont_retrans_w * 0.3)%Q in
  let s4 := (s3 + inject_Z (cont_retrans stats) * cont_retrans_w * 0.1)%Q in
  if Qltb RTT_JITTER_THRESH jitter
  then (c4 + rtt_w * 0.4, n4 + rtt_w, s4 + rtt_w * 0.2)%Q
  else (c4, n4, s4).

Definition compute_flow_metrics (stats : Stats) : option Metrics :=
  aw ← (match wins stats with
        | [] => Some 0%Q
        | _ => np_mean (inject_Z <$> wins stats)
        end);
  ra ← (match rtt_list stats with
        | [] => Some 0%Q
        | _ => np_mean (rtt_list stats)
        end);
  rm ← (match rtt_list stats with
        | [] => Some 0%Q
        | _ => np_max (rtt_list stats)
        end);
  let jitter :=
    match rtt_list stats with
    | [] => 0%Q
    | _ => np_std (rtt_list stats)
    end in
  let '(prob_client, prob_network, prob_server) :=
    raw_probs stats aw jitter in
  let total := (prob_client + prob_network + prob_server)%Q in
  if Qltb 0 total then
    c ← py_truediv prob_client total;
    n ← py_truediv prob_network total;
    s ← py_truediv prob_server total;
    Some (mkMetrics aw ra rm jitter c n s)
  else
    Some (mkMetrics aw ra rm jitter (1.0 / 3.0) (1.0 / 3.0) (1.0 / 3.0)).
End Scorer.

(** *** [main], lines 145-182: the per-stream loop *)

(** The factory of the [streams] defaultdict. *)
Definition new_Stats : Stats := mkStats 0 [] [] 0 0 0 None 0 ∅.

(** Lines 168-181 on the stream's dictionary [s].  The lookup of [ack]
    reads [seq_history] after the current [seq] has been stored in it. *)
Definition update_stream (p : Segment) (s : Stats) : Stats :=
  let sq := tcp_seq p in
  let seen := bool_decide (is_Some (seq_history s !! sq)) in
  let retrans' := if seen then retrans s + 1 else retrans s in
  let cont' :=
    if seen && bool_decide (last_seq s = Some sq)
    then cont_retrans s + 1 else cont_retrans s in
  let rto' := if seen then rto s + 1 else rto s in
  let hist' := <[sq := ts p]> (seq_history s) in
  let sat' :=
    match hist' !! tcp_ack p with
    | Some sent => seq_ack_time s ++ [(sent, ts p)]
    | None => seq_ack_time s
    end in
  mkStats (count s + 1) (wins s ++ [tcp_win p]) sat' retrans' rto' cont'
    (Some sq)
    (psh_small s + (if (0 <? tcp_win p) && (tcp_win p <? 200) then 1 else 0))
    hist'.

(** One iteration of the loop on a decoded segment: [streams[stream_key]]
    is created on first use and updated in place. *)
Definition process_packet (streams : gmap FlowKey Stats) (p : Segment)
    : gmap FlowKey Stats :=
  dd_update new_Stats (update_stream p) (flow_key_of p) streams.

Definition main_loop (pkts : list Segment) : gmap FlowKey Stats :=
  foldl process_packet ∅ pkts.

(** *** [main], lines 185-205: the per-IP aggregation *)

Record IpRow := mkIpRow {
  ip_flow_count : Z;
  ip_rto : Z;
  ip_retrans : Z;
  ip_cont_retrans : Z;
  ip_psh_small : Z;
  ip_client : Q;
  ip_network : Q;
  ip_server : Q
}.

(** The factory of [src_rows_dict] and [dst_rows_dict]. *)
Definition new_IpRow : IpRow := mkIpRow 0 0 0 0 0 0 0 0.

(** Lines 198-205 on one of the two dictionaries. *)
Definition add_stream (s : Stats) (m : Metrics) (r : IpRow) : IpRow :=
  mkIpRow (ip_flow_count r + 1) (ip_rto r + rto s)
    (ip_retrans r + retrans s) (ip_cont_retrans r + cont_retrans s)
    (ip_psh_small r + psh_small s) (ip_client r + client m)
    (ip_network r + network m) (ip_server r + server m).

(** The [for k, s in streams.items()] loop over the streams in their
    iteration order; the pair is [(src_rows_dict, dst_rows_dict)].  An
    exception of [compute_flow_metrics] would end [main]. *)
Definition aggregate (np_std : list Q → Q) (items : list (FlowKey * Stats))
    : option (gmap string IpRow * gmap string IpRow) :=
  foldl
    (λ acc kv,
       '(src_rows, dst_rows) ← acc;
       m ← compute_flow_metrics np_std kv.2;
       Some (dd_update new_IpRow (add_stream kv.2 m) kv.1.1.1.1 src_rows,
             dd_update new_IpRow (add_stream kv.2 m) kv.1.1.2 dst_rows))
    (Some (∅, ∅)) items.

End ProReport.

(** ** pcap_analyzer_v4.py *)

Module V4.

Record FlowMetrics := mkFlowMetrics {
  src : string;
  fsport : Z;
  dst : string;
  fdport : Z;
  packet_count : Z;
  byte_count : Z;
  syn_count : Z;
  syn_ack_count : Z;
  fin_count : Z;
  rst_count : Z;
  unacked_packets : gmap Z Q;
  rtt_samples : list Q;
  last_packet_ts : Q;
  jitter_samples : list Q;
  retransmissions : Z;
  out_of_order : Z;
  zero_window_count : Z;
  seen_seqs : gset Z;
  max_seq : Z
}.

(** The dataclass constructor with its defaults. *)
Definition new_FlowMetrics (k : FlowKey) : FlowMetrics :=
  let '(a, ap, b, bp) := k in
  mkFlowMetrics a ap b bp 0 0 0 0 0 0 ∅ [] 0 [] 0 0 0 ∅ 0.

Record GlobalState := mkGlobalState {
  start_ts : Q;
  end_ts : Q;
  total_packets : Z;
  flows : gmap FlowKey FlowMetrics
}.

Definition new_GlobalState : GlobalState := mkGlobalState 0 0 0 ∅.

(** [BasicStatsAnalyzer.process] *)
Definition BasicStatsAnalyzer_process (fl : Z) (pkt_len : Z)
    (f : FlowMetrics) : FlowMetrics :=
  let syn := has_flag fl TH_SYN in
  let ackf := has_flag fl TH_ACK in
  mkFlowMetrics (src f) (fsport f) (dst f) (fdport f)
    (packet_count f + 1) (byte_count f + pkt_len)
    (if syn && negb ackf then syn_count f + 1 else syn_count f)
    (if syn && ackf then syn_ack_count f + 1 else syn_ack_count f)
    (if has_flag fl TH_FIN then fin_count f + 1 else fin_count f)
    (if has_flag fl TH_RST then rst_count f + 1 else rst_count f)
    (unacked_packets f) (rtt_samples f) (last_packet_ts f)
    (jitter_samples f) (retransmissions f) (out_of_order f)
    (zero_window_count f) (seen_seqs f) (max_seq f).

(** [StreamAnalyzer.process_packet], lines 233-239, on the reverse flow:
    pop the pending entry and keep the sample when it is sane. *)
Definition resolve_rtt (s : Segment) (rev_flow : FlowMetrics) : FlowMetrics :=
  if has_flag (tcp_flags s) TH_ACK then
    match unacked_packets rev_flow !! tcp_ack s with
    | Some sent_ts =>
        let rtt := (ts s - sent_ts)%Q in
        mkFlowMetrics (src rev_flow) (fsport rev_flow) (dst rev_flow)
          (fdport rev_flow) (packet_count rev_flow) (byte_count rev_flow)
          (syn_count rev_flow) (syn_ack_count rev_flow) (fin_count rev_flow)
          (rst_count rev_flow) (delete (tcp_ack s) (unacked_packets rev_flow))
          (if Qltb 0 rtt && Qltb rtt 5.0
           then rtt_samples rev_flow ++ [rtt] else rtt_samples rev_flow)
          (last_packet_ts rev_flow) (jitter_samples rev_flow)
          (retransmissions rev_flow) (out_of_order rev_flow)
          (zero_window_count rev_flow) (seen_seqs rev_flow) (max_seq rev_flow)
    | None => rev_flow
    end
  else rev_flow.

(** [RTTAnalyzer.process] *)
Definition RTTAnalyzer_process (s : Segment) (f : FlowMetrics)
    : FlowMetrics :=
  let unacked' :=
    if (0 <? payload_len s) && negb (bool_decide (tcp_seq s ∈ seen_seqs f))
    then <[tcp_seq s + payload_len s := ts s]> (unacked_packets f)
    else unacked_packets f in
  let jitter' :=
    if Qltb 0 (last_packet_ts f) && Qltb (ts s - last_packet_ts f) 1.0
    then jitter_samples f ++ [(ts s - last_packet_ts f)%Q]
    else jitter_samples f in
  mkFlowMetrics (src f) (fsport f) (dst f) (fdport f) (packet_count f)
    (byte_count f) (syn_count f) (syn_ack_count f) (fin_count f)
    (rst_count f) unacked' (rtt_samples f) (ts s) jitter'
    (retransmissions f) (out_of_order f) (zero_window_count f)
    (seen_seqs f) (max_seq f).

(** [AnomalyDetector.process] *)
Definition AnomalyDetector_process (s : Segment) (f : FlowMetrics)
    : FlowMetrics :=
  let sq := tcp_seq s in
  let zero' :=
    if (tcp_win s =? 0) && negb (has_flag (tcp_flags s) TH_RST)
    then zero_window_count f + 1 else zero_window_count f in
  if 0 <? payload_len s then
    let seen_before := bool_decide (sq ∈ seen_seqs f) in
    let retrans' :=
      if seen_before then retransmissions f + 1 else retransmissions f in
    let seen' := if seen_before then seen_seqs f else {[sq]} ∪ seen_seqs f in
    let ooo' :=
      if (sq <? max_seq f) && negb (bool_decide (sq ∈ seen'))
      then out_of_order f + 1 else out_of_order f in
    let max' := if max_seq f <? sq then sq else max_seq f in
    mkFlowMetrics (src f) (fsport f) (dst f) (fdport f) (packet_count f)
      (byte_count f) (syn_count f) (syn_ack_count f) (fin_count f)
      (rst_count f) (unacked_packets f) (rtt_samples f) (last_packet_ts f)
      (jitter_samples f) retrans' ooo' zero' seen' max'
  else
    mkFlowMetrics (src f) (fsport f) (dst f) (fdport f) (packet_count f)
      (byte_count f) (syn_count f) (syn_ack_count f) (fin_count f)
      (rst_count f) (unacked_packets f) (rtt_samples f) (last_packet_ts f)
      (jitter_samples f) (retransmissions f) (out_of_order f) zero'
      (seen_seqs f) (max_seq f).

(** Get-or-create of lines 220-223. *)
Definition ensure_flow (k : FlowKey) (m : gmap FlowKey FlowMetrics)
    : gmap FlowKey FlowMetrics :=
  match m !! k with
  | Some _ => m
  | None => <[k := new_FlowMetrics k]> m
  end.

(** [StreamAnalyzer.process_packet] on a decoded segment.  [flow] and
    [rev_flow] are references into [state.flows]; they are the same object
    when both endpoints coincide, which successive [alter]s reproduce. *)
Definition process_packet (st : GlobalState) (s : Segment) : GlobalState :=
  let fk := flow_key_of s in
  let rk := rev_flow_key_of s in
  let m0 := ensure_flow rk (ensure_flow fk (flows st)) in
  let m1 := alter (BasicStatsAnalyzer_process (tcp_flags s) (wire_len s)) fk m0 in
  let m2 := alter (resolve_rtt s) rk m1 in
  let m3 := alter (RTTAnalyzer_process s) fk m2 in
  let m4 := alter (AnomalyDetector_process s) fk m3 in
  mkGlobalState
    (if Qeq_bool (start_ts st) 0 then ts s else start_ts st)
    (ts s) (total_packets st + 1) m4.

Definition run (pkts : list Segment) : GlobalState :=
  foldl process_packet new_GlobalState pkts.

(** *** [ReportGenerator.generate]: the figures behind the printed report

    The messages of [health_msgs] are kept as tags with the numbers they
    would print; the formatting and the table of key streams are left
    out. *)

Inductive HealthMsg :=
| HighRetransmissionRate (rate : Q)
| ZeroWindowDetected (events : Z)
| NoHandshakesCompleted
| SynFloodOrUnresponsive.

Record Summary := mkSummary {
  duration : Q;
  total_flows : Z;
  total_bytes : Z;
  all_rtt : list Q;
  total_retrans : Z;
  total_pkts_tcp : Z;
  total_syn : Z;
  total_syn_ack : Z;
  total_fin : Z;
  total_rst : Z;
  zero_win : Z;
  avg_rtt : Q;
  min_rtt : Q;
  max_rtt : Q;
  retrans_rate : Q;
  handshake_success : Q;
  pps : Q;
  mbps : Q;
  health_msgs : list HealthMsg;
  health_status : string
}.

(** Lines 295-304. *)
Definition health_messages (rate : Q) (zero syn syn_ack : Z)
    : list HealthMsg :=
  (if Qltb 2.0 rate then [HighRetransmissionRate rate] else [])
  ++ (if 0 <? zero then [ZeroWindowDetected zero] else [])
  ++ (if (10 <? syn) && (syn_ack =? 0) then [NoHandshakesCompleted]
      else if syn_ack * 10 <? syn then [SynFloodOrUnresponsive]
      else []).

(** Lines 258-306. *)
Definition generate (state : GlobalState) : option Summary :=
  let duration := Qmax (end_ts state - start_ts state) 0.000001 in
  let total_flows := Z.of_nat (size (flows state)) `div` 2 in
  let total_bytes := sum_values byte_count (flows state) in
  let all_rtt := concat_values rtt_samples (flows state) in
  let total_retrans := sum_values retransmissions (flows state) in
  let total_pkts_tcp := sum_values packet_count (flows state) in
  let total_syn := sum_values syn_count (flows state) in
  let total_syn_ack := sum_values syn_ack_count (flows state) in
  let total_fin := sum_values fin_count (flows state) in
  let total_rst := sum_values rst_count (flows state) in
  let zero_win := sum_values zero_window_count (flows state) in
  avg ← (match all_rtt with [] => Some 0%Q | _ => np_mean all_rtt end);
  mn ← (match all_rtt with [] => Some 0%Q | _ => py_min all_rtt end);
  mx ← (match all_rtt with [] => Some 0%Q | _ => np_max all_rtt end);
  rate ←
    (if total_pkts_tcp =? 0 then Some 0%Q
     else r ← py_truediv (inject_Z total_retrans) (inject_Z total_pkts_tcp);
          Some (r * 100)%Q);
  hs ←
    (if total_syn =? 0 then Some 0%Q
     else r ← py_truediv (inject_Z total_syn_ack) (inject_Z total_syn);
          Some (r * 100)%Q);
  pps ← py_truediv (inject_Z (total_packets state)) duration;
  mb ← py_truediv (inject_Z (total_bytes * 8)) duration;
  let msgs := health_messages rate zero_win total_syn total_syn_ack in
  Some (mkSummary duration total_flows total_bytes all_rtt total_retrans
          total_pkts_tcp total_syn total_syn_ack total_fin total_rst zero_win
          avg mn mx rate hs pps (mb / 1000000)
          msgs
          (match msgs with [] => "Stable" | _ => "Issues Detected" end)).

End V4.

(** ** pcap_analyzer_v5.py *)

Module V5.

Record StreamTracker := mkStreamTracker {
  stream_id : list Endpoint;
  packet_count : Z;
  bytes_transferred : Z;
  start_time : option Q;
  end_time : option Q;
  pending_acks : gmap Z Q;
  rtt_samples : list Q;         (* milliseconds *)
  seen_seqs : gset (Z * Z);     (* (direction, seq) *)
  retransmissions : Z;
  syn_count : Z;
  fin_count : Z;
  rst_count : Z;
  has_syn : bool;
  has_fin : bool
}.

Definition new_StreamTracker (sid : list Endpoint) : StreamTracker :=
  mkStreamTracker sid 0 0 None None ∅ [] ∅ 0 0 0 0 false false.

(** [StreamTracker.update] for a TCP packet. *)
Definition update (s : Segment) (direction_hash : Z) (t : StreamTracker)
    : StreamTracker :=
  let fl := tcp_flags s in
  let seq_key := (direction_hash, tcp_seq s) in
  let has_payload := 0 <? payload_len s in
  let seen_before := bool_decide (seq_key ∈ seen_seqs t) in
  let expected_ack :=
    tcp_seq s + payload_len s
    + (if has_flag fl TH_SYN then 1 else 0)
    + (if has_flag fl TH_FIN then 1 else 0) in
  let pending1 :=
    if has_payload || has_flag fl TH_SYN
    then <[expected_ack := ts s]> (pending_acks t) else pending_acks t in
  let '(samples2, pending2) :=
    if has_flag fl TH_ACK then
      match pending1 !! tcp_ack s with
      | Some sent =>
          let rtt := ((ts s - sent) * 1000.0)%Q in
          (if Qle_bool 0 rtt && Qltb rtt 10000
           then rtt_samples t ++ [rtt] else rtt_samples t,
           delete (tcp_ack s) pending1)
      | None => (rtt_samples t, pending1)
      end
    else (rtt_samples t, pending1) in
  mkStreamTracker (stream_id t) (packet_count t + 1)
    (bytes_transferred t + payload_len s)
    (match start_time t with None => Some (ts s) | Some x => Some x end)
    (Some (ts s)) pending2 samples2
    (if has_payload && negb seen_before
     then {[seq_key]} ∪ seen_seqs t else seen_seqs t)
    (if has_payload && seen_before
     then retransmissions t + 1 else retransmissions t)
    (if has_flag fl TH_SYN then syn_count t + 1 else syn_count t)
    (if has_flag fl TH_FIN then fin_count t + 1 else fin_count t)
    (if has_flag fl TH_RST then rst_count t + 1 else rst_count t)
    (has_syn t) (has_fin t).

(** Python's [sorted] on a list of endpoints (stable). *)
Fixpoint insert_sorted (x : Endpoint) (l : list Endpoint) : list Endpoint :=
  match l with
  | [] => [x]
  | y :: l' =>
      if endpoint_ltb x y then x :: y :: l' else y :: insert_sorted x l'
  end.

Definition py_sorted (l : list Endpoint) : list Endpoint :=
  foldl (λ acc x, insert_sorted x acc) [] l.

(** [TrafficAnalyzer.get_stream_id] on an IP/TCP packet:
    [(stream_id, direction)]. *)
Definition get_stream_id (s : Segment) : list Endpoint * Z :=
  let endpoints := py_sorted [(src_ip s, sport s); (dst_ip s, dport s)] in
  (endpoints,
   if bool_decide (endpoints !! 0%nat = Some (src_ip s, sport s))
   then 0 else 1).

Record TrafficAnalyzer := mkTrafficAnalyzer {
  total_packets : Z;
  total_bytes : Z;
  an_start_time : option Q;
  an_end_time : option Q;
  ip_src_counts : gmap string Z;
  tcp_counts : Z;
  zero_window_events : Z;
  streams : gmap (list Endpoint) StreamTracker
}.

Definition new_TrafficAnalyzer : TrafficAnalyzer :=
  mkTrafficAnalyzer 0 0 None None ∅ 0 0 ∅.

(** [TrafficAnalyzer.process_packet] on an IP/TCP packet. *)
Definition process_packet (an : TrafficAnalyzer) (s : Segment)
    : TrafficAnalyzer :=
  let '(s_id, direction) := get_stream_id s in
  let zero' :=
    if (tcp_win s =? 0)
       && (has_flag (tcp_flags s) TH_ACK
           || negb (has_flag (tcp_flags s) TH_RST))
    then zero_window_events an + 1 else zero_window_events an in
  let tracker := default (new_StreamTracker s_id) (streams an !! s_id) in
  mkTrafficAnalyzer (total_packets an + 1) (total_bytes an + wire_len s)
    (match an_start_time an with None => Some (ts s) | Some x => Some x end)
    (Some (ts s))
    (<[src_ip s := default 0 (ip_src_counts an !! src_ip s) + wire_len s]>
       (ip_src_counts an))
    (tcp_counts an + 1) zero'
    (<[s_id := update s direction tracker]> (streams an)).

Definition run (pkts : list Segment) : TrafficAnalyzer :=
  foldl process_packet new_TrafficAnalyzer pkts.

(** Number of streams a capture yields. *)
Definition session_count (pkts : list Segment) : nat :=
  size (dom (streams (run pkts))).

(** *** [ReportGenerator.generate]: the figures and the diagnosis

    The findings are kept as tags with the number they would print. *)

(** Truth value of an attribute that is [None] or a float. *)
Definition truthy (t : option Q) : bool :=
  match t with
  | Some x => negb (Qeq_bool x 0)
  | None => false
  end.

(** Lines 210-211. *)
Definition duration (an : TrafficAnalyzer) : Q :=
  Qmax
    (match an_end_time an, an_start_time an with
     | Some e, Some b => if truthy (Some e) && truthy (Some b)
                         then (e - b)%Q else 0%Q
     | _, _ => 0%Q
     end)
    0.001.

(** Line 212. *)
Definition avg_throughput_mbps (an : TrafficAnalyzer) : option Q :=
  py_truediv (inject_Z (total_bytes an * 8)) (duration an * 1000000).

(** Lines 221 and 236. *)
Definition retrans_rate (an : TrafficAnalyzer) : option Q :=
  let total_retrans := sum_values retransmissions (streams an) in
  if total_packets an =? 0 then Some 0%Q
  else r ← py_truediv (inject_Z total_retrans) (inject_Z (total_packets an));
       Some (r * 100)%Q.




End V5.

(** ** pcap_analyzer_v9.py

    TCP options are not part of [Segment]; the fields that only
    [_parse_tcp_options] writes ([mss], window scales, [sack_perm],
    [timestamps]) are left out. *)

Module V9.

Definition RTO_THRESHOLD_MULTIPLIER : Q := 2.0.
Definition MIN_RTO_MS : Q := 200.
Definition HIGH_LATENCY_MS : Q := 100.

Record FlowMetrics := mkFlowMetrics {
  client_key : string;
  server_key : string;
  packet_count : Z;
  start_ts : Q;
  end_ts : Q;
  handshake_rtt : Q;
  rtt_samples : list Q;
  retrans_fast : Z;
  retrans_rto : Z;
  retrans_spurious : Z;
  zero_win_events : Z;
  win_full_events : Z;
  seq_tracker : gmap Z Q
}.

Definition endpoint_str (ip : string) (port : Z) : string :=
  ip +:+ ":" +:+ pretty port.

Definition new_FlowMetrics (cip : string) (cport : Z) (sip : string)
    (sp : Z) : FlowMetrics :=
  mkFlowMetrics (endpoint_str cip cport) (endpoint_str sip sp)
    0 0 0 0 [] 0 0 0 0 0 ∅.

(** [FlowMetrics.avg_rtt_ms] *)
Definition avg_rtt_ms (f : FlowMetrics) : Q :=
  match rtt_samples f with
  | [] => 0
  | l => (Qsum l / inject_Z (Z.of_nat (length l)) * 1000.0)%Q
  end.

(** [ForensicEngine._get_flow_key] *)
Definition _get_flow_key (ip_src : string) (sp : Z) (ip_dst : string)
    (dp : Z) : string :=
  if endpoint_ltb (ip_src, sp) (ip_dst, dp)
  then endpoint_str ip_src sp +:+ "-" +:+ endpoint_str ip_dst dp
  else endpoint_str ip_dst dp +:+ "-" +:+ endpoint_str ip_src sp.

(** The baseline of lines 201-202. *)
Definition baseline (f : FlowMetrics) : Q :=
  let b := (avg_rtt_ms f / 1000.0)%Q in
  if Qeq_bool b 0 then 0.1%Q else b.

(** The test of lines 204-205 on a retransmitted segment. *)
Definition is_rto (f : FlowMetrics) (delta : Q) : bool :=
  Qltb (baseline f * RTO_THRESHOLD_MULTIPLIER) delta
  && Qltb (MIN_RTO_MS / 1000.0) delta.

(** [ForensicEngine._analyze_packet] *)
Definition _analyze_packet (s : Segment) (f : FlowMetrics) : FlowMetrics :=
  let is_syn := has_flag (tcp_flags s) TH_SYN in
  let is_ack := has_flag (tcp_flags s) TH_ACK in
  let handshake' :=
    if is_syn && is_ack && (2 <=? packet_count f)
    then ((ts s - start_ts f) * 1000.0)%Q else handshake_rtt f in
  let '(fast', rto', tracker') :=
    if 0 <? payload_len s then
      match seq_tracker f !! tcp_seq s with
      | Some original_ts =>
          if is_rto f (ts s - original_ts)
          then (retrans_fast f, retrans_rto f + 1, seq_tracker f)
          else (retrans_fast f + 1, retrans_rto f, seq_tracker f)
      | None =>
          (retrans_fast f, retrans_rto f,
           <[tcp_seq s := ts s]> (seq_tracker f))
      end
    else (retrans_fast f, retrans_rto f, seq_tracker f) in
  mkFlowMetrics (client_key f) (server_key f) (packet_count f)
    (start_ts f) (end_ts f) handshake' (rtt_samples f) fast' rto'
    (retrans_spurious f)
    (if tcp_win s =? 0 then zero_win_events f + 1 else zero_win_events f)
    (win_full_events f) tracker'.

(** Lines 162-167 of [process_pcap]: the per-flow bookkeeping that precedes
    [_analyze_packet]. *)
Definition touch (s : Segment) (f : FlowMetrics) : FlowMetrics :=
  mkFlowMetrics (client_key f) (server_key f) (packet_count f + 1)
    (if Qeq_bool (start_ts f) 0 then ts s else start_ts f) (ts s)
    (handshake_rtt f) (rtt_samples f) (retrans_fast f) (retrans_rto f)
    (retrans_spurious f) (zero_win_events f) (win_full_events f)
    (seq_tracker f).

Record ForensicEngine := mkForensicEngine {
  flows : gmap string FlowMetrics;
  total_packets : Z;
  total_bytes : Z;
  start_time_global : Q;
  end_time_global : Q
}.

Definition new_ForensicEngine : ForensicEngine :=
  mkForensicEngine ∅ 0 0 0 0.

(** One iteration of the loop of [process_pcap] on an IPv4/TCP packet. *)
Definition process_packet (e : ForensicEngine) (s : Segment)
    : ForensicEngine :=
  let key := _get_flow_key (src_ip s) (sport s) (dst_ip s) (dport s) in
  let flow :=
    default (new_FlowMetrics (src_ip s) (sport s) (dst_ip s) (dport s))
      (flows e !! key) in
  mkForensicEngine
    (<[key := _analyze_packet s (touch s flow)]> (flows e))
    (total_packets e + 1) (total_bytes e + wire_len s)
    (if Qeq_bool (start_time_global e) 0 then ts s else start_time_global e)
    (ts s).

Definition process_pcap (pkts : list Segment) : ForensicEngine :=
  foldl process_packet new_ForensicEngine pkts.

(** [FlowMetrics.get_health_verdict]: the list [issues]; the method prints
    "HEALTHY" when it is empty. *)
Inductive Issue := RtoTimeouts | FastRetransmits | ZeroWindow | HighLatency.

Definition get_health_verdict (f : FlowMetrics) : list Issue :=
  (if 0 <? retrans_rto f then [RtoTimeouts] else [])
  ++ (if 5 <? retrans_fast f then [FastRetransmits] else [])
  ++ (if 0 <? zero_win_events f then [ZeroWindow] else [])
  ++ (if Qltb HIGH_LATENCY_MS (avg_rtt_ms f) then [HighLatency] else []).

(** *** [ReportWriter.generate]: the verdict

    The hypotheses are kept as tags with the numbers they would print. *)

Inductive RootCause :=
| LossDominatedByRto (rate : Q)
| LossDominatedByFast (rate : Q)
| FrequentZeroWindow (events : Z)
| HighAverageRtt (rtt : Q)
| NominalTraffic
| StandardNegotiation.

Record Verdict := mkVerdict {
  health : string;
  primary_issue : string;
  hypotheses : list RootCause;
  retrans_rate : Q
}.

(** Lines 264-266: [(rtt_sum, rtt_count)] over the flows with a handshake
    RTT. *)
Definition handshake_stats (m : gmap string FlowMetrics) : Q * Z :=
  map_fold
    (λ _ f acc,
       if Qltb 0 (handshake_rtt f)
       then ((acc.1 + handshake_rtt f)%Q, acc.2 + 1) else acc)
    (0%Q, 0) m.

(** Lines 246-300. *)
Definition generate (e : ForensicEngine) : option Verdict :=
  let total_flows := Z.of_nat (size (flows e)) in
  let total_retrans :=
    sum_values (λ f, retrans_fast f + retrans_rto f) (flows e) in
  let total_rto := sum_values retrans_rto (flows e) in
  let total_fast := sum_values retrans_fast (flows e) in
  let zero_wins := sum_values zero_win_events (flows e) in
  let rtt_sum := (handshake_stats (flows e)).1 in
  let rtt_count := (handshake_stats (flows e)).2 in
  global_avg_rtt ←
    (if rtt_count =? 0 then Some 0%Q
     else py_truediv rtt_sum (inject_Z rtt_count));
  if total_flows =? 0 then Some (mkVerdict "NO TRAFFIC" "None" [] 0)
  else
    rate ←
      (if total_packets e =? 0 then Some 0%Q
       else r ← py_truediv (inject_Z total_retrans)
                  (inject_Z (total_packets e));
            Some (r * 100)%Q);
    let v1 :=
      if Qltb 5 rate
      then ("DEGRADED", "Packet Loss",
            [if total_fast <? total_rto
             then LossDominatedByRto rate else LossDominatedByFast rate])
      else ("HEALTHY", "None", []) in
    let v2 :=
      if 5 <? zero_wins
      then ("DEGRADED", "Flow Control / Zero Window",
            v1.2 ++ [FrequentZeroWindow zero_wins])
      else v1 in
    let v3 :=
      if Qltb 150 global_avg_rtt
      then (if String.eqb v2.1.1 "HEALTHY" then "DEGRADED" else v2.1.1,
            "High Latency", v2.2 ++ [HighAverageRtt global_avg_rtt])
      else v2 in
    Some (mkVerdict v3.1.1 v3.1.2
            (match v3.2 with
             | [] => [NominalTraffic; StandardNegotiation]
             | _ => v3.2
             end)
            rate).

End V9.

(** ** pcap_analyzer_v10.py

    As for [V9], the fields written only by [parse_tcp_opts] are left out. *)

Module V10.

Record StreamMetrics := mkStreamMetrics {
  flow_id : Z;
  src_key : string;
  dst_key : string;
  start_ts : Q;
  last_ts : Q;
  packets : Z;
  bytes_total : Z;
  bytes_payload : Z;
  syn_seen : bool;
  syn_ack_seen : bool;
  fin_seen : bool;
  rst_seen : bool;
  handshake_rtt : Q;
  rtt_samples : list Q;             (* milliseconds *)
  retrans_fast : Z;
  retrans_rto : Z;
  retrans_spurious : Z;
  dup_acks : Z;
  zero_wins : Z;
  win_full_events : Z;
  next_seq : gmap Z Z;              (* direction -> next expected seq *)
  unacked_segments : gmap Z (gmap Z Q)
}.

Definition new_StreamMetrics (fid : Z) (k : FlowKey) : StreamMetrics :=
  let '(a, ap, b, bp) := k in
  mkStreamMetrics fid (a +:+ ":" +:+ pretty ap) (b +:+ ":" +:+ pretty bp)
    0 0 0 0 0 false false false false 0 [] 0 0 0 0 0 0
    (<[0 := 0]> (<[1 := 0]> ∅)) (<[0 := ∅]> (<[1 := ∅]> ∅)).

(** [StreamMetrics.avg_rtt] *)
Definition avg_rtt (f : StreamMetrics) : Q :=
  match rtt_samples f with
  | [] => 0
  | l => (Qsum l / inject_Z (Z.of_nat (length l)))%Q
  end.

(** Lines 175-189: the canonical key and the direction of a segment. *)
Definition normalize_key (s : Segment) : FlowKey * Z :=
  match String.compare (src_ip s) (dst_ip s) with
  | Lt => ((src_ip s, sport s, dst_ip s, dport s), 0)
  | Gt => ((dst_ip s, dport s, src_ip s, sport s), 1)
  | Eq =>
      if sport s <? dport s
      then ((src_ip s, sport s, dst_ip s, dport s), 0)
      else ((dst_ip s, dport s, src_ip s, sport s), 1)
  end.

(** How lines 229-249 dispose of a payload segment. *)
Inductive Verdict := NewData | FastRetrans | RtoRetrans.

#[global] Instance Verdict_eq_dec : EqDecision Verdict.
Proof. solve_decision. Defined.

Definition classify (s : Segment) (direction : Z) (f : StreamMetrics)
    : Verdict :=
  let expected := default 0 (next_seq f !! direction) in
  if negb (expected =? 0) && (tcp_seq s <? expected) then
    match rtt_samples f with
    | [] => FastRetrans
    | _ =>
        if Qltb 0 (avg_rtt f) && Qltb (avg_rtt f * 2) (ts s - start_ts f)
        then RtoRetrans else FastRetrans
    end
  else NewData.

(** The test of lines 237-245 on a segment below the watermark, as a
    function of the elapsed time [ts - flow.start_ts] that it is given. *)
Definition is_rto (f : StreamMetrics) (elapsed : Q) : bool :=
  match rtt_samples f with
  | [] => false
  | _ => Qltb 0 (avg_rtt f) && Qltb (avg_rtt f * 2) elapsed
  end.

(** Lines 197-261 of [ForensicsEngine.analyze_packet]: everything done to
    the stream object once it has been looked up. *)
Definition analyze_stream (s : Segment) (direction : Z) (f : StreamMetrics)
    : StreamMetrics :=
  let fl := tcp_flags s in
  let syn := has_flag fl TH_SYN in
  let ackf := has_flag fl TH_ACK in
  let has_payload := 0 <? payload_len s in
  let v := classify s direction f in
  let end_seq := tcp_seq s + payload_len s in
  let fresh := has_payload && bool_decide (v = NewData) in
  let next' :=
    if fresh then <[direction := end_seq]> (next_seq f) else next_seq f in
  let unacked1 :=
    if fresh
    then <[direction :=
             <[end_seq := ts s]>
               (default ∅ (unacked_segments f !! direction))]>
           (unacked_segments f)
    else unacked_segments f in
  let rev_dir := 1 - direction in
  let rev_pending := default ∅ (unacked1 !! rev_dir) in
  let '(samples2, unacked2) :=
    if ackf then
      match rev_pending !! tcp_ack s with
      | Some sent_ts =>
          let rtt := ((ts s - sent_ts) * 1000.0)%Q in
          (if Qltb 0 rtt && Qltb rtt 5000
           then rtt_samples f ++ [rtt] else rtt_samples f,
           <[rev_dir := delete (tcp_ack s) rev_pending]> unacked1)
      | None => (rtt_samples f, unacked1)
      end
    else (rtt_samples f, unacked1) in
  mkStreamMetrics (flow_id f) (src_key f) (dst_key f) (start_ts f) (ts s)
    (packets f + 1) (bytes_total f) (bytes_payload f + payload_len s)
    (syn_seen f || (syn && negb ackf)) (syn_ack_seen f || (syn && ackf))
    (fin_seen f || has_flag fl TH_FIN) (rst_seen f || has_flag fl TH_RST)
    (handshake_rtt f) samples2
    (if has_payload && bool_decide (v = FastRetrans)
     then retrans_fast f + 1 else retrans_fast f)
    (if has_payload && bool_decide (v = RtoRetrans)
     then retrans_rto f + 1 else retrans_rto f)
    (retrans_spurious f) (dup_acks f)
    (if (tcp_win s =? 0) && negb (has_flag fl TH_RST)
     then zero_wins f + 1 else zero_wins f)
    (win_full_events f) next' unacked2.

Record ForensicsEngine := mkForensicsEngine {
  streams : gmap FlowKey StreamMetrics;
  global_packets : Z;
  global_bytes : Z;
  start_capture : option Q;       (* [None] is [float('inf')] *)
  end_capture : Q
}.

Definition new_ForensicsEngine : ForensicsEngine :=
  mkForensicsEngine ∅ 0 0 None 0.

(** The stream creation of lines 191-194. *)
Definition created (s : Segment) (k : FlowKey)
    (m : gmap FlowKey StreamMetrics) : StreamMetrics :=
  let f := new_StreamMetrics (Z.of_nat (size m) + 1) k in
  mkStreamMetrics (flow_id f) (src_key f) (dst_key f) (ts s) (last_ts f)
    (packets f) (bytes_total f) (bytes_payload f) (syn_seen f)
    (syn_ack_seen f) (fin_seen f) (rst_seen f) (handshake_rtt f)
    (rtt_samples f) (retrans_fast f) (retrans_rto f) (retrans_spurious f)
    (dup_acks f) (zero_wins f) (win_full_events f) (next_seq f)
    (unacked_segments f).

(** [ForensicsEngine.analyze_packet] on a frame that decodes to an IP/TCP
    packet (the path through line 171 and below; the early returns of
    lines 160-169 are in [analyze_frame]). *)
Definition analyze_packet (e : ForensicsEngine) (s : Segment)
    : ForensicsEngine :=
  let '(flow_key, direction) := normalize_key s in
  let flow := default (created s flow_key (streams e)) (streams e !! flow_key) in
  mkForensicsEngine
    (<[flow_key := analyze_stream s direction flow]> (streams e))
    (global_packets e + 1) (global_bytes e + wire_len s)
    (match start_capture e with
     | None => Some (ts s)
     | Some x => Some (Qmin x (ts s))
     end)
    (Qmax (end_capture e) (ts s)).

Definition run (pkts : list Segment) : ForensicsEngine :=
  foldl analyze_packet new_ForensicsEngine pkts.

(** A frame of the capture file.  [analyze_packet] counts every frame in
    the global counters (lines 154-157) and then returns early on a frame
    that is not IP/TCP or that dpkt cannot decode (lines 160-169): of such
    a frame only the timestamp and the length are used. *)
Inductive Frame :=
  | TcpFrame (s : Segment)
  | OtherFrame (t : Q) (len : Z).

Definition frame_len (fr : Frame) : Z :=
  match fr with
  | TcpFrame s => wire_len s
  | OtherFrame _ len => len
  end.

(** Lines 154-157 followed by the early [return]. *)
Definition count_frame (e : ForensicsEngine) (t : Q) (len : Z)
    : ForensicsEngine :=
  mkForensicsEngine (streams e)
    (global_packets e + 1) (global_bytes e + len)
    (match start_capture e with
     | None => Some t
     | Some x => Some (Qmin x t)
     end)
    (Qmax (end_capture e) t).

(** [ForensicsEngine.analyze_packet] on any frame, lines 153-261. *)
Definition analyze_frame (e : ForensicsEngine) (fr : Frame)
    : ForensicsEngine :=
  match fr with
  | TcpFrame s => analyze_packet e s
  | OtherFrame t len => count_frame e t len
  end.

Definition run_frames (frames : list Frame) : ForensicsEngine :=
  foldl analyze_frame new_ForensicsEngine frames.

(** The decoded IP/TCP packets among the frames, in capture order. *)
Definition tcp_segments (frames : list Frame) : list Segment :=
  omap (λ fr, match fr with
              | TcpFrame s => Some s
              | OtherFrame _ _ => None
              end) frames.

(** *** [generate_report]: the figures and the verdict

    The hypotheses are kept as tags with the numbers they would print. *)

Definition HIGH_LATENCY_MS : Q := 150.0.


(** Line 264; [start_capture] is still [float('inf')] when no packet was
    read, and [max(0.01, -inf)] is 0.01. *)
Definition duration (e : ForensicsEngine) : Q :=
  match start_capture e with
  | Some b => Qmax 0.01 (end_capture e - b)
  | None => 0.01%Q
  end.

(** Line 367. *)
Definition avg_throughput_mbps (e : ForensicsEngine) : option Q :=
  r ← py_truediv (inject_Z (global_bytes e * 8)) (duration e);
  Some (r / 1000000)%Q.

Inductive RootCause :=
| HighRetransmissionRate (ratio : Q)
| ModerateRetransmissionRate (ratio : Q)
| AverageRttAboveThreshold (rtt : Q)
| ZeroWindowEvents (events : Z)
| NormalBaseline.

Record Report := mkReport {
  total_retrans : Z;
  report_avg_rtt : Q;
  retrans_ratio : Q;
  total_zero_wins : Z;
  health : string;
  primary_issue : string;
  hypotheses : list RootCause
}.


End V10.

(** ** analyze_tcp_dpkt_full_trend.py: the per-IP aggregation

    The script is top-level code over module globals.  [flow_results] and the
    two per-IP dictionaries are the globals the aggregation touches. *)

Module FullTrend.

Record FlowResult := mkFlowResult {
  client : Q;
  network : Q;
  server : Q
}.











(** *** The per-stream statistics, lines 15-30 and 90-125 *)

Record Stats := mkStats {
  count : Z;
  wins : list Z;
  seqs : list Z;
  timestamps : list Q;
  retrans : Z;
  rto : Z;
  cont_retrans : Z;
  last_seq : option Z;
  psh_small : Z;
  win_ts : list (Q * Z)
}.

(** The factory of the [streams] defaultdict. *)
Definition new_Stats : Stats := mkStats 0 [] [] [] 0 0 0 None 0 [].

(** [update_stats]; [last_seq] is the sequence number of the latest
    retransmission. *)
Definition update_stats (stats : Stats) (win : Z) (is_rto is_retrans : bool)
    (sq : Z) (t : Q) : Stats :=
  mkStats (count stats + 1) (wins stats ++ [win]) (seqs stats ++ [sq])
    (timestamps stats ++ [t])
    (retrans stats + (if is_retrans then 1 else 0))
    (rto stats + (if is_rto then 1 else 0))
    (if is_retrans && bool_decide (last_seq stats = Some sq)
     then cont_retrans stats + 1 else cont_retrans stats)
    (if is_retrans then Some sq else last_seq stats)
    (psh_small stats + (if (win <? 200) && (0 <? win) then 1 else 0))
    (win_ts stats ++ [(t, win)]).

(** The two module-level dictionaries the capture loop writes. *)
Record LoopState := mkLoopState {
  streams : gmap FlowKey Stats;
  seen_seq : gmap FlowKey (gset Z)
}.

(** Lines 108-123: one iteration on a decoded segment. *)
Definition process_packet (st : LoopState) (s : Segment) : LoopState :=
  let stream_key := flow_key_of s in
  let is_retrans :=
    bool_decide (tcp_seq s ∈ default ∅ (seen_seq st !! stream_key)) in
  let is_rto := is_retrans && (0 <? payload_len s) in
  mkLoopState
    (<[stream_key :=
         update_stats (dd_get new_Stats stream_key (streams st)) (tcp_win s)
           is_rto is_retrans (tcp_seq s) (ts s)]> (streams st))
    (<[stream_key :=
         {[tcp_seq s]} ∪ default ∅ (seen_seq st !! stream_key)]>
       (seen_seq st)).

Definition capture_loop (pkts : list Segment) : LoopState :=
  foldl process_packet (mkLoopState ∅ ∅) pkts.

(** *** [compute_flow_prob] and the overall probabilities *)

Definition rto_w : Q := 0.4.
Definition cont_retrans_w : Q := 0.2.
Definition retrans_w : Q := 0.2.
Definition win_w : Q := 0.1.
Definition rtt_w : Q := 0.1.

(** [np.diff] of a list. *)
Definition np_diff (l : list Q) : list Q :=
  match l with
  | [] => []
  | _ :: l' => zip_with (λ a b, (b - a)%Q) l l'
  end.

Section Prob.
(** [np.std] is numpy's; its result is only compared with a threshold and
    handed back. *)
Variable np_std : list Q → Q.

(** Lines 45-69: the unnormalised [(prob_client, prob_network,
    prob_server)]. *)
Definition raw_prob (stats : Stats) (avg_win rtt_jitter : Q) : Q * Q * Q :=
  let '(c1, n1, s1) :=
    if Qltb avg_win 200
    then (0 + win_w, 0 + win_w / 2, 0 + win_w / 2)%Q else (0, 0, 0)%Q in
  let n2 := (n1 + inject_Z (rto stats) * rto_w)%Q in
  let c2 := (c1 + inject_Z (rto stats) * rto_w * 0.5)%Q in
  let s2 := (s1 + inject_Z (rto stats) * rto_w * 0.5)%Q in
  let n3 := (n2 + inject_Z (retrans stats) * retrans_w)%Q in
  let c3 := (c2 + inject_Z (retrans stats) * retrans_w * 0.5)%Q in
  let s3 := (s2 + inject_Z (retrans stats) * retrans_w * 0.5)%Q in
  let n4 := (n3 + inject_Z (cont_retrans stats) * cont_retrans_w)%Q in
  let c4 := (c3 + inject_Z (cont_retrans stats) * cont_retrans_w * 0.5)%Q in
  let s4 := (s3 + inject_Z (cont_retrans stats) * cont_retrans_w * 0.5)%Q in
  if Qltb 0.03 rtt_jitter
  then (c4 + rtt_w * 0.5, n4 + rtt_w, s4 + rtt_w * 0.5)%Q
  else (c4, n4, s4).

(** [compute_flow_prob]: [(prob_client, prob_network, prob_server)]
    together with [avg_win] and [rtt_jitter]. *)
Definition compute_flow_prob (stats : Stats)
    : option (FlowResult * Q * Q) :=
  avg_win ← (match wins stats with
             | [] => Some 0%Q
             | _ => np_mean (inject_Z <$> wins stats)
             end);
  let rtt_jitter :=
    if decide (1 < length (timestamps stats))%nat
    then np_std (np_diff (timestamps stats)) else 0%Q in
  let '(prob_client, prob_network, prob_server) :=
    raw_prob stats avg_win rtt_jitter in
  let total := (prob_client + prob_network + prob_server)%Q in
  if Qltb 0 total then
    c ← py_truediv prob_client total;
    n ← py_truediv prob_network total;
    s ← py_truediv prob_server total;
    Some (mkFlowResult c n s, avg_win, rtt_jitter)
  else Some (mkFlowResult 0.33 0.33 0.33, avg_win, rtt_jitter).

(** Lines 130-134: the per-flow results, in the iteration order of
    [streams]. *)
Definition flow_results_of (items : list (FlowKey * Stats))
    : option (list (FlowKey * FlowResult)) :=
  mapM (λ kv, r ← compute_flow_prob kv.2; Some (kv.1, r.1.1)) items.

(** Lines 145-150: the three bars of the overall chart. *)
Definition overall_values (results : list (FlowKey * FlowResult))
    : option (Q * Q * Q) :=
  let total_client := py_sum ((λ kv, client kv.2) <$> results) in
  let total_network := py_sum ((λ kv, network kv.2) <$> results) in
  let total_server := py_sum ((λ kv, server kv.2) <$> results) in
  let total_sum := (total_client + total_network + total_server)%Q in
  c ← py_truediv total_client total_sum;
  n ← py_truediv total_network total_sum;
  s ← py_truediv total_server total_sum;
  Some (c, n, s).
End Prob.

End FullTrend.

(** ** pcap_analyzer.py: the pending map of the continuous RTT tracking

    Of [TCPFlow] the attribute [sent_seqs] is embedded, together with the
    part of [PcapAnalyzer._analyze_tcp] that reads or writes it (lines
    212-218 and 279-306) and the samples that this part hands to
    [add_rtt_sample].  The handshake samples of lines 238-262 reach
    [rtt_samples] on another path and are left out. *)

Module PcapAnalyzer.

Definition ConnKey : Type := Endpoint * Endpoint.

(** [_get_flow_key], lines 149-160. *)
Definition _get_flow_key (s : Segment) : ConnKey * Z :=
  let endpoint_a := (src_ip s, sport s) in
  let endpoint_b := (dst_ip s, dport s) in
  if endpoint_ltb endpoint_a endpoint_b
  then ((endpoint_a, endpoint_b), 0)
  else ((endpoint_b, endpoint_a), 1).

Record TCPFlow := mkTCPFlow {
  sent_seqs : gmap Z (gmap Z Q);   (* direction -> next seq -> timestamp *)
  continuous_rtt : list Q          (* samples of line 299, milliseconds *)
}.

(** [TCPFlow.__init__], line 59: [{0: {}, 1: {}}]. *)
Definition new_TCPFlow : TCPFlow :=
  mkTCPFlow (<[0 := ∅]> (<[1 := ∅]> ∅)) [].

(** Step A, lines 282-289: a segment that carries data, a SYN without ACK
    or a FIN stores its timestamp under the next expected sequence
    number. *)
Definition store_sent (s : Segment) (direction : Z)
    (m : gmap Z (gmap Z Q)) : gmap Z (gmap Z Q) :=
  let is_syn := has_flag (tcp_flags s) TH_SYN in
  let is_ack := has_flag (tcp_flags s) TH_ACK in
  let is_fin := has_flag (tcp_flags s) TH_FIN in
  if (0 <? payload_len s) || (is_syn && negb is_ack) || is_fin then
    let next_seq :=
      tcp_seq s + payload_len s
      + (if is_syn && negb is_ack then 1 else 0)
      + (if is_fin then 1 else 0) in
    <[direction := <[next_seq := ts s]> (dd_get ∅ direction m)]> m
  else m.

(** Step B, lines 292-306: an ACK with a positive acknowledgment number
    takes a sample from the entry of the opposite direction that it
    matches exactly, deletes that entry when the sample is positive, and
    then deletes every entry whose key lies below the acknowledgment
    number. *)
Definition resolve_ack (s : Segment) (direction : Z) (f : TCPFlow)
    : TCPFlow :=
  let opposite_direction := if direction =? 0 then 1 else 0 in
  if has_flag (tcp_flags s) TH_ACK && (0 <? tcp_ack s) then
    let ack_num := tcp_ack s in
    let pending := dd_get ∅ opposite_direction (sent_seqs f) in
    let '(pending1, samples1) :=
      match pending !! ack_num with
      | Some sent_ts =>
          let rtt := ((ts s - sent_ts) * 1000.0)%Q in
          if Qltb 0 rtt
          then (delete ack_num pending, continuous_rtt f ++ [rtt])
          else (pending, continuous_rtt f)
      | None => (pending, continuous_rtt f)
      end in
    mkTCPFlow
      (<[opposite_direction :=
           filter (λ kv, ¬ (kv.1 < ack_num)) pending1]> (sent_seqs f))
      samples1
  else f.

(** Lines 212-218 and 279-306 of [_analyze_tcp]. *)
Definition _analyze_tcp (flows : gmap ConnKey TCPFlow) (s : Segment)
    : gmap ConnKey TCPFlow :=
  let '(key, direction) := _get_flow_key s in
  let flow := dd_get new_TCPFlow key flows in
  <[key := resolve_ack s direction
             (mkTCPFlow (store_sent s direction (sent_seqs flow))
                (continuous_rtt flow))]> flows.

Definition process (pkts : list Segment) : gmap ConnKey TCPFlow :=
  foldl _analyze_tcp ∅ pkts.

End PcapAnalyzer.

(** ** Directions and unordered endpoint pairs

    Vocabulary for statements about canonical flow keys. *)

(** The key of the opposite direction. *)
Definition swap_key (k : FlowKey) : FlowKey :=
  let '(a, ap, b, bp) := k in (b, bp, a, ap).

(** The unordered pair of endpoints of a directed key. *)
Definition endpoint_pair (k : FlowKey) : gset Endpoint :=
  let '(a, ap, b, bp) := k in {[ (a, ap); (b, bp) ]}.

(** The same segment travelling the other way. *)
Definition swap_segment (s : Segment) : Segment :=
  mkSegment (ts s) (dst_ip s) (dport s) (src_ip s) (sport s) (tcp_seq s)
    (tcp_ack s) (tcp_flags s) (tcp_win s) (payload_len s) (wire_len s).

(** ** The retransmission rule in the specification's words

    Section 4.2 of the specification, kept apart from the scripts so that
    the two can be compared: the baseline is the average RTT once three
    samples exist and a fixed fallback before that; a retransmission is a
    timeout when the time since the last observation on the flow exceeds
    [max(RTO_FLOOR, 2 * baseline)]. *)

Module SpecRule.

Definition baseline (fallback : Q) (samples : list Q) : Q :=
  if decide (3 ≤ length samples)%nat
  then (Qsum samples / inject_Z (Z.of_nat (length samples)))%Q
  else fallback.


End SpecRule.

(** ** Synthetic captures used by the closed statements below *)

Module Scenario.

Definition A : string := "10.0.0.1".
Definition B : string := "10.0.0.2".
Definition kAB : FlowKey := (A, 40000, B, 80).
Definition kBA : FlowKey := (B, 80, A, 40000).

(** A payload segment from [A] to [B]. *)
Definition data (t : Q) (sq len : Z) : Segment :=
  mkSegment t A 40000 B 80 sq 0 (Z.lor TH_ACK TH_PUSH) 65535 len (len + 54).

(** A bare ACK from [B] to [A]. *)
Definition ack_from_B (t : Q) (a : Z) : Segment :=
  mkSegment t B 80 A 40000 9000 a TH_ACK 65535 0 54.

(** A RST from [B] to [A] advertising a zero window. *)
Definition rst_zero_window : Segment :=
  mkSegment 2.0 B 80 A 40000 9000 0 TH_RST 0 0 54.

(** Start sequence numbers 100, 200, 100, 300, each with 100 bytes. *)
Definition repeat_100 : list Segment :=
  [data 0.1 100 100; data 0.2 200 100; data 0.3 100 100; data 0.4 300 100].

(** One data segment and the ACK that answers it 50 ms later. *)
Definition data_then_ack : list Segment :=
  [data 1.000 100 50; ack_from_B 1.050 150].

(** The same exchange with a retransmitted copy of the data segment in
    between. *)
Definition data_copy_then_ack : list Segment :=
  [data 1.000 100 50; data 1.030 100 50; ack_from_B 1.050 150].

(** Two data segments answered by one cumulative ACK. *)
Definition two_data_one_ack : list Segment :=
  [data 1.000 100 50; data 1.010 150 50; ack_from_B 1.050 200].



(** A capture of one packet. *)
Definition single_packet : list Segment := [data 1.000 100 50].

(** The [A]-to-[B] flow object that [analyze_pcap] builds from a capture. *)
Definition report_flow (pkts : list Segment) : Report.FlowMetrics :=
  dd_get Report.new_FlowMetrics kAB (Report.flows (Report.analyze_pcap pkts)).

(** A stream of two packets, the second repeating the first sequence
    number; no ACK ever matched, so there is no RTT sample. *)
Definition repeated_stats : ProReport.Stats :=
  ProReport.mkStats 2 [65535; 65535] [] 1 1 1 (Some 100) 0
    (<[100 := 1.030%Q]> ∅).

(** Stands for [np.std] in closed statements about flows with no RTT
    sample, on which no scorer calls it. *)
Definition np_std_unused : list Q → Q := λ _, 0%Q.

(** The triple of a diagnosis, in lowest terms. *)
Definition report_triple (d : Report.Diagnosis) : Q * Q * Q :=
  (Qred (Report.p_client d), Qred (Report.p_network d),
   Qred (Report.p_server d)).

Definition proreport_triple (m : ProReport.Metrics) : Q * Q * Q :=
  (Qred (ProReport.client m), Qred (ProReport.network m),
   Qred (ProReport.server m)).


End Scenario.

(** * Properties *)

(** ** Comparison and flag helpers *)

Lemma Qltb_lt (a b : Q) : Qltb a b = true ↔ (a < b)%Q.
Proof.
  unfold Qltb. rewrite negb_true_iff. split.
  - intros H. apply Qnot_le_lt. intros Hle.
    apply Qle_bool_iff in Hle. congruence.
  - intros H. destruct (Qle_bool b a) eqn:E; [|done].
    apply Qle_bool_iff in E. exfalso. eapply Qlt_not_le; eauto.
Qed.

Lemma Qltb_ge (a b : Q) : Qltb a b = false ↔ (b <= a)%Q.
Proof.
  unfold Qltb. rewrite negb_false_iff. apply Qle_bool_iff.
Qed.

Lemma map_Forall_alter_keep `{Countable K} {V} (P : V → Prop) (f : V → V)
    (k : K) (m : gmap K V) :
  (∀ x, P x → P (f x)) →
  map_Forall (λ _, P) m → map_Forall (λ _, P) (alter f k m).
Proof.
  intros Hf Hm j y Hj. apply lookup_alter_Some in Hj as [(-> & x & Hx & ->)|[_ Hj]].
  - apply Hf. eapply Hm, Hx.
  - eapply Hm, Hj.
Qed.

(** ** pcap_analyzer_v4.py: the anomaly detector *)

Section V4_facts.
Import V4.

Lemma AnomalyDetector_out_of_order (s : Segment) (f : FlowMetrics) :
  out_of_order (AnomalyDetector_process s f) = out_of_order f.
Proof.
  unfold AnomalyDetector_process.
  destruct (0 <? payload_len s); simpl; [|done].
  destruct (bool_decide (tcp_seq s ∈ seen_seqs f)) eqn:E.
  - rewrite E, andb_false_r. done.
  - rewrite bool_decide_eq_true_2 by set_solver.
    rewrite andb_false_r. done.
Qed.

Lemma resolve_rtt_out_of_order (s : Segment) (f : FlowMetrics) :
  out_of_order (resolve_rtt s f) = out_of_order f.
Proof.
  unfold resolve_rtt. destruct (has_flag _ _); [|done].
  destruct (_ !! _); done.
Qed.

Lemma ensure_flow_no_ooo (k : FlowKey) (m : gmap FlowKey FlowMetrics) :
  map_Forall (λ _ f, out_of_order f = 0) m →
  map_Forall (λ _ f, out_of_order f = 0) (ensure_flow k m).
Proof.
  intros Hm. unfold ensure_flow. destruct (m !! k) eqn:E; [done|].
  apply map_Forall_insert_2; [|done].
  destruct k as [[[a ap] b] bp]. done.
Qed.

Lemma process_packet_no_ooo (st : GlobalState) (s : Segment) :
  map_Forall (λ _ f, out_of_order f = 0) (flows st) →
  map_Forall (λ _ f, out_of_order f = 0) (flows (process_packet st s)).
Proof.
  intros Hst. unfold process_packet. simpl.
  apply map_Forall_alter_keep.
  { intros x Hx. by rewrite AnomalyDetector_out_of_order. }
  apply map_Forall_alter_keep; [done|].
  apply map_Forall_alter_keep.
  { intros x Hx. by rewrite resolve_rtt_out_of_order. }
  apply map_Forall_alter_keep; [done|].
  by do 2 apply ensure_flow_no_ooo.
Qed.

Lemma foldl_process_packet_no_ooo (pkts : list Segment) (st : GlobalState) :
  map_Forall (λ _ f, out_of_order f = 0) (flows st) →
  map_Forall (λ _ f, out_of_order f = 0)
    (flows (foldl process_packet st pkts)).
Proof.
  revert st. induction pkts as [|s pkts IH]; intros st Hst; [done|].
  simpl. apply IH, process_packet_no_ooo, Hst.
Qed.

(** C10.  In [AnomalyDetector.process] the start sequence number is in
    [seen_seqs] by the time the out-of-order test runs, so the test never
    succeeds: the detector leaves [out_of_order] as it found it, and after
    any capture every flow has [out_of_order = 0]. *)
Theorem C10_out_of_order_never_incremented :
  (∀ (s : Segment) (f : FlowMetrics),
      out_of_order (AnomalyDetector_process s f) = out_of_order f)
  ∧ (∀ pkts : list Segment,
      map_Forall (λ _ f, out_of_order f = 0) (flows (run pkts))).
Proof.
  split; [apply AnomalyDetector_out_of_order|].
  intros pkts. apply foldl_process_packet_no_ooo. apply map_Forall_empty.
Qed.

End V4_facts.

(** ** The repeated-segment capture (start sequence numbers 100, 200, 100,
    300) *)

Section Retransmission_exactness.
Import Scenario.

Lemma report_repeat_100 :
  Report.retrans <$> Report.flows (Report.analyze_pcap repeat_100) !! kAB
  = Some 1
  ∧ Report.max_seq <$> Report.flows (Report.analyze_pcap repeat_100) !! kAB
    = Some 300.
Proof. vm_compute. split; reflexivity. Qed.

Lemma v4_repeat_100 :
  V4.retransmissions <$> V4.flows (V4.run repeat_100) !! kAB = Some 1
  ∧ V4.out_of_order <$> V4.flows (V4.run repeat_100) !! kAB = Some 0
  ∧ V4.max_seq <$> V4.flows (V4.run repeat_100) !! kAB = Some 300.
Proof. vm_compute. repeat split; reflexivity. Qed.

(** C3, as stated, fails: on the capture with start sequence numbers 100,
    200, 100, 300 and 100 bytes each, neither tracker ends with a maximum
    of 400. *)
Lemma C3_max_seq_does_not_reach_400 :
  Report.max_seq <$> Report.flows (Report.analyze_pcap repeat_100) !! kAB
  ≠ Some 400
  ∧ V4.max_seq <$> V4.flows (V4.run repeat_100) !! kAB ≠ Some 400.
Proof.
  split; intros H.
  - pose proof report_repeat_100 as [_ H']. rewrite H' in H. discriminate H.
  - pose proof v4_repeat_100 as (_ & _ & H'). rewrite H' in H.
    discriminate H.
Qed.

(** C3, amended.  Whatever the other fields of the four segments are, on
    start sequence numbers 100, 200, 100, 300 with 100 bytes each
    [AnomalyDetector.process] of pcap_analyzer_v4.py counts exactly one
    retransmission and no out-of-order event, the tracker of
    analyze_and_generate_report.py counts exactly one retransmission, and
    both end with [max_seq = 300]: the largest start sequence number seen,
    not the largest [seq + payload_len]. *)
Theorem C3_one_retransmission_and_max_seq_300 (k : FlowKey)
    (s1 s2 s3 s4 : Segment) :
  tcp_seq <$> [s1; s2; s3; s4] = [100; 200; 100; 300] →
  payload_len <$> [s1; s2; s3; s4] = [100; 100; 100; 100] →
  let f :=
    foldl (λ f s, V4.AnomalyDetector_process s f) (V4.new_FlowMetrics k)
      [s1; s2; s3; s4] in
  let fm :=
    foldl (λ fm s, Report.track_retrans s fm) Report.new_FlowMetrics
      [s1; s2; s3; s4] in
  (V4.retransmissions f = 1 ∧ V4.out_of_order f = 0 ∧ V4.max_seq f = 300)
  ∧ (Report.retrans fm = 1 ∧ Report.max_seq fm = 300).
Proof.
  destruct k as [[[a ap] b] bp], s1, s2, s3, s4. simpl.
  intros [= -> -> -> ->] [= -> -> -> ->].
  vm_compute. repeat split; reflexivity.
Qed.

Lemma C3_one_retransmission_and_max_seq_300_witness :
  let f :=
    foldl (λ f s, V4.AnomalyDetector_process s f) (V4.new_FlowMetrics kAB)
      repeat_100 in
  let fm :=
    foldl (λ fm s, Report.track_retrans s fm) Report.new_FlowMetrics
      repeat_100 in
  (V4.retransmissions f = 1 ∧ V4.out_of_order f = 0 ∧ V4.max_seq f = 300)
  ∧ (Report.retrans fm = 1 ∧ Report.max_seq fm = 300).
Proof.
  apply (C3_one_retransmission_and_max_seq_300 kAB
           (data 0.1 100 100) (data 0.2 200 100) (data 0.3 100 100)
           (data 0.4 300 100)); reflexivity.
Defined.

End Retransmission_exactness.

(** ** Zero-window accounting *)

Section Zero_window.

Lemma v10_zero_wins_exact (s : Segment) (d : Z) (f : V10.StreamMetrics) :
  V10.zero_wins (V10.analyze_stream s d f)
  = if (tcp_win s =? 0) && negb (has_flag (tcp_flags s) TH_RST)
    then V10.zero_wins f + 1 else V10.zero_wins f.
Proof. unfold V10.analyze_stream. repeat case_match; done. Qed.

Lemma v4_zero_window_exact (s : Segment) (f : V4.FlowMetrics) :
  V4.zero_window_count (V4.AnomalyDetector_process s f)
  = if (tcp_win s =? 0) && negb (has_flag (tcp_flags s) TH_RST)
    then V4.zero_window_count f + 1 else V4.zero_window_count f.
Proof. unfold V4.AnomalyDetector_process. repeat case_match; done. Qed.

Lemma v9_zero_win_events (s : Segment) (f : V9.FlowMetrics) :
  V9.zero_win_events (V9._analyze_packet s f)
  = if tcp_win s =? 0
    then V9.zero_win_events f + 1 else V9.zero_win_events f.
Proof. unfold V9._analyze_packet. repeat case_match; done. Qed.

(** C7 at the failing input.  [ForensicEngine._analyze_packet] of
    pcap_analyzer_v9.py tests the window only: a RST that advertises a
    zero window is counted as a zero-window event. *)
Theorem C7_v9_counts_rst_with_zero_window :
  has_flag (tcp_flags Scenario.rst_zero_window) TH_RST = true
  ∧ tcp_win Scenario.rst_zero_window = 0
  ∧ V9.zero_win_events
      <$> V9.flows (V9.process_pcap [Scenario.rst_zero_window])
          !! V9._get_flow_key Scenario.B 80 Scenario.A 40000
    = Some 1.
Proof. vm_compute. repeat split; reflexivity. Qed.

End Zero_window.

(** ** Canonical flow keys *)

Section Canonicalization.

Lemma endpoint_ltb_asym (a b : Endpoint) :
  endpoint_ltb a b = true → endpoint_ltb b a = false.
Proof.
  unfold endpoint_ltb. rewrite (String.compare_antisym b.1 a.1).
  destruct (String.compare a.1 b.1); simpl; try done.
  intros H. apply Z.ltb_lt in H. apply Z.ltb_ge. lia.
Qed.

Lemma endpoint_ltb_total (a b : Endpoint) :
  endpoint_ltb a b = false → endpoint_ltb b a = false → a = b.
Proof.
  unfold endpoint_ltb. rewrite (String.compare_antisym b.1 a.1).
  destruct (String.compare a.1 b.1) eqn:E; simpl; try done.
  apply String.compare_eq_iff in E.
  intros H1 H2. apply Z.ltb_ge in H1, H2.
  destruct a as [a1 a2], b as [b1 b2]; simpl in *. f_equal; [done|lia].
Qed.

Lemma session_key_swap (k : FlowKey) :
  Report.session_key (swap_key k) = Report.session_key k.
Proof.
  destruct k as [[[a ap] b] bp]. unfold Report.session_key, swap_key.
  destruct (endpoint_ltb (a, ap) (b, bp)) eqn:E1.
  - by rewrite (endpoint_ltb_asym _ _ E1).
  - destruct (endpoint_ltb (b, bp) (a, ap)) eqn:E2; [done|].
    pose proof (endpoint_ltb_total _ _ E1 E2) as [= -> ->]. done.
Qed.

Lemma session_key_cases (k : FlowKey) :
  Report.session_key k = k ∨ Report.session_key k = swap_key k.
Proof.
  destruct k as [[[a ap] b] bp]. unfold Report.session_key, swap_key.
  destruct (endpoint_ltb _ _); auto.
Qed.

Lemma endpoint_pair_swap (k : FlowKey) :
  endpoint_pair (swap_key k) = endpoint_pair k.
Proof. destruct k as [[[a ap] b] bp]. unfold endpoint_pair, swap_key. set_solver. Qed.

Lemma endpoint_pair_eq (k1 k2 : FlowKey) :
  endpoint_pair k1 = endpoint_pair k2 → k2 = k1 ∨ k2 = swap_key k1.
Proof.
  destruct k1 as [[[a ap] b] bp], k2 as [[[c cp] d] dp].
  unfold endpoint_pair, swap_key. intros H.
  assert (∀ e : Endpoint,
            e ∈ ({[(a, ap); (b, bp)]} : gset Endpoint)
            ↔ e ∈ ({[(c, cp); (d, dp)]} : gset Endpoint)) as He.
  { intros e. by rewrite H. }
  pose proof (proj1 (He (a, ap))) as Ha. pose proof (proj1 (He (b, bp))) as Hb.
  pose proof (proj2 (He (c, cp))) as Hc. pose proof (proj2 (He (d, dp))) as Hd.
  clear He H. rewrite !elem_of_union, !elem_of_singleton in Ha, Hb, Hc, Hd.
  destruct (Ha (or_introl eq_refl)) as [Ea|Ea],
           (Hb (or_intror eq_refl)) as [Eb|Eb],
           (Hc (or_introl eq_refl)) as [Ec|Ec],
           (Hd (or_intror eq_refl)) as [Ed|Ed];
    simplify_eq; auto.
Qed.

(** The session key and the unordered endpoint pair identify the same
    directed keys. *)
Lemma session_key_kernel (k1 k2 : FlowKey) :
  Report.session_key k1 = Report.session_key k2
  ↔ endpoint_pair k1 = endpoint_pair k2.
Proof.
  split.
  - intros H.
    assert (∀ k, endpoint_pair (Report.session_key k) = endpoint_pair k) as Hp.
    { intros k. destruct (session_key_cases k) as [-> | ->];
        [done | apply endpoint_pair_swap]. }
    rewrite <- (Hp k1), <- (Hp k2). by rewrite H.
  - intros H. destruct (endpoint_pair_eq _ _ H) as [-> | ->];
      [done | by rewrite session_key_swap].
Qed.

(** Two maps with the same kernel on a finite set have images of the same
    size. *)
Lemma size_set_map_same_kernel `{Countable T, Countable U, Countable W}
    (f : T → U) (g : T → W) (X : gset T) :
  (∀ x y, f x = f y ↔ g x = g y) →
  size (set_map (D:=gset U) f X) = size (set_map (D:=gset W) g X).
Proof.
  intros Hk. induction X as [|x X Hx IH] using set_ind_L.
  - by rewrite !set_map_empty.
  - rewrite !set_map_union_L, !set_map_singleton_L.
    destruct (decide (f x ∈ set_map (D:=gset U) f X)) as [Hin|Hnin].
    + assert (g x ∈ set_map (D:=gset W) g X) as Hin'.
      { apply elem_of_map in Hin as (y & Hy & HyX).
        apply elem_of_map. exists y. split; [by apply Hk|done]. }
      rewrite !subseteq_union_1_L by set_solver. done.
    + assert (g x ∉ set_map (D:=gset W) g X) as Hnin'.
      { intros Hin'. apply Hnin.
        apply elem_of_map in Hin' as (y & Hy & HyX).
        apply elem_of_map. exists y. split; [by apply Hk|done]. }
      rewrite !size_union by set_solver. rewrite !size_singleton. lia.
Qed.

Lemma py_sorted_pair (a b : Endpoint) :
  V5.py_sorted [a; b] = if endpoint_ltb b a then [b; a] else [a; b].
Proof. reflexivity. Qed.

Lemma get_stream_id_swap (s : Segment) :
  (V5.get_stream_id (swap_segment s)).1 = (V5.get_stream_id s).1.
Proof.
  unfold V5.get_stream_id, swap_segment. cbn [fst src_ip sport dst_ip dport].
  rewrite !py_sorted_pair.
  set (a := (src_ip s, sport s)). set (b := (dst_ip s, dport s)).
  destruct (endpoint_ltb b a) eqn:E1.
  - by rewrite (endpoint_ltb_asym _ _ E1).
  - destruct (endpoint_ltb a b) eqn:E2; [done|].
    by rewrite (endpoint_ltb_total _ _ E2 E1).
Qed.

Lemma unique_sessions_swaps (ks : list FlowKey) :
  Report.unique_sessions (list_to_set (ks ++ (swap_key <$> ks)))
  = Report.unique_sessions (list_to_set ks).
Proof.
  unfold Report.unique_sessions. apply set_eq. intros k.
  rewrite !elem_of_map. split.
  - intros (x & -> & Hx). apply elem_of_list_to_set, elem_of_app in Hx.
    destruct Hx as [Hx|Hx].
    + exists x. split; [done|]. by apply elem_of_list_to_set.
    + apply list_elem_of_fmap in Hx as (y & -> & Hy).
      exists y. split; [apply session_key_swap|].
      by apply elem_of_list_to_set.
  - intros (x & -> & Hx). exists x. split; [done|].
    apply elem_of_list_to_set, elem_of_app. left.
    by apply elem_of_list_to_set in Hx.
Qed.

Lemma size_list_to_set_same_kernel `{Countable U, Countable W} {T}
    (f : T → U) (g : T → W) (l : list T) :
  (∀ x y, f x = f y ↔ g x = g y) →
  size (list_to_set (f <$> l) : gset U) = size (list_to_set (g <$> l) : gset W).
Proof.
  intros Hk. induction l as [|x l IH]; [done|].
  rewrite !fmap_cons, !list_to_set_cons.
  destruct (decide (f x ∈ (list_to_set (f <$> l) : gset U))) as [Hin|Hnin].
  - assert (g x ∈ (list_to_set (g <$> l) : gset W)) as Hin'.
    { apply elem_of_list_to_set, list_elem_of_fmap in Hin as (y & Hy & Hyl).
      apply elem_of_list_to_set, list_elem_of_fmap.
      exists y. split; [by apply Hk|done]. }
    rewrite !subseteq_union_1_L by set_solver. exact IH.
  - assert (g x ∉ (list_to_set (g <$> l) : gset W)) as Hnin'.
    { intros Hin'. apply Hnin.
      apply elem_of_list_to_set, list_elem_of_fmap in Hin' as (y & Hy & Hyl).
      apply elem_of_list_to_set, list_elem_of_fmap.
      exists y. split; [by apply Hk|done]. }
    rewrite !size_union by set_solver. rewrite !size_singleton. lia.
Qed.

(** The stream id of pcap_analyzer_v5.py lists the two endpoints of the
    segment, so it determines, and is determined by, the unordered pair. *)
Lemma get_stream_id_elements (s : Segment) :
  list_to_set (V5.get_stream_id s).1 = endpoint_pair (flow_key_of s).
Proof.
  unfold V5.get_stream_id, flow_key_of, endpoint_pair. cbn [fst].
  rewrite py_sorted_pair. destruct (endpoint_ltb _ _); set_solver.
Qed.

Lemma get_stream_id_kernel (s1 s2 : Segment) :
  (V5.get_stream_id s1).1 = (V5.get_stream_id s2).1
  ↔ endpoint_pair (flow_key_of s1) = endpoint_pair (flow_key_of s2).
Proof.
  split.
  - intros H. by rewrite <- !get_stream_id_elements, H.
  - intros H. apply endpoint_pair_eq in H.
    assert (∀ s s', flow_key_of s' = flow_key_of s →
              (V5.get_stream_id s').1 = (V5.get_stream_id s).1) as Hsame.
    { intros s s' [= E1 E2 E3 E4]. unfold V5.get_stream_id.
      by rewrite E1, E2, E3, E4. }
    destruct H as [H|H].
    + by apply Hsame.
    + rewrite <- (get_stream_id_swap s1). apply Hsame. symmetry. exact H.
Qed.

(** The stream table of pcap_analyzer_v5.py holds one entry per stream id
    met so far. *)
Lemma v5_streams_dom (pkts : list Segment) (an : V5.TrafficAnalyzer) :
  dom (V5.streams (foldl V5.process_packet an pkts))
  = dom (V5.streams an)
    ∪ list_to_set ((λ s, (V5.get_stream_id s).1) <$> pkts).
Proof.
  revert an. induction pkts as [|s pkts IH]; intros an.
  - simpl. set_solver.
  - rewrite fmap_cons, list_to_set_cons. cbn [foldl]. rewrite IH.
    assert (dom (V5.streams (V5.process_packet an s))
            = {[(V5.get_stream_id s).1]} ∪ dom (V5.streams an)) as ->.
    { unfold V5.process_packet. destruct (V5.get_stream_id s) as [sid d].
      cbn [V5.streams fst]. apply dom_insert_L. }
    generalize (list_to_set ((λ s0, (V5.get_stream_id s0).1) <$> pkts)
                : gset (list Endpoint)).
    intros X. set_solver.
Qed.

Lemma v5_session_count (pkts : list Segment) :
  V5.session_count pkts
  = size (list_to_set ((λ s, endpoint_pair (flow_key_of s)) <$> pkts)
          : gset (gset Endpoint)).
Proof.
  unfold V5.session_count, V5.run. rewrite v5_streams_dom. simpl.
  rewrite dom_empty_L, (left_id_L ∅ (∪)).
  apply size_list_to_set_same_kernel. exact get_stream_id_kernel.
Qed.

(** C2.  Both directions of a connection get the same canonical key, in
    [main] of analyze_and_generate_report.py and in [get_stream_id] of
    pcap_analyzer_v5.py.  The deduplicated session count of [main] is the
    number of distinct unordered endpoint pairs among the directed flow
    keys, so a list of directed keys together with all their reverses counts
    each unordered pair once; the stream table of pcap_analyzer_v5.py ends
    with as many streams as the capture has distinct unordered endpoint
    pairs. *)
Theorem C2_canonical_key_direction_symmetric :
  (∀ k : FlowKey, Report.session_key (swap_key k) = Report.session_key k)
  ∧ (∀ s : Segment,
       (V5.get_stream_id (swap_segment s)).1 = (V5.get_stream_id s).1)
  ∧ (∀ fl : gmap FlowKey Report.FlowMetrics,
       Report.total_tcp_sessions fl
       = size (set_map (D:=gset (gset Endpoint)) endpoint_pair (dom fl)))
  ∧ (∀ ks : list FlowKey,
       size (Report.unique_sessions (list_to_set (ks ++ (swap_key <$> ks))))
       = size (set_map (D:=gset (gset Endpoint)) endpoint_pair
                 (list_to_set ks : gset FlowKey)))
  ∧ (∀ pkts : list Segment,
       V5.session_count pkts
       = size (list_to_set ((λ s, endpoint_pair (flow_key_of s)) <$> pkts)
               : gset (gset Endpoint))).
Proof.
  split; [exact session_key_swap|].
  split; [exact get_stream_id_swap|].
  split; [|split].
  - intros fl. unfold Report.total_tcp_sessions, Report.unique_sessions.
    apply size_set_map_same_kernel. exact session_key_kernel.
  - intros ks. rewrite unique_sessions_swaps.
    unfold Report.unique_sessions.
    apply size_set_map_same_kernel. exact session_key_kernel.
  - exact v5_session_count.
Qed.

End Canonicalization.

(** ** Pending ACK entries *)

Section Pending_acks.
Import Report.

Lemma resolve_rtt_match (s : Segment) (fl : gmap FlowKey FlowMetrics)
    (un : gmap FlowKey (gmap Z Q)) (pending : gmap Z Q) (sent : Q) :
  has_flag (tcp_flags s) TH_ACK = true →
  un !! rev_flow_key_of s = Some pending →
  pending !! tcp_ack s = Some sent →
  (resolve_rtt s fl un).2
  = alter (delete (tcp_ack s)) (rev_flow_key_of s) un.
Proof.
  intros Hack Hun Hp. unfold resolve_rtt. rewrite Hack, Hun. simpl.
  by rewrite Hp.
Qed.

Lemma process_segment_unacked (st : State) (s : Segment) :
  unacked_packets (process_segment st s)
  = register_unacked s
      (resolve_rtt s
         (dd_update new_FlowMetrics (record_packet s) (flow_key_of s)
            (flows st))
         (unacked_packets st)).2.
Proof. unfold process_segment. by destruct (resolve_rtt _ _ _). Qed.

(** C5 at the failing input.  Two data segments with the expected ACKs 150
    and 200 are answered by the one cumulative ACK 200.  In
    analyze_and_generate_report.py the ACK resolves its sample of 0.040 s
    and pops the entry 200 only: the entry 150, which lies below the ACK
    and can never be matched again, is still pending at the end of the
    capture.  The same entry is left in [pending_acks] by
    [StreamTracker.update] of pcap_analyzer_v5.py.  The sibling
    pcap_analyzer.py, whose step B deletes every key below the
    acknowledgment number, ends with both pending maps empty. *)
Theorem C5_entry_below_the_ack_stays_pending :
  unacked_packets (analyze_pcap Scenario.two_data_one_ack) !! Scenario.kAB
    ≫= (λ pending, pending !! 150)
  = Some 1.000%Q
  ∧ fmap Qred
      <$> (rtt_samples
             <$> flows (analyze_pcap Scenario.two_data_one_ack)
                 !! Scenario.kAB)
    = Some [Qred 0.040]
  ∧ V5.streams (V5.run Scenario.two_data_one_ack)
      !! [(Scenario.A, 40000); (Scenario.B, 80)]
      ≫= (λ t, V5.pending_acks t !! 150)
    = Some 1.000%Q
  ∧ PcapAnalyzer.sent_seqs
      <$> PcapAnalyzer.process Scenario.two_data_one_ack
          !! ((Scenario.A, 40000), (Scenario.B, 80))
    = Some (<[0 := ∅]> (<[1 := ∅]> ∅))
  ∧ fmap Qred
      <$> (PcapAnalyzer.continuous_rtt
             <$> PcapAnalyzer.process Scenario.two_data_one_ack
                 !! ((Scenario.A, 40000), (Scenario.B, 80)))
    = Some [Qred 40].
Proof. vm_compute. repeat split; reflexivity. Qed.

(** The cause in analyze_and_generate_report.py: when an ACK-bearing
    segment resolves an RTT sample, [pending.pop(ack)] takes the entry
    whose key equals the acknowledgment number out of the reverse flow's
    pending map and nothing else; every other entry, also one with a
    smaller key, is still there afterwards. *)
Lemma report_ack_removes_only_the_matching_entry (st : State) (s : Segment)
    (pending : gmap Z Q) (sent : Q) :
  has_flag (tcp_flags s) TH_ACK = true →
  unacked_packets st !! rev_flow_key_of s = Some pending →
  pending !! tcp_ack s = Some sent →
  ∃ pending' : gmap Z Q,
    unacked_packets (process_segment st s) !! rev_flow_key_of s
    = Some pending'
    ∧ (∀ e : Z, e ≠ tcp_ack s →
         is_Some (pending !! e) → is_Some (pending' !! e))
    ∧ (flow_key_of s ≠ rev_flow_key_of s →
         pending' = delete (tcp_ack s) pending).
Proof.
  intros Hack Hun Hp. rewrite process_segment_unacked.
  rewrite (resolve_rtt_match _ _ _ _ _ Hack Hun Hp).
  unfold register_unacked, dd_update, dd_get.
  destruct (0 <? payload_len s).
  - destruct (decide (flow_key_of s = rev_flow_key_of s)) as [E|E].
    + rewrite E, lookup_insert_eq, lookup_alter_eq, Hun. simpl.
      eexists. split; [done|]. split; [|done].
      intros e He [t Ht].
      destruct (decide (tcp_seq s + payload_len s = e)) as [->|Hne].
      * rewrite lookup_insert_eq. eauto.
      * rewrite lookup_insert_ne, lookup_delete_ne by done. eauto.
    + rewrite lookup_insert_ne, lookup_alter_eq, Hun by done. simpl.
      eexists. split; [done|]. split; [|done].
      intros e He Hs. by rewrite lookup_delete_ne.
  - rewrite lookup_alter_eq, Hun. simpl.
    eexists. split; [done|]. split; [|done].
    intros e He Hs. by rewrite lookup_delete_ne.
Qed.

Lemma report_ack_removes_only_the_matching_entry_witness :
  ∃ pending' : gmap Z Q,
    unacked_packets
      (process_segment
         (analyze_pcap [Scenario.data 1.000 100 50; Scenario.data 1.010 150 50])
         (Scenario.ack_from_B 1.050 200))
      !! Scenario.kAB
    = Some pending'
    ∧ (∀ e : Z, e ≠ 200 →
         is_Some ((<[200 := 1.010%Q]> (<[150 := 1.000%Q]> ∅) : gmap Z Q) !! e)
         → is_Some (pending' !! e))
    ∧ (Scenario.kBA ≠ Scenario.kAB →
         pending' = delete 200 (<[200 := 1.010%Q]> (<[150 := 1.000%Q]> ∅))).
Proof.
  apply (report_ack_removes_only_the_matching_entry
           (analyze_pcap
              [Scenario.data 1.000 100 50; Scenario.data 1.010 150 50])
           (Scenario.ack_from_B 1.050 200)
           (<[200 := 1.010%Q]> (<[150 := 1.000%Q]> ∅)) 1.010%Q);
    vm_compute; reflexivity.
Defined.

(** Step B of pcap_analyzer.py does purge: once an ACK with a positive
    acknowledgment number has been processed, the pending map of the
    opposite direction holds no key below that number. *)
Lemma pcap_analyzer_purges_below_the_ack (s : Segment) (direction : Z)
    (f : PcapAnalyzer.TCPFlow) (e : Z) :
  has_flag (tcp_flags s) TH_ACK = true → 0 < tcp_ack s →
  is_Some
    (dd_get ∅ (if direction =? 0 then 1 else 0)
       (PcapAnalyzer.sent_seqs (PcapAnalyzer.resolve_ack s direction f))
     !! e) →
  tcp_ack s ≤ e.
Proof.
  intros Hack Hpos. unfold PcapAnalyzer.resolve_ack.
  rewrite Hack, (proj2 (Z.ltb_lt _ _) Hpos). cbn [andb].
  destruct (match _ !! tcp_ack s with Some _ => _ | None => _ end)
    as [pending1 samples1].
  cbn [PcapAnalyzer.sent_seqs]. unfold dd_get at 1.
  rewrite lookup_insert_eq. cbn [default from_option id].
  intros [t Ht]. apply map_lookup_filter_Some in Ht as [_ Hk].
  simpl in Hk. lia.
Qed.

(** The same holds in [StreamTracker.update] of pcap_analyzer_v5.py, whose
    single pending map serves both directions: after the segment's own
    registration, a matching ACK deletes its own key only. *)
Lemma v5_ack_deletes_only_the_matching_entry (s : Segment) (d : Z)
    (t : V5.StreamTracker) (sent : Q) :
  let expected_ack :=
    tcp_seq s + payload_len s
    + (if has_flag (tcp_flags s) TH_SYN then 1 else 0)
    + (if has_flag (tcp_flags s) TH_FIN then 1 else 0) in
  let registered :=
    if (0 <? payload_len s) || has_flag (tcp_flags s) TH_SYN
    then <[expected_ack := ts s]> (V5.pending_acks t)
    else V5.pending_acks t in
  has_flag (tcp_flags s) TH_ACK = true →
  registered !! tcp_ack s = Some sent →
  V5.pending_acks (V5.update s d t) = delete (tcp_ack s) registered.
Proof.
  intros expected_ack registered Hack Hs. unfold V5.update.
  fold expected_ack. fold registered. rewrite Hack, Hs. reflexivity.
Qed.

End Pending_acks.

(** ** RTT correlation and Karn's rule *)

Section Rtt_correlation.
Import Scenario.

(** pcap_analyzer_v4.py: a segment whose start sequence number was already
    seen registers nothing. *)
Lemma v4_retransmission_registers_nothing (s : Segment)
    (f : V4.FlowMetrics) :
  tcp_seq s ∈ V4.seen_seqs f →
  V4.unacked_packets (V4.RTTAnalyzer_process s f) = V4.unacked_packets f.
Proof.
  intros Hin. unfold V4.RTTAnalyzer_process. simpl.
  by rewrite bool_decide_eq_true_2, andb_false_r.
Qed.

(** pcap_analyzer_v4.py: the 50 ms exchange gives exactly one sample, on the
    flow that sent the data, with or without a retransmitted copy. *)
Lemma v4_one_sample_of_50ms :
  fmap Qred <$> (V4.rtt_samples <$> V4.flows (V4.run data_then_ack) !! kAB)
  = Some [Qred 0.050]
  ∧ V4.rtt_samples <$> V4.flows (V4.run data_then_ack) !! kBA = Some []
  ∧ fmap Qred
      <$> (V4.rtt_samples <$> V4.flows (V4.run data_copy_then_ack) !! kAB)
    = Some [Qred 0.050]
  ∧ V4.rtt_samples <$> V4.flows (V4.run data_copy_then_ack) !! kBA
    = Some [].
Proof. vm_compute. repeat split; reflexivity. Qed.

(** analyze_and_generate_report.py: the plain exchange also gives exactly
    one sample of 50 ms. *)
Lemma report_one_sample_of_50ms :
  fmap Qred
    <$> (Report.rtt_samples
           <$> Report.flows (Report.analyze_pcap data_then_ack) !! kAB)
  = Some [Qred 0.050]
  ∧ Report.rtt_samples
      <$> Report.flows (Report.analyze_pcap data_then_ack) !! kBA
    = Some [].
Proof. vm_compute. split; reflexivity. Qed.

(** analyze_and_generate_report.py registers every payload segment, seen
    before or not. *)
Lemma report_registers_every_payload_segment (s : Segment)
    (un : gmap FlowKey (gmap Z Q)) :
  0 < payload_len s →
  Report.register_unacked s un !! flow_key_of s
    ≫= (λ pending, pending !! (tcp_seq s + payload_len s))
  = Some (ts s).
Proof.
  intros Hp. unfold Report.register_unacked, dd_update.
  rewrite (proj2 (Z.ltb_lt _ _) Hp), lookup_insert_eq. simpl.
  by rewrite lookup_insert_eq.
Qed.

(** C4 at the failing input.  In analyze_and_generate_report.py the
    retransmitted copy sent at 1.030 s overwrites the pending entry of the
    original sent at 1.000 s, and the ACK at 1.050 s then yields the sample
    0.020 s, measured from the copy. *)
Theorem C4_report_retransmitted_copy_seeds_the_sample :
  Report.unacked_packets (Report.analyze_pcap (take 2 data_copy_then_ack))
    !! kAB ≫= (λ pending, pending !! 150)
  = Some 1.030%Q
  ∧ Report.retrans
      <$> Report.flows (Report.analyze_pcap data_copy_then_ack) !! kAB
    = Some 1
  ∧ fmap Qred
      <$> (Report.rtt_samples
             <$> Report.flows (Report.analyze_pcap data_copy_then_ack)
                 !! kAB)
    = Some [Qred 0.020].
Proof. vm_compute. repeat split; reflexivity. Qed.

End Rtt_correlation.

(** ** Fast versus timeout retransmissions *)

Section Retransmission_classes.




(** pcap_analyzer_v9.py never appends to [rtt_samples], so in every flow it
    builds the baseline is the constant 0.1 s and the threshold 0.2 s. *)
Lemma v9_flows_have_no_samples (pkts : list Segment) :
  map_Forall (λ _ f, V9.rtt_samples f = []) (V9.flows (V9.process_pcap pkts)).
Proof.
  unfold V9.process_pcap.
  assert (map_Forall (λ _ f, V9.rtt_samples f = [])
            (V9.flows V9.new_ForensicEngine)) as H0 by apply map_Forall_empty.
  revert H0. generalize V9.new_ForensicEngine.
  induction pkts as [|s pkts IH]; intros e He; [done|].
  simpl. apply IH. unfold V9.process_packet. simpl.
  apply map_Forall_insert_2; [|done].
  destruct (V9.flows e !! _) as [f|] eqn:Ef; simpl.
  - assert (V9.rtt_samples f = []) as Hf by (eapply He, Ef).
    unfold V9._analyze_packet. repeat case_match; done.
  - unfold V9._analyze_packet. repeat case_match; done.
Qed.


(** pcap_analyzer_v10.py: a payload segment below the direction's
    watermark is a timeout exactly when the flow has samples with a
    positive mean and more than twice that mean has passed since the
    flow's first packet. *)
Lemma v10_classification (s : Segment) (d : Z) (f : V10.StreamMetrics) :
  V10.classify s d f = V10.RtoRetrans
  ↔ default 0 (V10.next_seq f !! d) ≠ 0
    ∧ tcp_seq s < default 0 (V10.next_seq f !! d)
    ∧ V10.rtt_samples f ≠ []
    ∧ (0 < V10.avg_rtt f)%Q
    ∧ (V10.avg_rtt f * 2 < ts s - V10.start_ts f)%Q.
Proof.
  unfold V10.classify.
  destruct (default 0 (V10.next_seq f !! d) =? 0) eqn:E0; simpl.
  { apply Z.eqb_eq in E0. split; [done|]. intros [H _]. done. }
  apply Z.eqb_neq in E0.
  destruct (tcp_seq s <? default 0 (V10.next_seq f !! d)) eqn:E1.
  2:{ apply Z.ltb_ge in E1. split; [done|]. intros (_ & H & _). lia. }
  apply Z.ltb_lt in E1.
  destruct (V10.rtt_samples f) as [|x l] eqn:El.
  { split; [done|]. intros (_ & _ & H & _). done. }
  destruct (Qltb 0 (V10.avg_rtt f)) eqn:Ea; simpl.
  2:{ apply Qltb_ge in Ea. split; [done|]. intros (_ & _ & _ & H & _).
      exfalso. eapply Qlt_not_le; eauto. }
  apply Qltb_lt in Ea.
  destruct (Qltb (V10.avg_rtt f * 2) (ts s - V10.start_ts f)) eqn:Eb.
  - apply Qltb_lt in Eb. split; [|done]. intros _. repeat split; done.
  - apply Qltb_ge in Eb. split; [done|]. intros (_ & _ & _ & _ & H).
    exfalso. eapply Qlt_not_le; eauto.
Qed.







End Retransmission_classes.

(** ** The diagnostic scorers *)

Lemma py_truediv_Some (a b : Q) :
  ¬ (b == 0)%Q → py_truediv a b = Some (a / b)%Q.
Proof.
  intros Hb. unfold py_truediv. destruct (Qeq_bool b 0) eqn:E; [|done].
  apply Qeq_bool_iff in E. done.
Qed.

Lemma py_truediv_None (a b : Q) : (b == 0)%Q → py_truediv a b = None.
Proof.
  intros Hb. unfold py_truediv. by rewrite (proj2 (Qeq_bool_iff _ _) Hb).
Qed.

Lemma inject_Z_nonzero (z : Z) : z ≠ 0 → ¬ (inject_Z z == 0)%Q.
Proof. intros Hz H. unfold Qeq in H. simpl in H. lia. Qed.

Lemma normalised_sum (c n s : Q) :
  ¬ (c + n + s == 0)%Q →
  (c / (c + n + s) + n / (c + n + s) + s / (c + n + s) == 1)%Q.
Proof. intros H. field. exact H. Qed.

Lemma within_tolerance (x : Q) : (x == 1 → Qabs (x - 1) <= 0.000001)%Q.
Proof. intros ->. vm_compute. discriminate. Qed.

Section Scorer_facts.
Variable np_std : list Q → Q.

(** *** analyze_and_generate_report.py *)

Lemma report_base_metrics (fm : Report.FlowMetrics) :
  ∃ aw ra rm rs : Q,
    Report.base_metrics np_std fm = Some (aw, ra, rm, rs)
    ∧ (Report.wins fm = [] → aw = 0%Q)
    ∧ ((length (Report.rtt_samples fm) < Report.MIN_RTT_SAMPLES)%nat →
         ra = 0%Q ∧ rm = 0%Q ∧ rs = 0%Q).
Proof.
  unfold Report.base_metrics.
  assert (∃ aw : Q,
            match Report.wins fm with
            | [] => Some 0%Q
            | _ => np_mean (inject_Z <$> Report.wins fm)
            end = Some aw
            ∧ (Report.wins fm = [] → aw = 0%Q)) as (aw & -> & Haw).
  { destruct (Report.wins fm); simpl; eexists; (split; [reflexivity|done]). }
  simpl. destruct (decide _) as [Hge|Hlt].
  - destruct (Report.rtt_samples fm) as [|x l] eqn:E.
    { unfold Report.MIN_RTT_SAMPLES in Hge. simpl in Hge. lia. }
    simpl. do 4 eexists. split; [reflexivity|]. split; [done|].
    intros H. simpl in H, Hge. lia.
  - do 4 eexists. split; [reflexivity|]. split; done.
Qed.

Lemma report_raw_scores (fm : Report.FlowMetrics) (aw rs : Q) :
  (0 < Report.retrans fm → Report.count fm ≠ 0) →
  ∃ sc sn ss : Q,
    Report.raw_scores fm aw rs = Some (sc, sn, ss)
    ∧ (Report.retrans fm = 0 → Report.rto_cnt fm = 0 →
       Report.count fm ≤ 10 → (rs <= Report.RTT_JITTER_THRESH)%Q →
       sc = 0%Q ∧ sn = 0%Q ∧ ss = 0%Q).
Proof.
  intros Hdiv. unfold Report.raw_scores.
  destruct (Qltb aw 500 && (10 <? Report.count fm)) eqn:Elow.
  - destruct (0 <? Report.retrans fm) eqn:Er.
    + apply Z.ltb_lt in Er.
      rewrite py_truediv_Some by (apply inject_Z_nonzero; auto). simpl.
      do 3 eexists. split; [reflexivity|]. intros H. lia.
    + simpl. do 3 eexists. split; [reflexivity|]. intros _ _ Hc.
      apply andb_true_iff in Elow as [_ Hc']. apply Z.ltb_lt in Hc'. lia.
  - destruct (0 <? Report.retrans fm) eqn:Er.
    + apply Z.ltb_lt in Er.
      rewrite py_truediv_Some by (apply inject_Z_nonzero; auto). simpl.
      do 3 eexists. split; [reflexivity|]. intros H. lia.
    + simpl. do 3 eexists. split; [reflexivity|]. intros _ Hrto _ Hrs.
      rewrite Hrto. simpl. rewrite (proj2 (Qltb_ge _ _) Hrs). done.
Qed.

(** The last step of [calculate_probabilities], lines 248-256. *)
Lemma report_normalisation (fm : Report.FlowMetrics) (aw ra rm rs : Q)
    (sc sn ss : Q) :
  Report.base_metrics np_std fm = Some (aw, ra, rm, rs) →
  Report.raw_scores fm aw rs = Some (sc, sn, ss) →
  Report.calculate_probabilities np_std fm
  = Some (if Qltb (sc + sn + ss) 0.001
          then Report.mkDiagnosis 0.33 0.33 0.34 ra rm rs aw
          else Report.mkDiagnosis (sc / (sc + sn + ss)) (sn / (sc + sn + ss))
                 (ss / (sc + sn + ss)) ra rm rs aw).
Proof.
  intros Hb Hr. unfold Report.calculate_probabilities. rewrite Hb. simpl.
  rewrite Hr. simpl. destruct (Qltb (sc + sn + ss) 0.001) eqn:E; [done|].
  apply Qltb_ge in E.
  assert (¬ (sc + sn + ss == 0)%Q) as Hnz.
  { intros H0. rewrite H0 in E. vm_compute in E. by apply E. }
  rewrite !py_truediv_Some by done. done.
Qed.

Lemma report_diagnosis (fm : Report.FlowMetrics) :
  (0 < Report.retrans fm → Report.count fm ≠ 0) →
  ∃ (d : Report.Diagnosis) (sc sn ss : Q),
    Report.calculate_probabilities np_std fm = Some d
    ∧ Report.raw_scores fm (Report.avg_win d) (Report.rtt_std d)
      = Some (sc, sn, ss)
    ∧ ((sc + sn + ss < 0.001)%Q →
         Report.p_client d = 0.33%Q ∧ Report.p_network d = 0.33%Q
         ∧ Report.p_server d = 0.34%Q)
    ∧ ((0.001 <= sc + sn + ss)%Q →
         Report.p_client d = (sc / (sc + sn + ss))%Q
         ∧ Report.p_network d = (sn / (sc + sn + ss))%Q
         ∧ Report.p_server d = (ss / (sc + sn + ss))%Q)
    ∧ (Report.p_client d + Report.p_network d + Report.p_server d == 1)%Q
    ∧ (Report.wins fm = [] → Report.avg_win d = 0%Q)
    ∧ ((length (Report.rtt_samples fm) < Report.MIN_RTT_SAMPLES)%nat →
         Report.rtt_avg d = 0%Q ∧ Report.rtt_max d = 0%Q
         ∧ Report.rtt_std d = 0%Q).
Proof.
  intros Hdiv.
  destruct (report_base_metrics fm) as (aw & ra & rm & rs & Hb & Haw & Hrtt).
  destruct (report_raw_scores fm aw rs Hdiv) as (sc & sn & ss & Hr & _).
  rewrite (report_normalisation _ _ _ _ _ _ _ _ Hb Hr).
  destruct (Qltb (sc + sn + ss) 0.001) eqn:E.
  - apply Qltb_lt in E. do 4 eexists. split; [reflexivity|]. simpl.
    split; [exact Hr|]. split; [done|]. split.
    { intros Hle. exfalso. eapply Qlt_not_le; eauto. }
    split; [vm_compute; reflexivity|]. split; done.
  - apply Qltb_ge in E. do 4 eexists. split; [reflexivity|]. simpl.
    split; [exact Hr|]. split.
    { intros Hlt. exfalso. eapply Qlt_not_le; eauto. }
    split; [done|]. split; [|split; done].
    apply normalised_sum. intros H0. rewrite H0 in E.
    vm_compute in E. by apply E.
Qed.

(** *** tcp_professional_report.py *)

Lemma proreport_metrics (stats : ProReport.Stats) :
  ∃ (m : ProReport.Metrics) (c n s : Q),
    ProReport.compute_flow_metrics np_std stats = Some m
    ∧ ProReport.raw_probs stats (ProReport.avg_win m)
        (ProReport.rtt_jitter m) = (c, n, s)
    ∧ ((0 < c + n + s)%Q →
         ProReport.client m = (c / (c + n + s))%Q
         ∧ ProReport.network m = (n / (c + n + s))%Q
         ∧ ProReport.server m = (s / (c + n + s))%Q)
    ∧ ((c + n + s <= 0)%Q →
         ProReport.client m = (1.0 / 3.0)%Q
         ∧ ProReport.network m = (1.0 / 3.0)%Q
         ∧ ProReport.server m = (1.0 / 3.0)%Q)
    ∧ (ProReport.client m + ProReport.network m + ProReport.server m == 1)%Q
    ∧ (ProReport.wins stats = [] → ProReport.avg_win m = 0%Q)
    ∧ (ProReport.seq_ack_time stats = [] →
         ProReport.rtt_avg m = 0%Q ∧ ProReport.rtt_max m = 0%Q
         ∧ ProReport.rtt_jitter m = 0%Q).
Proof.
  unfold ProReport.compute_flow_metrics.
  assert (∃ aw : Q,
            match ProReport.wins stats with
            | [] => Some 0%Q
            | _ => np_mean (inject_Z <$> ProReport.wins stats)
            end = Some aw
            ∧ (ProReport.wins stats = [] → aw = 0%Q)) as (aw & -> & Haw).
  { destruct (ProReport.wins stats); simpl; eexists;
      (split; [reflexivity|done]). }
  assert (∃ ra rm jit : Q,
            match ProReport.rtt_list stats with
            | [] => Some 0%Q
            | _ => np_mean (ProReport.rtt_list stats)
            end = Some ra
            ∧ match ProReport.rtt_list stats with
              | [] => Some 0%Q
              | _ => np_max (ProReport.rtt_list stats)
              end = Some rm
            ∧ match ProReport.rtt_list stats with
              | [] => 0%Q
              | _ => np_std (ProReport.rtt_list stats)
              end = jit
            ∧ (ProReport.seq_ack_time stats = [] →
                 ra = 0%Q ∧ rm = 0%Q ∧ jit = 0%Q))
    as (ra & rm & jit & -> & -> & -> & Hrtt).
  { unfold ProReport.rtt_list.
    destruct (ProReport.seq_ack_time stats); simpl; do 3 eexists;
      (split; [reflexivity|split; [reflexivity|split; [reflexivity|done]]]). }
  simpl.
  destruct (ProReport.raw_probs stats aw jit) as [[c n] s] eqn:Er.
  destruct (Qltb 0 (c + n + s)) eqn:E.
  - apply Qltb_lt in E.
    assert (¬ (c + n + s == 0)%Q) as Hnz.
    { intros H0. rewrite H0 in E. by apply Qlt_irrefl in E. }
    rewrite !py_truediv_Some by done. simpl.
    do 4 eexists. split; [reflexivity|]. simpl. split; [exact Er|].
    split; [done|]. split.
    { intros Hle. exfalso. eapply Qlt_not_le; eauto. }
    split; [by apply normalised_sum|]. split; done.
  - apply Qltb_ge in E.
    do 4 eexists. split; [reflexivity|]. simpl. split; [exact Er|].
    split.
    { intros Hlt. exfalso. eapply Qlt_not_le; eauto. }
    split; [done|]. split; [vm_compute; reflexivity|]. split; done.
Qed.

End Scorer_facts.

(** *** Flows built by [analyze_pcap] never have more retransmissions than
    packets *)

Section Report_reachable.
Import Report.

Lemma resolve_rtt_counters (s : Segment) (fl : gmap FlowKey FlowMetrics)
    (un : gmap FlowKey (gmap Z Q)) (j : FlowKey) (f : FlowMetrics) :
  (resolve_rtt s fl un).1 !! j = Some f →
  retrans f = retrans (dd_get new_FlowMetrics j fl)
  ∧ count f = count (dd_get new_FlowMetrics j fl).
Proof.
  unfold resolve_rtt, dd_get.
  destruct (has_flag _ _); [|by simpl; intros ->].
  destruct (_ !! tcp_ack s); [|by simpl; intros ->]. simpl.
  destruct (_ && _); [|by intros ->].
  unfold dd_update, dd_get.
  destruct (decide (rev_flow_key_of s = j)) as [<-|Hne].
  - rewrite lookup_insert_eq. by intros [= <-].
  - rewrite lookup_insert_ne by done. by intros ->.
Qed.

Lemma track_small_win_counters (s : Segment) (f : FlowMetrics) :
  retrans (track_small_win s f) = retrans f
  ∧ count (track_small_win s f) = count f.
Proof. unfold track_small_win. by destruct (_ && _). Qed.

Lemma track_retrans_counters (s : Segment) (f : FlowMetrics) :
  retrans (track_retrans s f) ≤ retrans f + 1
  ∧ count (track_retrans s f) = count f.
Proof.
  unfold track_retrans. simpl. split; [|done].
  destruct (_ && _); lia.
Qed.

Lemma process_segment_retrans_le_count (st : State) (s : Segment) :
  map_Forall (λ _ f, retrans f ≤ count f) (flows st) →
  map_Forall (λ _ f, retrans f ≤ count f) (flows (process_segment st s)).
Proof.
  intros Hst j f. unfold process_segment.
  destruct (resolve_rtt s _ (unacked_packets st)) as [fl2 un2] eqn:Eres.
  simpl.
  assert (∀ k, retrans (dd_get new_FlowMetrics k (flows st))
               ≤ count (dd_get new_FlowMetrics k (flows st))) as Hget.
  { intros k. unfold dd_get. destruct (flows st !! k) eqn:Ek; simpl.
    - eapply Hst, Ek.
    - done. }
  assert (∀ k g, fl2 !! k = Some g →
            retrans g
            = retrans (dd_get new_FlowMetrics k
                         (dd_update new_FlowMetrics (record_packet s)
                            (flow_key_of s) (flows st)))
            ∧ count g
              = count (dd_get new_FlowMetrics k
                         (dd_update new_FlowMetrics (record_packet s)
                            (flow_key_of s) (flows st)))) as Hfl2.
  { intros k g Hk. eapply resolve_rtt_counters.
    rewrite Eres. exact Hk. }
  destruct (decide (flow_key_of s = j)) as [<-|Hne].
  - rewrite lookup_alter_eq.
    assert (∀ g, fl2 !! flow_key_of s = Some g →
              retrans g < count g) as Hstrict.
    { intros g Hg. destruct (Hfl2 _ _ Hg) as [-> ->].
      unfold dd_update, dd_get at 1 3. rewrite lookup_insert_eq. simpl.
      specialize (Hget (flow_key_of s)). lia. }
    destruct (0 <? payload_len s).
    + rewrite lookup_alter_eq.
      destruct (fl2 !! flow_key_of s) as [g|] eqn:Eg; simpl; [|done].
      intros [= <-]. specialize (Hstrict g eq_refl).
      destruct (track_small_win_counters s (track_retrans s g)) as [-> ->].
      destruct (track_retrans_counters s g) as [? ->]. lia.
    + destruct (fl2 !! flow_key_of s) as [g|] eqn:Eg; simpl; [|done].
      intros [= <-]. specialize (Hstrict g eq_refl).
      destruct (track_small_win_counters s g) as [-> ->]. lia.
  - rewrite lookup_alter_ne by done.
    assert (fl2 !! j = Some f → retrans f ≤ count f) as Hother.
    { intros Hj. destruct (Hfl2 _ _ Hj) as [-> ->].
      unfold dd_update, dd_get at 1 3. rewrite lookup_insert_ne by done.
      apply Hget. }
    destruct (0 <? payload_len s); [rewrite lookup_alter_ne by done|];
      exact Hother.
Qed.

Lemma analyze_pcap_retrans_le_count (pkts : list Segment) :
  map_Forall (λ _ f, retrans f ≤ count f) (flows (analyze_pcap pkts)).
Proof.
  unfold analyze_pcap, analyze_pcap_from.
  assert (map_Forall (λ _ f, retrans f ≤ count f) (flows init)) as H0
    by apply map_Forall_empty.
  revert H0. generalize init.
  induction pkts as [|s pkts IH]; intros st Hst; [done|].
  simpl. apply IH, process_segment_retrans_le_count, Hst.
Qed.

End Report_reachable.

(** *** Normalisation of the diagnosis triple *)

Section Normalisation.
Import Scenario.

(** C1, as stated, fails on its default branch.  A flow of one packet has a
    total score of zero, and [calculate_probabilities] answers with the
    triple 0.33 / 0.33 / 0.34: no component is within 1e-6 of 1/3. *)
Lemma C1_report_default_triple_is_not_one_third :
  Report.count (report_flow single_packet) = 1
  ∧ Report.raw_scores (report_flow single_packet) 65535 0 = Some (0, 0, 0)%Q
  ∧ Report.calculate_probabilities np_std_unused (report_flow single_packet)
    = Some (Report.mkDiagnosis 0.33 0.33 0.34 0 0 0 65535)
  ∧ ¬ (Qabs (0.33 - 1 / 3) <= 0.000001)%Q
  ∧ ¬ (Qabs (0.34 - 1 / 3) <= 0.000001)%Q.
Proof.
  split; [vm_compute; reflexivity|]. split; [vm_compute; reflexivity|].
  split; [vm_compute; reflexivity|].
  split; intros H; vm_compute in H; by apply H.
Qed.

(** C1, amended.  For every flow with at least one packet
    [calculate_probabilities] returns a triple that sums to 1 (so within
    1e-6 of it): each score divided by the total when the total is at least
    0.001, and the fixed triple 0.33 / 0.33 / 0.34 otherwise.
    [compute_flow_metrics] returns a triple that sums to 1 for every
    stream: each score divided by the total when the total is positive,
    and 1/3 each otherwise. *)
Theorem C1_diagnosis_triple_sums_to_one (np_std : list Q → Q)
    (fm : Report.FlowMetrics) (stats : ProReport.Stats) :
  1 ≤ Report.count fm →
  (∃ (d : Report.Diagnosis) (sc sn ss : Q),
     Report.calculate_probabilities np_std fm = Some d
     ∧ Report.raw_scores fm (Report.avg_win d) (Report.rtt_std d)
       = Some (sc, sn, ss)
     ∧ ((sc + sn + ss < 0.001)%Q →
          Report.p_client d = 0.33%Q ∧ Report.p_network d = 0.33%Q
          ∧ Report.p_server d = 0.34%Q)
     ∧ ((0.001 <= sc + sn + ss)%Q →
          Report.p_client d = (sc / (sc + sn + ss))%Q
          ∧ Report.p_network d = (sn / (sc + sn + ss))%Q
          ∧ Report.p_server d = (ss / (sc + sn + ss))%Q)
     ∧ (Qabs (Report.p_client d + Report.p_network d + Report.p_server d
              - 1) <= 0.000001)%Q)
  ∧ (∃ (m : ProReport.Metrics) (c n s : Q),
       ProReport.compute_flow_metrics np_std stats = Some m
       ∧ ProReport.raw_probs stats (ProReport.avg_win m)
           (ProReport.rtt_jitter m) = (c, n, s)
       ∧ ((0 < c + n + s)%Q →
            ProReport.client m = (c / (c + n + s))%Q
            ∧ ProReport.network m = (n / (c + n + s))%Q
            ∧ ProReport.server m = (s / (c + n + s))%Q)
       ∧ ((c + n + s <= 0)%Q →
            ProReport.client m = (1.0 / 3.0)%Q
            ∧ ProReport.network m = (1.0 / 3.0)%Q
            ∧ ProReport.server m = (1.0 / 3.0)%Q)
       ∧ (Qabs (ProReport.client m + ProReport.network m
                + ProReport.server m - 1) <= 0.000001)%Q).
Proof.
  intros Hcount. split.
  - assert (0 < Report.retrans fm → Report.count fm ≠ 0) as Hdiv by lia.
    destruct (report_diagnosis np_std fm Hdiv)
      as (d & sc & sn & ss & Hd & Hr & Hlo & Hhi & Hsum & _).
    exists d, sc, sn, ss. repeat split; try done.
    + by apply Hlo.
    + by apply Hlo.
    + by apply Hlo.
    + by apply Hhi.
    + by apply Hhi.
    + by apply Hhi.
    + by apply within_tolerance.
  - destruct (proreport_metrics np_std stats)
      as (m & c & n & s & Hm & Hr & Hpos & Hzero & Hsum & _).
    exists m, c, n, s. repeat split; try done.
    + by apply Hpos.
    + by apply Hpos.
    + by apply Hpos.
    + by apply Hzero.
    + by apply Hzero.
    + by apply Hzero.
    + by apply within_tolerance.
Qed.

Lemma C1_diagnosis_triple_sums_to_one_witness :
  1 ≤ Report.count (report_flow repeat_100)
  ∧ (∃ d : Report.Diagnosis,
       Report.calculate_probabilities np_std_unused (report_flow repeat_100)
       = Some d
       ∧ (Qabs (Report.p_client d + Report.p_network d + Report.p_server d
                - 1) <= 0.000001)%Q)
  ∧ (∃ m : ProReport.Metrics,
       ProReport.compute_flow_metrics np_std_unused repeated_stats = Some m
       ∧ (Qabs (ProReport.client m + ProReport.network m
                + ProReport.server m - 1) <= 0.000001)%Q).
Proof.
  assert (1 ≤ Report.count (report_flow repeat_100)) as Hc
    by (vm_compute; discriminate).
  split; [exact Hc|].
  destruct (C1_diagnosis_triple_sums_to_one np_std_unused
              (report_flow repeat_100) repeated_stats Hc)
    as [(d & sc & sn & ss & Hd & _ & _ & _ & Hsum)
        (m & c & n & s & Hm & _ & _ & _ & Hsum')].
  split; [exists d | exists m]; split; assumption.
Defined.

End Normalisation.

(** ** Per-IP aggregation *)

Section Aggregation.





Lemma insert_desc_Forall (P : string * Report.IpStat → Prop)
    (x : string * Report.IpStat) (l : list (string * Report.IpStat)) :
  P x → Forall P l → Forall P (Report.insert_desc x l).
Proof.
  intros Hx. induction l as [|y l IH]; intros Hl; simpl.
  - by constructor.
  - apply Forall_cons in Hl as [Hy Hl].
    destruct (_ <? _); repeat constructor; auto.
Qed.

Lemma sorted_desc_Forall (P : string * Report.IpStat → Prop)
    (l : list (string * Report.IpStat)) :
  Forall P l → Forall P (Report.sorted_desc l).
Proof.
  unfold Report.sorted_desc.
  assert (∀ acc, Forall P acc → Forall P l →
            Forall P (foldl (λ acc x, Report.insert_desc x acc) acc l)) as H.
  { induction l as [|x l IH]; intros acc Hacc Hl; [done|].
    apply Forall_cons in Hl as [Hx Hl]. simpl.
    apply IH; [by apply insert_desc_Forall|done]. }
  intros Hl. by apply H.
Qed.















End Aggregation.

(** * Invariants of the analysers *)

(** *** Sums over the values of a dictionary *)

Section Sum_values.
Context `{Countable K} {V : Type}.
Implicit Types (g : V → Z) (m : gmap K V).

Lemma sum_values_empty g : sum_values g (∅ : gmap K V) = 0.
Proof. apply map_fold_empty. Qed.

Lemma sum_values_insert g m i x :
  m !! i = None → sum_values g (<[i:=x]> m) = g x + sum_values g m.
Proof.
  intros Hi. unfold sum_values.
  rewrite map_fold_insert_L; [done| |done]. intros. lia.
Qed.

Lemma sum_values_insert_Some g m i x y :
  m !! i = Some y → sum_values g (<[i:=x]> m) = sum_values g m - g y + g x.
Proof.
  intros Hi. rewrite <- (insert_delete_id m i y Hi) at 2.
  rewrite <- (insert_delete_eq m i x).
  rewrite !sum_values_insert by apply lookup_delete_eq. lia.
Qed.

Lemma sum_values_alter g (f : V → V) m i y :
  m !! i = Some y →
  sum_values g (alter f i m) = sum_values g m - g y + g (f y).
Proof.
  intros Hi. rewrite <- (insert_id m i y Hi) at 1.
  rewrite alter_insert_eq. by apply sum_values_insert_Some.
Qed.

Lemma sum_values_alter_same g (f : V → V) m i :
  (∀ x, g (f x) = g x) → sum_values g (alter f i m) = sum_values g m.
Proof.
  intros Hf. destruct (m !! i) as [y|] eqn:Hi.
  - rewrite (sum_values_alter g f m i y Hi), Hf. lia.
  - by rewrite alter_id'.
Qed.

Lemma sum_values_dd_update g (dflt : V) (f : V → V) m i :
  g dflt = 0 →
  sum_values g (dd_update dflt f i m)
  = sum_values g m - g (dd_get dflt i m) + g (f (dd_get dflt i m)).
Proof.
  intros Hd. unfold dd_update, dd_get. destruct (m !! i) as [y|] eqn:Hi; simpl.
  - by apply sum_values_insert_Some.
  - rewrite sum_values_insert by done. lia.
Qed.

Lemma sum_values_le g h m :
  map_Forall (λ _ v, g v ≤ h v) m → sum_values g m ≤ sum_values h m.
Proof.
  induction m as [|i x m Hi IH] using map_ind; intros Hm.
  - by rewrite !sum_values_empty.
  - rewrite !sum_values_insert by done.
    apply map_Forall_insert in Hm as [Hx Hm]; [|done].
    specialize (IH Hm). lia.
Qed.

Lemma sum_values_nonneg g m :
  map_Forall (λ _ v, 0 ≤ g v) m → 0 ≤ sum_values g m.
Proof.
  induction m as [|i x m Hi IH] using map_ind; intros Hm.
  - by rewrite sum_values_empty.
  - rewrite sum_values_insert by done.
    apply map_Forall_insert in Hm as [Hx Hm]; [|done].
    specialize (IH Hm). lia.
Qed.

End Sum_values.

(** *** Invariants of the flow table of analyze_and_generate_report.py *)

Section Report_invariants.
Import Report.

Lemma resolve_rtt_flows (s : Segment) (fl : gmap FlowKey FlowMetrics)
    (un : gmap FlowKey (gmap Z Q)) :
  (resolve_rtt s fl un).1 = fl
  ∨ ∃ rtt : Q, (0 < rtt)%Q ∧ (rtt < 10)%Q
      ∧ (resolve_rtt s fl un).1
        = dd_update new_FlowMetrics (add_rtt_sample rtt) (rev_flow_key_of s) fl.
Proof.
  unfold resolve_rtt. destruct (has_flag _ _); [|by left].
  destruct (_ !! tcp_ack s) as [sent|]; [|by left]. simpl.
  destruct (Qltb 0 (ts s - sent)) eqn:E1; [|by left].
  destruct (Qltb (ts s - sent) 10.0) eqn:E2; [|by left]. simpl.
  right. exists (ts s - sent)%Q. apply Qltb_lt in E1, E2.
  split; [done|]. split; [|done].
  eapply Qlt_le_trans; [exact E2|]. by vm_compute.
Qed.

(** A property [P] of flow records holds for every flow of every capture
    when the constructor establishes it and each mutation of the loop body
    keeps it; [Q] is what holds of the current flow between its
    bookkeeping (lines 141-148) and the end of the iteration. *)
Lemma report_flows_invariant (P Q : FlowMetrics → Prop) :
  P new_FlowMetrics →
  (∀ s f, P f → Q (record_packet s f)) →
  (∀ rtt f, (0 < rtt)%Q → (rtt < 10)%Q → P f → P (add_rtt_sample rtt f)) →
  (∀ rtt f, (0 < rtt)%Q → (rtt < 10)%Q → Q f → Q (add_rtt_sample rtt f)) →
  (∀ s f, Q f →
     P (track_small_win s
          (if 0 <? payload_len s then track_retrans s f else f))) →
  ∀ pkts : list Segment,
    map_Forall (λ _, P) (flows (analyze_pcap pkts)).
Proof.
  intros Hnew Hrec HaddP HaddQ Hown pkts.
  unfold analyze_pcap, analyze_pcap_from.
  assert (map_Forall (λ _, P) (flows init)) as H0 by apply map_Forall_empty.
  revert H0. generalize init.
  induction pkts as [|s pkts IH]; intros st Hst; [done|].
  simpl. apply IH. clear IH.
  unfold process_segment.
  set (fk := flow_key_of s). set (rk := rev_flow_key_of s).
  set (fl1 := dd_update new_FlowMetrics (record_packet s) fk (flows st)).
  assert (∀ j f, fl1 !! j = Some f → if decide (j = fk) then Q f else P f)
    as H1.
  { intros j f. unfold fl1, dd_update, dd_get.
    destruct (decide (j = fk)) as [->|Hne].
    - rewrite lookup_insert_eq. intros [= <-]. apply Hrec.
      destruct (flows st !! fk) eqn:E; simpl; [eapply Hst, E|done].
    - rewrite lookup_insert_ne by done. apply Hst. }
  assert (is_Some (fl1 !! fk)) as Hfk1.
  { unfold fl1, dd_update. rewrite lookup_insert_eq. eauto. }
  destruct (resolve_rtt s fl1 (unacked_packets st)) as [fl2 un2] eqn:Eres.
  assert (is_Some (fl2 !! fk)
          ∧ ∀ j f, fl2 !! j = Some f → if decide (j = fk) then Q f else P f)
    as [Hfk2 H2].
  { destruct (resolve_rtt_flows s fl1 (unacked_packets st))
      as [E|(rtt & Hr1 & Hr2 & E)];
      rewrite Eres in E; simpl in E; subst fl2; [done|].
    fold rk. unfold dd_update, dd_get. split.
    - destruct (decide (rk = fk)) as [->|Hne];
        [rewrite lookup_insert_eq; eauto|by rewrite lookup_insert_ne].
    - intros j f. destruct (decide (rk = j)) as [<-|Hne].
      + rewrite lookup_insert_eq. intros [= <-].
        destruct (fl1 !! rk) as [g|] eqn:Eg; simpl.
        * specialize (H1 rk g Eg). destruct (decide (rk = fk)); auto.
        * destruct (decide (rk = fk)) as [E|_]; [|auto].
          rewrite E in Eg. destruct Hfk1 as [? ?]; congruence.
      + rewrite lookup_insert_ne by done. apply H1. }
  simpl. intros j f.
  destruct (decide (fk = j)) as [<-|Hne].
  - rewrite lookup_alter_eq. destruct Hfk2 as [g Hg].
    specialize (H2 fk g Hg). rewrite decide_True in H2 by done.
    destruct (0 <? payload_len s) eqn:Ep.
    + rewrite lookup_alter_eq, Hg. simpl. intros [= <-].
      specialize (Hown s g H2). by rewrite Ep in Hown.
    + rewrite Hg. simpl. intros [= <-].
      specialize (Hown s g H2). by rewrite Ep in Hown.
  - rewrite lookup_alter_ne by done.
    assert (fl2 !! j = Some f → P f) as Hj.
    { intros Hf. specialize (H2 j f Hf). by rewrite decide_False in H2. }
    destruct (0 <? payload_len s); [rewrite lookup_alter_ne by done|];
      exact Hj.
Qed.

Lemma report_flows_consistent (pkts : list Segment) :
  map_Forall (λ _ f,
      count f = Z.of_nat (length (timestamps f))
      ∧ length (wins f) = length (timestamps f)
      ∧ length (win_ts f) = length (timestamps f)
      ∧ 0 ≤ rto_cnt f ≤ retrans f
      ∧ 0 ≤ cont_retrans f ≤ retrans f
      ∧ retrans f ≤ count f
      ∧ 0 ≤ small_win_cnt f ≤ count f)
    (flows (analyze_pcap pkts)).
Proof.
  apply (report_flows_invariant _
    (λ f, count f = Z.of_nat (length (timestamps f))
          ∧ length (wins f) = length (timestamps f)
          ∧ length (win_ts f) = length (timestamps f)
          ∧ 0 ≤ rto_cnt f ≤ retrans f
          ∧ 0 ≤ cont_retrans f ≤ retrans f
          ∧ retrans f < count f
          ∧ 0 ≤ small_win_cnt f < count f)).
  - simpl. repeat split; lia.
  - intros s f (Hc & Hw & Hwt & Hrto & Hcont & Hre & Hsw). simpl.
    rewrite !length_app. simpl. repeat split; lia.
  - intros rtt f _ _ H. exact H.
  - intros rtt f _ _ H. exact H.
  - intros s f (Hc & Hw & Hwt & Hrto & Hcont & Hre & Hsw).
    unfold track_small_win, track_retrans.
    repeat (case_match; simpl); repeat split; lia.
Qed.

(** X1. In every flow record that [analyze_pcap] builds, the packet count
    equals the length of each of the three per-packet lists ([timestamps],
    [wins], [win_ts]), and the counters are ordered: the timeout and the
    consecutive-retransmission counters never exceed [retrans], and
    [retrans] and [small_win_cnt] never exceed [count]. *)
Theorem report_flow_record_is_consistent (pkts : list Segment) :
  map_Forall (λ _ f,
      count f = Z.of_nat (length (timestamps f))
      ∧ length (wins f) = length (timestamps f)
      ∧ length (win_ts f) = length (timestamps f)
      ∧ 0 ≤ rto_cnt f ≤ retrans f
      ∧ 0 ≤ cont_retrans f ≤ retrans f
      ∧ retrans f ≤ count f
      ∧ 0 ≤ small_win_cnt f ≤ count f)
    (flows (analyze_pcap pkts)).
Proof. exact (report_flows_consistent pkts). Qed.

Lemma report_rtt_samples_in_range (pkts : list Segment) :
  map_Forall (λ _ f,
      Forall (λ rtt, (0 < rtt)%Q ∧ (rtt < 10)%Q) (rtt_samples f))
    (flows (analyze_pcap pkts)).
Proof.
  apply (report_flows_invariant _
    (λ f, Forall (λ rtt, (0 < rtt)%Q ∧ (rtt < 10)%Q) (rtt_samples f))).
  - constructor.
  - intros s f H. exact H.
  - intros rtt f H1 H2 H. simpl. apply Forall_app. split; [done|].
    by constructor.
  - intros rtt f H1 H2 H. simpl. apply Forall_app. split; [done|].
    by constructor.
  - intros s f H. unfold track_small_win, track_retrans.
    repeat (case_match; simpl); exact H.
Qed.

(** X2. Sequence tracking of [analyze_pcap] (lines 192-194): in every flow
    record [max_seq] is an upper bound of [seen_seqs] and is either its
    initial 0 or a seen sequence number, and [last_seq] is [None] exactly
    when no payload segment was seen, and otherwise a member of
    [seen_seqs]. *)
Theorem report_sequence_state_is_coherent (pkts : list Segment) :
  map_Forall (λ _ f,
      (∀ q, q ∈ seen_seqs f → q ≤ max_seq f)
      ∧ (max_seq f = 0 ∨ max_seq f ∈ seen_seqs f)
      ∧ (last_seq f = None ↔ seen_seqs f = ∅)
      ∧ (∀ q, last_seq f = Some q → q ∈ seen_seqs f))
    (flows (analyze_pcap pkts)).
Proof.
  apply (report_flows_invariant _
    (λ f, (∀ q, q ∈ seen_seqs f → q ≤ max_seq f)
          ∧ (max_seq f = 0 ∨ max_seq f ∈ seen_seqs f)
          ∧ (last_seq f = None ↔ seen_seqs f = ∅)
          ∧ (∀ q, last_seq f = Some q → q ∈ seen_seqs f))).
  - simpl. split; [set_solver|]. split; [by left|]. split; [done|done].
  - intros s f H. exact H.
  - intros rtt f _ _ H. exact H.
  - intros rtt f _ _ H. exact H.
  - intros s f (Hmax & Hin & Hnone & Hlast).
    assert (∀ g, ((∀ q, q ∈ seen_seqs g → q ≤ max_seq g)
                  ∧ (max_seq g = 0 ∨ max_seq g ∈ seen_seqs g)
                  ∧ (last_seq g = None ↔ seen_seqs g = ∅)
                  ∧ (∀ q, last_seq g = Some q → q ∈ seen_seqs g)) →
                (∀ q, q ∈ seen_seqs (track_small_win s g)
                      → q ≤ max_seq (track_small_win s g))
                ∧ (max_seq (track_small_win s g) = 0
                   ∨ max_seq (track_small_win s g)
                     ∈ seen_seqs (track_small_win s g))
                ∧ (last_seq (track_small_win s g) = None
                   ↔ seen_seqs (track_small_win s g) = ∅)
                ∧ (∀ q, last_seq (track_small_win s g) = Some q
                        → q ∈ seen_seqs (track_small_win s g))) as Hsw.
    { intros g Hg. unfold track_small_win. by case_match. }
    apply Hsw. destruct (0 <? payload_len s); [|done].
    unfold track_retrans. simpl. split; [|split; [|split]].
    + intros q [->%elem_of_singleton|Hq]%elem_of_union; [lia|].
      specialize (Hmax q Hq). lia.
    + destruct (Z.max_spec (max_seq f) (tcp_seq s)) as [[_ ->]|[Hle ->]].
      * right. set_solver.
      * destruct Hin as [H0|Hin]; [by left|right; set_solver].
    + split; [done|]. intros H. exfalso. set_solver.
    + intros q [= <-]. set_solver.
Qed.

(** The total of an integer field over the flow table grows with each
    packet by what [record_packet] adds to it, provided no other step of
    the loop body changes the field. *)
Lemma report_field_total (g : FlowMetrics → Z) (d : Segment → Z) :
  g new_FlowMetrics = 0 →
  (∀ s f, g (record_packet s f) = g f + d s) →
  (∀ rtt f, g (add_rtt_sample rtt f) = g f) →
  (∀ s f, g (track_retrans s f) = g f) →
  (∀ s f, g (track_small_win s f) = g f) →
  ∀ (pkts : list Segment) (st : State),
    sum_values g (flows (analyze_pcap_from st pkts))
    = sum_values g (flows st) + foldr (λ s acc, d s + acc) 0 pkts.
Proof.
  intros Hnew Hrec Hadd Hre Hsw pkts.
  unfold analyze_pcap_from.
  induction pkts as [|s pkts IH]; intros st; simpl; [lia|].
  rewrite IH. clear IH.
  assert (sum_values g (flows (process_segment st s))
          = sum_values g (flows st) + d s) as ->; [|lia].
  unfold process_segment.
  set (fl1 := dd_update new_FlowMetrics (record_packet s) (flow_key_of s)
                (flows st)).
  assert (sum_values g fl1 = sum_values g (flows st) + d s) as H1.
  { unfold fl1. rewrite sum_values_dd_update by done. rewrite Hrec. lia. }
  destruct (resolve_rtt s fl1 (unacked_packets st)) as [fl2 un2] eqn:Eres.
  assert (sum_values g fl2 = sum_values g fl1) as H2.
  { destruct (resolve_rtt_flows s fl1 (unacked_packets st))
      as [E|(rtt & _ & _ & E)]; rewrite Eres in E; simpl in E; subst fl2;
      [done|].
    rewrite sum_values_dd_update by done. rewrite Hadd. lia. }
  simpl. rewrite sum_values_alter_same by apply Hsw.
  destruct (0 <? payload_len s);
    [rewrite sum_values_alter_same by apply Hre|]; lia.
Qed.

(** X3. Every decoded packet is counted in exactly one flow: over the flow
    table of [analyze_pcap], the [count] fields add up to the number of
    packets read (the value of [packet_count]) and the [payload_bytes]
    fields add up to the payload lengths of the packets. *)
Theorem report_counts_add_up_to_the_capture (pkts : list Segment) :
  sum_values count (flows (analyze_pcap pkts)) = Z.of_nat (length pkts)
  ∧ packet_count (analyze_pcap pkts) = Z.of_nat (length pkts)
  ∧ sum_values payload_bytes (flows (analyze_pcap pkts))
    = foldr (λ s acc, payload_len s + acc) 0 pkts.
Proof.
  split; [|split].
  - unfold analyze_pcap.
    rewrite (report_field_total count (λ _, 1));
      [|done|done|done|done|intros s f; unfold track_small_win; by case_match].
    simpl. rewrite sum_values_empty. induction pkts; simpl; lia.
  - unfold analyze_pcap, analyze_pcap_from.
    assert (∀ st, packet_count (foldl process_segment st pkts)
                  = packet_count st + Z.of_nat (length pkts)) as Hn.
    { induction pkts as [|s pkts IH]; intros st; simpl; [lia|].
      rewrite IH. unfold process_segment.
      destruct (resolve_rtt _ _ _). simpl. lia. }
    rewrite Hn. simpl. lia.
  - unfold analyze_pcap.
    rewrite (report_field_total payload_bytes payload_len);
      [|done|done|done|done|intros s f; unfold track_small_win; by case_match].
    simpl. by rewrite sum_values_empty.
Qed.
End Report_invariants.

Section Report_no_phantom.
Import Report.

Lemma resolve_rtt_needs_pending (s : Segment)
    (fl : gmap FlowKey FlowMetrics) (un : gmap FlowKey (gmap Z Q)) :
  ((resolve_rtt s fl un).1 = fl
   ∨ is_Some (un !! rev_flow_key_of s)
     ∧ ∃ rtt : Q, (resolve_rtt s fl un).1
         = dd_update new_FlowMetrics (add_rtt_sample rtt)
             (rev_flow_key_of s) fl)
  ∧ ∀ k, is_Some ((resolve_rtt s fl un).2 !! k) ↔ is_Some (un !! k).
Proof.
  unfold resolve_rtt. destruct (has_flag _ _); [|by split; [left|]].
  destruct (un !! rev_flow_key_of s) as [pending|] eqn:Eun; simpl.
  - destruct (pending !! tcp_ack s) as [sent|]; [|by split; [left|]].
    simpl. split.
    + destruct (_ && _); [|by left]. right. split; [|eauto].
      revert Eun. generalize (rev_flow_key_of s). intros. eauto.
    + intros k. destruct (decide (rev_flow_key_of s = k)) as [<-|Hne].
      * rewrite lookup_alter_eq.
        assert (un !! rev_flow_key_of s = Some pending) as -> by exact Eun.
        simpl. split; eauto.
      * by rewrite lookup_alter_ne.
  - rewrite lookup_empty. by split; [left|].
Qed.

(** Records are only ever created by the bookkeeping of a packet of their
    own direction: an RTT sample is appended to the reverse flow only when
    that flow has registered a pending segment before. *)
Lemma report_flows_have_packets (pkts : list Segment) :
  map_Forall (λ _ f, 1 ≤ count f) (flows (analyze_pcap pkts)).
Proof.
  unfold analyze_pcap, analyze_pcap_from.
  assert (map_Forall (λ _ f, 1 ≤ count f) (flows init)
          ∧ ∀ k, is_Some (unacked_packets init !! k)
                 → is_Some (flows init !! k)) as H0.
  { split; [apply map_Forall_empty|]. intros k. simpl.
    rewrite lookup_empty. by intros [? ?]. }
  revert H0. generalize init.
  induction pkts as [|s pkts IH]; intros st [Hst Hun]; [done|].
  simpl. apply IH. clear IH.
  unfold process_segment.
  set (fk := flow_key_of s). set (rk := rev_flow_key_of s).
  set (fl1 := dd_update new_FlowMetrics (record_packet s) fk (flows st)).
  assert (map_Forall (λ _ f, 1 ≤ count f) fl1) as H1.
  { unfold fl1, dd_update, dd_get. apply map_Forall_insert_2; [|done].
    destruct (flows st !! fk) as [g|] eqn:E; simpl; [|lia].
    specialize (Hst fk g E). simpl in Hst. lia. }
  assert (∀ k, is_Some (flows st !! k) → is_Some (fl1 !! k)) as Hdom1.
  { intros k Hk. unfold fl1, dd_update.
    destruct (decide (fk = k)) as [<-|Hne];
      [rewrite lookup_insert_eq; eauto|by rewrite lookup_insert_ne]. }
  assert (is_Some (fl1 !! fk)) as Hfk1.
  { unfold fl1, dd_update. rewrite lookup_insert_eq. eauto. }
  destruct (resolve_rtt_needs_pending s fl1 (unacked_packets st))
    as [Hfl Hun2].
  destruct (resolve_rtt s fl1 (unacked_packets st)) as [fl2 un2] eqn:Eres.
  simpl in Hfl, Hun2.
  assert (map_Forall (λ _ f, 1 ≤ count f) fl2
          ∧ ∀ k, is_Some (fl1 !! k) → is_Some (fl2 !! k)) as [H2 Hdom2].
  { destruct Hfl as [->|[Hpend [rtt ->]]]; [done|].
    fold rk in Hpend |- *.
    destruct (Hdom1 rk (Hun rk Hpend)) as [g Hg].
    unfold dd_update, dd_get. rewrite Hg. simpl. split.
    - apply map_Forall_insert_2; [|done]. simpl. exact (H1 rk g Hg).
    - intros k Hk. destruct (decide (rk = k)) as [<-|Hne];
        [rewrite lookup_insert_eq; eauto|by rewrite lookup_insert_ne]. }
  simpl. split.
  - apply map_Forall_alter_keep.
    { intros f Hf. unfold track_small_win. by case_match. }
    destruct (0 <? payload_len s); [|done].
    apply map_Forall_alter_keep; [|done]. intros f Hf. exact Hf.
  - intros k Hk.
    assert (is_Some (fl2 !! k)) as Hk2.
    { unfold register_unacked in Hk.
      destruct (0 <? payload_len s).
      - unfold dd_update in Hk. fold fk in Hk.
        destruct (decide (fk = k)) as [<-|Hne]; [by apply Hdom2|].
        rewrite lookup_insert_ne in Hk by done.
        apply Hdom2, Hdom1, Hun, Hun2, Hk.
      - apply Hdom2, Hdom1, Hun, Hun2, Hk. }
    rewrite lookup_alter_is_Some.
    destruct (0 <? payload_len s); [by rewrite lookup_alter_is_Some|done].
Qed.
End Report_no_phantom.

(** *** Means and maxima *)

Lemma Qsum_lower (a : Q) (l : list Q) :
  Forall (λ x, (a <= x)%Q) l →
  (inject_Z (Z.of_nat (length l)) * a <= Qsum l)%Q.
Proof.
  induction 1 as [|x l Hx Hl IH]; simpl Qsum; simpl length.
  - rewrite Qmult_0_l. apply Qle_refl.
  - rewrite Nat2Z.inj_succ. unfold Z.succ. rewrite inject_Z_plus.
    assert (((inject_Z (Z.of_nat (length l)) + inject_Z 1) * a) == (a + inject_Z (Z.of_nat (length l)) * a))%Q as -> by ring.
    by apply Qplus_le_compat.
Qed.

Lemma Qsum_upper (b : Q) (l : list Q) :
  Forall (λ x, (x <= b)%Q) l →
  (Qsum l <= inject_Z (Z.of_nat (length l)) * b)%Q.
Proof.
  induction 1 as [|x l Hx Hl IH]; simpl Qsum; simpl length.
  - rewrite Qmult_0_l. apply Qle_refl.
  - rewrite Nat2Z.inj_succ. unfold Z.succ. rewrite inject_Z_plus.
    assert (((inject_Z (Z.of_nat (length l)) + inject_Z 1) * b) == (b + inject_Z (Z.of_nat (length l)) * b))%Q as -> by ring.
    by apply Qplus_le_compat.
Qed.

(** [np.mean] lies between any lower and upper bound of the samples. *)
Lemma np_mean_bounds (a b m : Q) (l : list Q) :
  np_mean l = Some m →
  Forall (λ x, (a <= x)%Q) l → Forall (λ x, (x <= b)%Q) l →
  (a <= m)%Q ∧ (m <= b)%Q.
Proof.
  intros Hm Ha Hb. destruct l as [|x l]; [done|].
  injection Hm as <-.
  assert (0 < inject_Z (Z.of_nat (length (x :: l))))%Q as Hn.
  { change 0%Q with (inject_Z 0). rewrite <- Zlt_Qlt. simpl length. lia. }
  split.
  - apply Qle_shift_div_l; [done|]. rewrite Qmult_comm.
    exact (Qsum_lower a (x :: l) Ha).
  - apply Qle_shift_div_r; [done|]. rewrite Qmult_comm.
    exact (Qsum_upper b (x :: l) Hb).
Qed.

Lemma foldl_Qmax_upper (l : list Q) (x : Q) :
  (x <= foldl Qmax x l)%Q ∧ Forall (λ y, (y <= foldl Qmax x l)%Q) l.
Proof.
  revert x. induction l as [|y l IH]; intros x; simpl.
  - split; [apply Qle_refl|constructor].
  - destruct (IH (Qmax x y)) as [H1 H2]. split; [|constructor; [|done]].
    + eapply Qle_trans; [apply Q.le_max_l|exact H1].
    + eapply Qle_trans; [apply Q.le_max_r|exact H1].
Qed.

Lemma foldl_Qmax_lt (b : Q) (l : list Q) (x : Q) :
  (x < b)%Q → Forall (λ y, (y < b)%Q) l → (foldl Qmax x l < b)%Q.
Proof.
  revert x. induction l as [|y l IH]; intros x Hx Hl; simpl; [done|].
  inversion Hl; subst. apply IH; [|done]. by apply Q.max_lub_lt.
Qed.

(** [np.max] is an upper bound of the samples and stays below any strict
    bound of them. *)
Lemma np_max_spec (M : Q) (l : list Q) :
  np_max l = Some M →
  Forall (λ y, (y <= M)%Q) l
  ∧ ∀ b, Forall (λ y, (y < b)%Q) l → (M < b)%Q.
Proof.
  destruct l as [|x l]; [done|]. intros [= <-].
  destruct (foldl_Qmax_upper l x) as [H1 H2]. split; [by constructor|].
  intros b Hb. inversion Hb; subst. by apply foldl_Qmax_lt.
Qed.

Section Report_diagnosis.
Import Report.
Variable np_std : list Q → Q.

(** Lines 214-221 with the outcome spelled out. *)
Lemma report_base_metrics_cases (fm : FlowMetrics) :
  ∃ aw : Q,
    (wins fm = [] ∧ aw = 0%Q
     ∨ np_mean (inject_Z <$> wins fm) = Some aw)
    ∧ (((length (rtt_samples fm) < MIN_RTT_SAMPLES)%nat
        ∧ base_metrics np_std fm = Some (aw, 0%Q, 0%Q, 0%Q))
       ∨ ∃ ra rm,
           (MIN_RTT_SAMPLES ≤ length (rtt_samples fm))%nat
           ∧ np_mean (rtt_samples fm) = Some ra
           ∧ np_max (rtt_samples fm) = Some rm
           ∧ base_metrics np_std fm
             = Some (aw, ra, rm, np_std (rtt_samples fm))).
Proof.
  unfold base_metrics.
  assert (∃ aw : Q,
            match wins fm with
            | [] => Some 0%Q
            | _ => np_mean (inject_Z <$> wins fm)
            end = Some aw
            ∧ (wins fm = [] ∧ aw = 0%Q
               ∨ np_mean (inject_Z <$> wins fm) = Some aw))
    as (aw & -> & Haw).
  { destruct (wins fm) as [|w l]; simpl; eexists;
      (split; [reflexivity|]); [by left|by right]. }
  exists aw. split; [exact Haw|]. simpl.
  destruct (decide _) as [Hge|Hlt].
  - right. destruct (rtt_samples fm) as [|x l] eqn:E.
    { unfold MIN_RTT_SAMPLES in Hge. simpl in Hge. lia. }
    simpl. do 2 eexists. split; [done|].
    split; [reflexivity|]. split; reflexivity.
  - left. split; [lia|done].
Qed.

(** The three unnormalised scores are never negative. *)
Lemma report_raw_scores_nonneg (fm : FlowMetrics) (aw rs sc sn ss : Q) :
  0 ≤ rto_cnt fm → 0 < count fm →
  raw_scores fm aw rs = Some (sc, sn, ss) →
  (0 <= sc)%Q ∧ (0 <= sn)%Q ∧ (0 <= ss)%Q.
Proof.
  intros Hrto Hcount. unfold raw_scores.
  assert (0 < inject_Z (count fm))%Q as Hc.
  { change 0%Q with (inject_Z 0). by rewrite <- Zlt_Qlt. }
  assert (∀ a b c : Q, (0 <= a)%Q → (0 <= b)%Q → (0 <= c)%Q →
            (0 <= a + b * c)%Q) as Hlin.
  { intros a b c Ha Hb Hcc.
    assert (0 == (0 + 0))%Q as -> by ring.
    apply Qplus_le_compat; [done|]. by apply Qmult_le_0_compat. }
  assert (0 <= inject_Z (rto_cnt fm))%Q as Hrq.
  { change 0%Q with (inject_Z 0). by rewrite <- Zle_Qle. }
  assert (∀ sn2 : Q, (0 <= sn2)%Q →
            (0 <= (if Qltb RTT_JITTER_THRESH rs
                   then (if 0 <? rto_cnt fm
                         then sn2 + inject_Z (rto_cnt fm) * 0.5
                         else sn2) + 1.0
                   else (if 0 <? rto_cnt fm
                         then sn2 + inject_Z (rto_cnt fm) * 0.5
                         else sn2)))%Q) as Hsn.
  { intros sn2 H2.
    assert (0 <= (if 0 <? rto_cnt fm
                  then sn2 + inject_Z (rto_cnt fm) * 0.5 else sn2))%Q as H3.
    { destruct (0 <? rto_cnt fm); [|done]. apply Hlin; [done|done|].
      by vm_compute. }
    destruct (Qltb RTT_JITTER_THRESH rs); [|done].
    assert (0 == (0 + 0))%Q as -> by ring.
    apply Qplus_le_compat; [done|by vm_compute]. }
  destruct (Qltb aw 500 && (10 <? count fm));
    destruct (0 <? retrans fm) eqn:Er.
  all: try (apply Z.ltb_lt in Er;
            rewrite py_truediv_Some by (apply inject_Z_nonzero; lia)).
  all: simpl; intros [= <- <- <-].
  all: try (assert (0 <= inject_Z (retrans fm) / inject_Z (count fm))%Q
              as Hratio
              by (apply Qle_shift_div_l; [done|]; rewrite Qmult_0_l;
                  change 0%Q with (inject_Z 0); rewrite <- Zle_Qle; lia)).
  - split; [by vm_compute|]. split.
    + apply Hsn. apply Hlin; [apply Qle_refl|done|by vm_compute].
    + apply Hlin; [by vm_compute|done|by vm_compute].
  - split; [by vm_compute|]. split; [|by vm_compute].
    apply Hsn. apply Qle_refl.
  - split; [apply Qle_refl|]. split.
    + apply Hsn. apply Hlin; [apply Qle_refl|done|by vm_compute].
    + apply Hlin; [apply Qle_refl|done|by vm_compute].
  - split; [apply Qle_refl|]. split; [|apply Qle_refl].
    apply Hsn. apply Qle_refl.
Qed.
End Report_diagnosis.

Section Report_diagnosis_of_captures.
Import Report.
Variable np_std : list Q → Q.

Lemma Qdiv_in_unit (a t : Q) :
  (0 <= a)%Q → (a <= t)%Q → (0 < t)%Q → (0 <= a / t)%Q ∧ (a / t <= 1)%Q.
Proof.
  intros Ha Hat Ht. split.
  - apply Qle_shift_div_l; [done|]. by rewrite Qmult_0_l.
  - apply Qle_shift_div_r; [done|]. by rewrite Qmult_1_l.
Qed.

Lemma report_diagnosis_in_unit (fm : FlowMetrics) :
  0 ≤ rto_cnt fm → 0 < count fm →
  ∃ d : Diagnosis,
    calculate_probabilities np_std fm = Some d
    ∧ (0 <= p_client d)%Q ∧ (p_client d <= 1)%Q
    ∧ (0 <= p_network d)%Q ∧ (p_network d <= 1)%Q
    ∧ (0 <= p_server d)%Q ∧ (p_server d <= 1)%Q.
Proof.
  intros Hrto Hcount.
  destruct (report_diagnosis np_std fm) as
    (d & sc & sn & ss & Hd & Hraw & Hlow & Hhigh & _); [lia|].
  exists d. split; [exact Hd|].
  destruct (report_raw_scores_nonneg fm _ _ sc sn ss Hrto Hcount Hraw)
    as (Hsc & Hsn & Hss).
  destruct (Qlt_le_dec (sc + sn + ss) 0.001) as [Hlt|Hge].
  - destruct (Hlow Hlt) as (-> & -> & ->). by vm_compute.
  - destruct (Hhigh Hge) as (-> & -> & ->).
    assert (0 < sc + sn + ss)%Q as Hpos.
    { eapply Qlt_le_trans; [|exact Hge]. by vm_compute. }
    assert (sc <= sc + sn + ss)%Q as H1.
    { assert (sc == sc + 0 + 0)%Q as Heq by ring. rewrite Heq at 1.
      by repeat apply Qplus_le_compat; try apply Qle_refl. }
    assert (sn <= sc + sn + ss)%Q as H2.
    { assert (sn == 0 + sn + 0)%Q as Heq by ring. rewrite Heq at 1.
      by repeat apply Qplus_le_compat; try apply Qle_refl. }
    assert (ss <= sc + sn + ss)%Q as H3.
    { assert (ss == 0 + 0 + ss)%Q as Heq by ring. rewrite Heq at 1.
      by repeat apply Qplus_le_compat; try apply Qle_refl. }
    destruct (Qdiv_in_unit sc _ Hsc H1 Hpos).
    destruct (Qdiv_in_unit sn _ Hsn H2 Hpos).
    destruct (Qdiv_in_unit ss _ Hss H3 Hpos). done.
Qed.

(** X4. For every flow of every capture [calculate_probabilities] returns
    a diagnosis whose three probabilities each lie between 0 and 1. *)
Theorem report_probabilities_lie_in_the_unit_interval (pkts : list Segment) :
  map_Forall (λ _ fm,
      ∃ d : Diagnosis,
        calculate_probabilities np_std fm = Some d
        ∧ (0 <= p_client d)%Q ∧ (p_client d <= 1)%Q
        ∧ (0 <= p_network d)%Q ∧ (p_network d <= 1)%Q
        ∧ (0 <= p_server d)%Q ∧ (p_server d <= 1)%Q)
    (flows (analyze_pcap pkts)).
Proof.
  intros k fm Hfm.
  pose proof (report_flows_consistent pkts k fm Hfm) as H. simpl in H.
  pose proof (report_flows_have_packets pkts k fm Hfm) as Hc. simpl in Hc.
  apply report_diagnosis_in_unit; lia.
Qed.

Lemma report_diagnosis_rtt (fm : FlowMetrics) :
  0 < count fm →
  ∃ d : Diagnosis,
    calculate_probabilities np_std fm = Some d
    ∧ ((length (rtt_samples fm) < MIN_RTT_SAMPLES)%nat
       ∧ rtt_avg d = 0%Q ∧ rtt_max d = 0%Q ∧ rtt_std d = 0%Q
       ∨ (MIN_RTT_SAMPLES ≤ length (rtt_samples fm))%nat
         ∧ np_mean (rtt_samples fm) = Some (rtt_avg d)
         ∧ np_max (rtt_samples fm) = Some (rtt_max d)
         ∧ rtt_std d = np_std (rtt_samples fm)).
Proof.
  intros Hcount.
  destruct (report_base_metrics_cases np_std fm)
    as (aw & _ & [[Hlen Hb]|(ra & rm & Hlen & Hra & Hrm & Hb)]).
  - destruct (report_raw_scores fm aw 0%Q)
      as (sc & sn & ss & Hr & _); [lia|].
    rewrite (report_normalisation np_std _ _ _ _ _ _ _ _ Hb Hr).
    eexists. split; [reflexivity|]. left. by destruct (Qltb _ _).
  - destruct (report_raw_scores fm aw (np_std (rtt_samples fm)))
      as (sc & sn & ss & Hr & _); [lia|].
    rewrite (report_normalisation np_std _ _ _ _ _ _ _ _ Hb Hr).
    eexists. split; [reflexivity|]. right. by destruct (Qltb _ _).
Qed.

(** X5. Every round-trip sample that [analyze_pcap] stores in a flow is
    strictly between 0 and 10 seconds (samples outside that range are
    discarded at line 162), and the RTT statistics of the flow's diagnosis
    stay within that range: [rtt_max] is not below any sample, is positive
    and below 10 s once the flow has [MIN_RTT_SAMPLES] samples, and
    [rtt_avg] lies between 0 and 10 s; with fewer than [MIN_RTT_SAMPLES]
    samples both are 0.  Nothing is said on the order of [rtt_avg] and
    [rtt_max]: a mean computed in floating point may exceed the largest
    sample by a rounding error. *)
Theorem report_rtt_statistics_are_bounded (pkts : list Segment) :
  map_Forall (λ _ fm,
      Forall (λ rtt, (0 < rtt)%Q ∧ (rtt < 10)%Q) (rtt_samples fm)
      ∧ ∃ d : Diagnosis,
          calculate_probabilities np_std fm = Some d
          ∧ (0 <= rtt_avg d)%Q ∧ (rtt_avg d <= 10)%Q
          ∧ (0 <= rtt_max d)%Q ∧ (rtt_max d < 10)%Q
          ∧ ((length (rtt_samples fm) < MIN_RTT_SAMPLES)%nat →
             rtt_avg d = 0%Q ∧ rtt_max d = 0%Q)
          ∧ ((MIN_RTT_SAMPLES ≤ length (rtt_samples fm))%nat →
             (0 < rtt_max d)%Q
             ∧ Forall (λ rtt, (rtt <= rtt_max d)%Q) (rtt_samples fm)))
    (flows (analyze_pcap pkts)).
Proof.
  intros k fm Hfm.
  pose proof (report_rtt_samples_in_range pkts k fm Hfm) as Hs. simpl in Hs.
  split; [exact Hs|].
  pose proof (report_flows_have_packets pkts k fm Hfm) as Hc. simpl in Hc.
  destruct (report_diagnosis_rtt fm) as (d & Hd & Hcase); [lia|].
  exists d. split; [exact Hd|].
  destruct Hcase as [(Hlen & -> & -> & _)|(Hlen & Hra & Hrm & _)].
  - split; [apply Qle_refl|]. split; [by vm_compute|].
    split; [apply Qle_refl|]. split; [by vm_compute|].
    split; [done|]. intros Hge. unfold MIN_RTT_SAMPLES in *. lia.
  - destruct (np_max_spec _ _ Hrm) as [Hub Hlt].
    destruct (np_mean_bounds 0 10 _ _ Hra) as [H1 H2].
    { eapply Forall_impl; [exact Hs|]. intros x [Hx _]. simpl.
      by apply Qlt_le_weak. }
    { eapply Forall_impl; [exact Hs|]. intros x [_ Hx]. simpl.
      by apply Qlt_le_weak. }
    assert (0 < rtt_max d)%Q as Hpos.
    { destruct (rtt_samples fm) as [|x l] eqn:E;
        [unfold MIN_RTT_SAMPLES in Hlen; simpl in Hlen; lia|].
      apply Forall_cons in Hs as [[Hx _] _].
      apply Forall_cons in Hub as [Hxm _].
      eapply Qlt_le_trans; [exact Hx|exact Hxm]. }
    split; [exact H1|]. split; [exact H2|].
    split; [by apply Qlt_le_weak|]. split.
    + apply Hlt. eapply Forall_impl; [exact Hs|]. by intros x [_ Hx].
    + split; [intros Hlt'; unfold MIN_RTT_SAMPLES in *; lia|].
      intros _. split; [exact Hpos|exact Hub].
Qed.

(** X6. When [np.std] is never negative, the sort key computed at line 395
    is at least 0.01 for every flow of every capture, so the filter
    [r['score'] > 0] of [generate_plot] keeps every row. *)
Theorem report_score_is_positive (pkts : list Segment) :
  (∀ l, (0 <= np_std l)%Q) →
  map_Forall (λ _ fm,
      ∃ d : Diagnosis,
        calculate_probabilities np_std fm = Some d
        ∧ (0.01 <= score fm d)%Q)
    (flows (analyze_pcap pkts)).
Proof.
  intros Hstd k fm Hfm.
  pose proof (report_flows_consistent pkts k fm Hfm) as H. simpl in H.
  pose proof (report_flows_have_packets pkts k fm Hfm) as Hc. simpl in Hc.
  destruct (report_diagnosis_rtt fm) as (d & Hd & Hcase); [lia|].
  exists d. split; [exact Hd|].
  assert (0 <= rtt_std d)%Q as Hs.
  { destruct Hcase as [(_ & _ & _ & ->)|(_ & _ & _ & ->)];
      [apply Qle_refl|apply Hstd]. }
  unfold score.
  assert (0 <= inject_Z (retrans fm * 5))%Q as H1.
  { change 0%Q with (inject_Z 0). rewrite <- Zle_Qle. lia. }
  assert (0 <= inject_Z (rto_cnt fm * 10))%Q as H2.
  { change 0%Q with (inject_Z 0). rewrite <- Zle_Qle. lia. }
  assert (0 <= rtt_std d * 100)%Q as H3.
  { apply Qmult_le_0_compat; [done|by vm_compute]. }
  assert (0.01 <= inject_Z (count fm) * 0.01)%Q as H4.
  { assert (0.01 == inject_Z 1 * 0.01)%Q as Heq by ring. rewrite Heq at 1.
    apply Qmult_le_compat_r; [|by vm_compute]. rewrite <- Zle_Qle. lia. }
  assert (0.01 == 0 + 0 + 0 + 0.01)%Q as Heq by ring. rewrite Heq at 1.
  by repeat apply Qplus_le_compat.
Qed.
End Report_diagnosis_of_captures.

Lemma report_score_is_positive_witness :
  map_Forall (λ _ fm,
      ∃ d : Report.Diagnosis,
        Report.calculate_probabilities Scenario.np_std_unused fm = Some d
        ∧ (0.01 <= Report.score fm d)%Q)
    (Report.flows (Report.analyze_pcap Scenario.repeat_100)).
Proof.
  apply (report_score_is_positive Scenario.np_std_unused Scenario.repeat_100).
  intros l. unfold Scenario.np_std_unused. apply Qle_refl.
Defined.

(** *** Sessions and directed flows *)

Lemma size_set_map_le `{Countable T, Countable U} (f : T → U) (X : gset T) :
  (size (set_map (D:=gset U) f X) ≤ size X)%nat.
Proof.
  induction X as [|x X Hx IH] using set_ind_L.
  - by rewrite set_map_empty.
  - rewrite set_map_union_L, set_map_singleton_L.
    rewrite size_union_alt, size_singleton.
    rewrite (size_union {[x]} X) by set_solver. rewrite size_singleton.
    assert (size (set_map (D:=gset U) f X ∖ {[f x]})
            ≤ size (set_map (D:=gset U) f X))%nat
      by (apply subseteq_size; set_solver).
    lia.
Qed.

Lemma size_union_le `{Countable T} (X Y : gset T) :
  (size (X ∪ Y) ≤ size X + size Y)%nat.
Proof.
  rewrite size_union_alt.
  assert (size (Y ∖ X) ≤ size Y)%nat by (apply subseteq_size; set_solver).
  lia.
Qed.

Lemma swap_key_involutive (k : FlowKey) : swap_key (swap_key k) = k.
Proof. by destruct k as [[[a ap] b] bp]. Qed.

(** X7. The session count of [main] (lines 369-384) and the number of
    directed flows bound each other: there are at most as many sessions as
    flows, and at most two flows per session. *)
Theorem report_sessions_versus_flows (fl : gmap FlowKey Report.FlowMetrics) :
  (Report.total_tcp_sessions fl ≤ size fl)%nat
  ∧ (size fl ≤ 2 * Report.total_tcp_sessions fl)%nat.
Proof.
  unfold Report.total_tcp_sessions, Report.unique_sessions.
  rewrite <- (size_dom (D:=gset FlowKey) fl).
  generalize (dom fl : gset FlowKey). intros X. split.
  - apply size_set_map_le.
  - set (S := set_map (D:=gset FlowKey) Report.session_key X).
    assert (X ⊆ S ∪ set_map (D:=gset FlowKey) swap_key S) as Hsub.
    { intros k Hk. destruct (session_key_cases k) as [E|E].
      - apply elem_of_union. left. unfold S. apply elem_of_map.
        exists k. by rewrite E.
      - apply elem_of_union. right. apply elem_of_map.
        exists (Report.session_key k). split.
        + by rewrite E, swap_key_involutive.
        + unfold S. apply elem_of_map. by exists k. }
    apply subseteq_size in Hsub.
    pose proof (size_union_le S (set_map (D:=gset FlowKey) swap_key S)).
    pose proof (size_set_map_le swap_key S).
    lia.
Qed.

(** *** [generate_plot] *)

Section Plot.
Import Report.

Lemma slice_step_from_length {A} (step : nat) (l : list A) (skip : nat) :
  (1 ≤ step)%nat →
  length (slice_step_from step skip l)
  = ((length l - skip + (step - 1)) / step)%nat.
Proof.
  intros Hstep. revert skip.
  induction l as [|x l IH]; intros skip; cbn [slice_step_from length].
  - rewrite Nat.div_small; lia.
  - destruct skip as [|k]; cbn [length]; rewrite IH.
    + destruct (decide (step - 1 ≤ length l)%nat) as [Hle|Hgt].
      * replace (S (length l) - 0 + (step - 1))%nat
          with (length l - (step - 1) + (step - 1) + 1 * step)%nat by lia.
        rewrite Nat.div_add by lia. lia.
      * replace (length l - (step - 1) + (step - 1))%nat
          with (step - 1)%nat by lia.
        replace (S (length l) - 0 + (step - 1))%nat
          with (length l + 1 * step)%nat by lia.
        rewrite Nat.div_add by lia.
        rewrite !Nat.div_small by lia. lia.
    + replace (S (length l) - S k)%nat with (length l - k)%nat by lia. done.
Qed.

Lemma slice_step_one {A} (l : list A) : slice_step_from 1 0 l = l.
Proof. induction l as [|x l IH]; simpl; [done|]. by rewrite IH. Qed.

(** X8. Downsampling of [generate_plot] (lines 286-293): for a flow with
    [n] recorded packets both plotted lists have the same length, which is
    at least [min n PLOT_MAX_POINTS] and at most [2 * PLOT_MAX_POINTS - 1];
    a flow with fewer than [2 * PLOT_MAX_POINTS] packets is plotted in
    full.  A flow is skipped (line 292) exactly when it has no recorded
    packet. *)
Theorem report_plot_downsampling (fm : FlowMetrics) :
  (plot_axes fm = None ↔ win_ts fm = [])
  ∧ match plot_axes fm with
    | None => win_ts fm = []
    | Some (t_axis, w_axis) =>
        win_ts fm ≠ []
        ∧ length t_axis = length w_axis
        ∧ (Nat.min (length (win_ts fm)) PLOT_MAX_POINTS ≤ length t_axis)%nat
        ∧ (length t_axis ≤ 2 * PLOT_MAX_POINTS - 1)%nat
        ∧ ((length (win_ts fm) < 2 * PLOT_MAX_POINTS)%nat →
           w_axis = (win_ts fm).*2)
    end.
Proof.
  split.
  { unfold plot_axes. destruct (win_ts fm) as [|p l]; simpl; [done|].
    split; discriminate. }
  destruct (win_ts fm) as [|p l] eqn:E.
  { unfold plot_axes. by rewrite E. }
  assert (plot_axes fm
          = Some ((λ t, (t - p.1)%Q)
                    <$> py_slice_step
                          (Nat.max 1 (length (win_ts fm).*1 / PLOT_MAX_POINTS))
                          (win_ts fm).*1,
                  py_slice_step
                    (Nat.max 1 (length (win_ts fm).*1 / PLOT_MAX_POINTS))
                    (win_ts fm).*2)) as ->
    by (unfold plot_axes; rewrite E; reflexivity).
  split; [done|].
  rewrite <- E. clear E. generalize (p.1). clear p l. intros start_time.
  unfold py_slice_step. change PLOT_MAX_POINTS with 300%nat.
  rewrite !length_fmap.
  rewrite !slice_step_from_length by lia. rewrite !length_fmap.
  generalize ((win_ts fm).*2). intros win_raw.
  generalize (length (win_ts fm)). intros n.
  pose proof (Nat.div_mod_eq n 300) as Hn.
  pose proof (Nat.mod_upper_bound n 300 ltac:(lia)) as Hr.
  revert Hn Hr. generalize (n / 300)%nat (n mod 300)%nat. intros q r Hn Hr.
  split; [done|].
  destruct (decide (q ≤ 1)%nat) as [Hq|Hq].
  - replace (Nat.max 1 q) with 1%nat by lia.
    rewrite Nat.div_1_r. split; [lia|]. split; [lia|].
    intros _. apply slice_step_one.
  - replace (Nat.max 1 q) with q by lia.
    pose proof (Nat.div_mod_eq (n - 0 + (q - 1)) q) as Hm.
    pose proof (Nat.mod_upper_bound (n - 0 + (q - 1)) q ltac:(lia)) as Hmr.
    revert Hm Hmr.
    generalize ((n - 0 + (q - 1)) / q)%nat ((n - 0 + (q - 1)) mod q)%nat.
    intros m r' Hm Hmr.
    split; [nia|]. split; [nia|]. intros Hlt. lia.
Qed.
End Plot.

Section Ip_bars.
Import Report.

Lemma od_update_Forall {V} (P : V → Prop) (dflt : V) (f : V → V)
    (k : string) (d : list (string * V)) :
  P (f dflt) → (∀ v, P v → P (f v)) →
  Forall (λ x, P x.2) d → Forall (λ x, P x.2) (od_update dflt f k d).
Proof.
  intros Hd Hf. induction d as [|[k' v] d IH]; intros Hall; simpl.
  - by repeat constructor.
  - apply Forall_cons in Hall as [Hv Hall].
    destruct (decide (k' = k)); constructor; simpl; auto.
Qed.

(** The accumulated probabilities of an IP add up to its row count when
    each row's triple adds up to 1. *)
Lemma ip_stats_of_balanced (rows : list FlowRow) :
  Forall (λ r, (row_p_client r + row_p_network r + row_p_server r == 1)%Q)
    rows →
  Forall (λ x, 1 ≤ stat_count x.2
               ∧ (stat_c x.2 + stat_n x.2 + stat_s x.2
                  == inject_Z (stat_count x.2))%Q)
    (ip_stats_of rows).
Proof.
  unfold ip_stats_of, ip_stats_loop.
  assert (Forall (λ x : string * IpStat,
                    1 ≤ stat_count x.2
                    ∧ (stat_c x.2 + stat_n x.2 + stat_s x.2
                       == inject_Z (stat_count x.2))%Q) []) as H0
    by constructor.
  revert H0. generalize (@nil (string * IpStat)).
  induction rows as [|r rows IH]; intros d Hd Hrows; [done|].
  apply Forall_cons in Hrows as [Hr Hrows]. simpl. apply IH; [|done].
  apply (od_update_Forall
           (λ v, 1 ≤ stat_count v
                 ∧ (stat_c v + stat_n v + stat_s v
                    == inject_Z (stat_count v))%Q)); [| |done].
  - simpl. split; [lia|]. rewrite !Qplus_0_l. exact Hr.
  - intros v [Hc Hs]. simpl. split; [lia|].
    rewrite inject_Z_plus. rewrite <- Hs.
    change (inject_Z 1) with 1%Q. rewrite <- Hr. ring.
Qed.

(** X9. The per-IP bars of [generate_plot] (lines 325-344): when the
    probability triple of every row adds up to 1, the three bar heights of
    every plotted IP add up to 1 as well, and at most 12 IPs are plotted. *)
Theorem report_ip_bars_add_up_to_one (rows : list FlowRow) :
  Forall (λ r, (row_p_client r + row_p_network r + row_p_server r == 1)%Q)
    rows →
  ∃ bars : list (string * Q * Q * Q),
    ip_bars rows = Some bars
    ∧ (length bars ≤ 12)%nat
    ∧ Forall (λ b, (b.1.1.2 + b.1.2 + b.2 == 1)%Q) bars.
Proof.
  intros Hrows. unfold ip_bars.
  pose proof (ip_stats_of_balanced rows Hrows) as Hbal.
  apply (sorted_desc_Forall _ _) in Hbal.
  apply (Forall_take _ 12) in Hbal.
  assert (length (take 12 (sorted_desc (ip_stats_of rows))) ≤ 12)%nat as Hlen
    by (rewrite length_take; lia).
  revert Hbal Hlen. generalize (take 12 (sorted_desc (ip_stats_of rows))).
  intros l Hall Hlen.
  assert (∃ bars : list (string * Q * Q * Q),
            mapM ip_bar l = Some bars ∧ length bars = length l
            ∧ Forall (λ b, (b.1.1.2 + b.1.2 + b.2 == 1)%Q) bars)
    as (bars & Hbars & Hl & Hsum).
  { clear Hlen. induction l as [|[k v] l IH].
    - exists []. split; [done|]. split; [done|constructor].
    - apply Forall_cons in Hall as [[Hc Hs] Hall]. simpl in Hc, Hs.
      destruct (IH Hall) as (bars & Hbars & Hl & Hsum).
      assert (¬ (inject_Z (stat_count v) == 0)%Q) as Hnz
        by (apply inject_Z_nonzero; lia).
      eexists. split.
      + change (mapM ip_bar ((k, v) :: l))
          with (y ← ip_bar (k, v); ks ← mapM ip_bar l; mret (y :: ks)).
        rewrite Hbars. unfold ip_bar. simpl.
        rewrite !py_truediv_Some by done. reflexivity.
      + split; [simpl; by rewrite Hl|]. constructor; [|done]. simpl.
        assert (stat_c v / inject_Z (stat_count v)
                + stat_n v / inject_Z (stat_count v)
                + stat_s v / inject_Z (stat_count v)
                == (stat_c v + stat_n v + stat_s v)
                   / inject_Z (stat_count v))%Q as -> by (field; done).
        rewrite Hs. field. done. }
  exists bars. split; [done|]. split; [lia|done].
Qed.

Lemma report_ip_bars_add_up_to_one_witness :
  ∃ bars : list (string * Q * Q * Q),
    ip_bars [mkFlowRow Scenario.A 0.2 0.5 0.3; mkFlowRow Scenario.A 0.1 0.8 0.1;
             mkFlowRow Scenario.B 0.33 0.33 0.34] = Some bars
    ∧ (length bars ≤ 12)%nat
    ∧ Forall (λ b, (b.1.1.2 + b.1.2 + b.2 == 1)%Q) bars.
Proof.
  apply (report_ip_bars_add_up_to_one
           [mkFlowRow Scenario.A 0.2 0.5 0.3; mkFlowRow Scenario.A 0.1 0.8 0.1;
            mkFlowRow Scenario.B 0.33 0.33 0.34]).
  repeat constructor; vm_compute; reflexivity.
Defined.
End Ip_bars.

(** ** tcp_professional_report.py: the stream table and the per-IP rows *)

Section ProReport_streams.
Import ProReport.

Lemma update_stream_keeps (p : Segment) (s : Stats) :
  (rto s = retrans s
   ∧ 0 ≤ cont_retrans s ≤ retrans s
   ∧ count s = Z.of_nat (length (wins s))
   ∧ count s = retrans s + Z.of_nat (size (seq_history s))
   ∧ 0 ≤ psh_small s ≤ count s
   ∧ (last_seq s = None ↔ seq_history s = ∅)) →
  rto (update_stream p s) = retrans (update_stream p s)
  ∧ 0 ≤ cont_retrans (update_stream p s) ≤ retrans (update_stream p s)
  ∧ count (update_stream p s)
    = Z.of_nat (length (wins (update_stream p s)))
  ∧ count (update_stream p s)
    = retrans (update_stream p s)
      + Z.of_nat (size (seq_history (update_stream p s)))
  ∧ 0 ≤ psh_small (update_stream p s) ≤ count (update_stream p s)
  ∧ (last_seq (update_stream p s) = None
     ↔ seq_history (update_stream p s) = ∅).
Proof.
  intros (Hrto & Hcont & Hwins & Hcount & Hpsh & Hlast).
  unfold update_stream. simpl. rewrite length_app. simpl.
  assert (∀ t, <[tcp_seq p := t]> (seq_history s) ≠ ∅) as Hne
    by (intros t; apply insert_non_empty).
  destruct (bool_decide (is_Some (seq_history s !! tcp_seq p))) eqn:E.
  - apply bool_decide_eq_true in E.
    rewrite map_size_insert_Some by done.
    repeat split; try (repeat case_match; lia); try done.
    intros H. by apply Hne in H.
  - apply bool_decide_eq_false in E.
    rewrite map_size_insert_None
      by (by apply eq_None_not_Some).
    repeat split; try (repeat case_match; simpl; lia); try done.
    intros H. by apply Hne in H.
Qed.

Lemma proreport_streams_invariant (pkts : list Segment) :
  map_Forall (λ _ s,
      rto s = retrans s
      ∧ 0 ≤ cont_retrans s ≤ retrans s
      ∧ count s = Z.of_nat (length (wins s))
      ∧ count s = retrans s + Z.of_nat (size (seq_history s))
      ∧ 0 ≤ psh_small s ≤ count s
      ∧ (last_seq s = None ↔ seq_history s = ∅))
    (main_loop pkts).
Proof.
  unfold main_loop.
  assert (map_Forall (λ _ s,
      rto s = retrans s
      ∧ 0 ≤ cont_retrans s ≤ retrans s
      ∧ count s = Z.of_nat (length (wins s))
      ∧ count s = retrans s + Z.of_nat (size (seq_history s))
      ∧ 0 ≤ psh_small s ≤ count s
      ∧ (last_seq s = None ↔ seq_history s = ∅))
            (∅ : gmap FlowKey Stats)) as H0 by apply map_Forall_empty.
  revert H0. generalize (∅ : gmap FlowKey Stats).
  induction pkts as [|p pkts IH]; intros m Hm; [done|].
  simpl. apply IH. unfold process_packet, dd_update, dd_get.
  apply map_Forall_insert_2; [|done].
  apply update_stream_keeps.
  destruct (m !! flow_key_of p) as [s|] eqn:E; simpl; [exact (Hm _ _ E)|].
  rewrite map_size_empty. repeat split; try lia; done.
Qed.

Lemma proreport_counts_total (pkts : list Segment) :
  sum_values count (main_loop pkts) = Z.of_nat (length pkts).
Proof.
  unfold main_loop.
  assert (∀ m : gmap FlowKey Stats,
            sum_values count (foldl process_packet m pkts)
            = sum_values count m + Z.of_nat (length pkts)) as H.
  { induction pkts as [|p pkts IH]; intros m; simpl length; [simpl; lia|].
    simpl foldl. rewrite IH. unfold process_packet.
    rewrite sum_values_dd_update by done. simpl. lia. }
  rewrite H, sum_values_empty. lia.
Qed.

(** X10. In every stream that the loop of [main] builds, the [rto] counter
    equals [retrans] (both are incremented by the same branch), the
    consecutive-retransmission counter does not exceed them, [count] is the
    length of [wins], every packet is either a retransmission or the first
    of its sequence number ([count = retrans + len(seq_history)]), and
    [psh_small] does not exceed [count]; over the whole table the [count]
    fields add up to the number of packets. *)
Theorem proreport_stream_counters (pkts : list Segment) :
  map_Forall (λ _ s,
      rto s = retrans s
      ∧ 0 ≤ cont_retrans s ≤ retrans s
      ∧ count s = Z.of_nat (length (wins s))
      ∧ count s = retrans s + Z.of_nat (size (seq_history s))
      ∧ 0 ≤ psh_small s ≤ count s
      ∧ (last_seq s = None ↔ seq_history s = ∅))
    (main_loop pkts)
  ∧ sum_values count (main_loop pkts) = Z.of_nat (length pkts).
Proof.
  split; [exact (proreport_streams_invariant pkts)|].
  exact (proreport_counts_total pkts).
Qed.
End ProReport_streams.

(** ** Degenerate flows *)

Section Degenerate_flows.
Import Scenario.

Lemma report_raw_scores_zero (fm : Report.FlowMetrics) (aw : Q) :
  Report.retrans fm = 0 → Report.rto_cnt fm = 0 →
  (500 <= aw)%Q ∨ Report.count fm ≤ 10 →
  Report.raw_scores fm aw 0 = Some (0, 0, 0)%Q.
Proof.
  intros Hre Hrto Hwin. unfold Report.raw_scores.
  assert (Qltb aw 500 && (10 <? Report.count fm) = false) as ->.
  { apply andb_false_iff. destruct Hwin as [H|H].
    - left. by apply Qltb_ge.
    - right. by apply Z.ltb_ge. }
  rewrite Hre, Hrto. reflexivity.
Qed.

Lemma proreport_raw_probs_zero (stats : ProReport.Stats) (aw : Q) :
  ProReport.rto stats = 0 → ProReport.retrans stats = 0 →
  ProReport.cont_retrans stats = 0 →
  (aw == 0)%Q ∨ (200 <= aw)%Q →
  ∃ c n s : Q,
    ProReport.raw_probs stats aw 0 = (c, n, s) ∧ (c + n + s <= 0)%Q.
Proof.
  intros Hrto Hre Hc Hwin. unfold ProReport.raw_probs.
  assert (negb (Qeq_bool aw 0) && Qltb aw 200 = false) as ->.
  { apply andb_false_iff. destruct Hwin as [H|H].
    - left. apply negb_false_iff. by apply Qeq_bool_iff.
    - right. by apply Qltb_ge. }
  rewrite Hrto, Hre, Hc. do 3 eexists. split; [reflexivity|].
  by vm_compute.
Qed.

(** Every stream that the loop of tcp_professional_report.py builds holds
    the window of at least one packet. *)
Lemma proreport_streams_have_windows (pkts : list Segment) :
  map_Forall (λ _ s, ProReport.wins s ≠ []) (ProReport.main_loop pkts).
Proof.
  unfold ProReport.main_loop.
  assert (map_Forall (λ _ s, ProReport.wins s ≠ [])
            (∅ : gmap FlowKey ProReport.Stats)) as H0
    by apply map_Forall_empty.
  revert H0. generalize (∅ : gmap FlowKey ProReport.Stats).
  induction pkts as [|p pkts IH]; intros m Hm; [done|].
  simpl. apply IH. unfold ProReport.process_packet, dd_update.
  apply map_Forall_insert_2; [|done].
  unfold ProReport.update_stream. simpl.
  by destruct (ProReport.wins _).
Qed.

(** C8, as stated, fails.  A flow without any RTT sample is degenerate,
    yet once it has a retransmission neither scorer answers with the
    uniform triple: [calculate_probabilities] gives 0, 5/6, 1/6 on the
    capture [repeat_100], and [compute_flow_metrics] gives 15/62, 20/31,
    7/62 on the stream that [main] builds from two packets with the same
    sequence number. *)
Lemma C8_degenerate_flow_with_retransmission_is_not_uniform :
  Report.rtt_samples (report_flow repeat_100) = []
  ∧ report_triple
      <$> Report.calculate_probabilities np_std_unused
            (report_flow repeat_100)
    = Some (0, 5 # 6, 1 # 6)%Q
  ∧ ProReport.main_loop (take 2 data_copy_then_ack) !! kAB
    = Some repeated_stats
  ∧ ProReport.seq_ack_time repeated_stats = []
  ∧ proreport_triple
      <$> ProReport.compute_flow_metrics np_std_unused repeated_stats
    = Some (15 # 62, 20 # 31, 7 # 62)%Q.
Proof. vm_compute. repeat split; reflexivity. Qed.

(** C8, amended.  Scoring never fails: [calculate_probabilities] returns a
    result for every flow object whose [retrans] is positive only when
    its [count] is not zero, which holds of a fresh object and of every
    flow that [analyze_pcap] builds, and [compute_flow_metrics] returns
    one for every stream.  A statistic without samples is 0.0: the mean
    window of an object without window samples (a fresh object; every
    flow of [analyze_pcap] and every stream of [main] holds a window
    sample), and the RTT statistics of a flow with fewer than
    [MIN_RTT_SAMPLES] samples, in [compute_flow_metrics] of a stream
    without any.  The triple always sums to 1.  In such a flow it is the
    default triple when the retransmission and timeout counters are 0 and
    the low-window test fails, that is when the mean window is at least
    500 or [count] at most 10 in [calculate_probabilities], whose default
    is 0.33 / 0.33 / 0.34, and when the mean window is 0 or at least 200
    in [compute_flow_metrics], whose default is 1/3 each. *)
Theorem C8_degenerate_flows_score_without_error (np_std : list Q → Q) :
  (∀ fm : Report.FlowMetrics,
     (0 < Report.retrans fm → Report.count fm ≠ 0) →
     ∃ d : Report.Diagnosis,
       Report.calculate_probabilities np_std fm = Some d
       ∧ (Report.wins fm = [] → Report.avg_win d = 0%Q)
       ∧ ((length (Report.rtt_samples fm) < Report.MIN_RTT_SAMPLES)%nat →
            Report.rtt_avg d = 0%Q ∧ Report.rtt_max d = 0%Q
            ∧ Report.rtt_std d = 0%Q)
       ∧ ((length (Report.rtt_samples fm) < Report.MIN_RTT_SAMPLES)%nat →
          Report.retrans fm = 0 → Report.rto_cnt fm = 0 →
          (500 <= Report.avg_win d)%Q ∨ Report.count fm ≤ 10 →
            Report.p_client d = 0.33%Q ∧ Report.p_network d = 0.33%Q
            ∧ Report.p_server d = 0.34%Q)
       ∧ (Report.p_client d + Report.p_network d + Report.p_server d
          == 1)%Q)
  ∧ (∀ (pkts : list Segment) (k : FlowKey) (fm : Report.FlowMetrics),
       Report.flows (Report.analyze_pcap pkts) !! k = Some fm →
       (0 < Report.retrans fm → Report.count fm ≠ 0)
       ∧ Report.wins fm ≠ [])
  ∧ (∀ stats : ProReport.Stats,
       ∃ m : ProReport.Metrics,
         ProReport.compute_flow_metrics np_std stats = Some m
         ∧ (ProReport.wins stats = [] → ProReport.avg_win m = 0%Q)
         ∧ (ProReport.seq_ack_time stats = [] →
              ProReport.rtt_avg m = 0%Q ∧ ProReport.rtt_max m = 0%Q
              ∧ ProReport.rtt_jitter m = 0%Q)
         ∧ (ProReport.seq_ack_time stats = [] →
            ProReport.rto stats = 0 → ProReport.retrans stats = 0 →
            ProReport.cont_retrans stats = 0 →
            (ProReport.avg_win m == 0)%Q ∨ (200 <= ProReport.avg_win m)%Q →
              ProReport.client m = (1.0 / 3.0)%Q
              ∧ ProReport.network m = (1.0 / 3.0)%Q
              ∧ ProReport.server m = (1.0 / 3.0)%Q)
         ∧ (ProReport.client m + ProReport.network m + ProReport.server m
            == 1)%Q)
  ∧ (∀ (pkts : list Segment) (k : FlowKey) (stats : ProReport.Stats),
       ProReport.main_loop pkts !! k = Some stats →
       ProReport.wins stats ≠ []).
Proof.
  split; [|split; [|split]].
  - intros fm Hdiv.
    destruct (report_diagnosis np_std fm Hdiv)
      as (d & sc & sn & ss & Hd & Hraw & Hlow & _ & Hsum & Haw & Hrtt).
    exists d. split; [exact Hd|]. split; [exact Haw|]. split; [exact Hrtt|].
    split; [|exact Hsum].
    intros Hlen Hre Hrto Hwin. apply Hlow.
    destruct (Hrtt Hlen) as (_ & _ & Hstd). rewrite Hstd in Hraw.
    rewrite (report_raw_scores_zero fm _ Hre Hrto Hwin) in Hraw.
    injection Hraw as <- <- <-. by vm_compute.
  - intros pkts k fm Hfm.
    pose proof (report_flows_consistent pkts k fm Hfm) as Hc. simpl in Hc.
    pose proof (report_flows_have_packets pkts k fm Hfm) as Hp. simpl in Hp.
    split; [lia|]. intros Hw.
    destruct Hc as (Hcount & Hwl & _). rewrite Hw in Hwl. simpl in Hwl. lia.
  - intros stats.
    destruct (proreport_metrics np_std stats)
      as (m & c & n & s & Hm & Hraw & _ & Hzero & Hsum & Haw & Hrtt).
    exists m. split; [exact Hm|]. split; [exact Haw|]. split; [exact Hrtt|].
    split; [|exact Hsum].
    intros Hs Hrto Hre Hc Hwin. apply Hzero.
    destruct (Hrtt Hs) as (_ & _ & Hj). rewrite Hj in Hraw.
    destruct (proreport_raw_probs_zero stats _ Hrto Hre Hc Hwin)
      as (c' & n' & s' & Hraw' & Hle).
    rewrite Hraw in Hraw'. injection Hraw' as <- <- <-. exact Hle.
  - intros pkts k stats Hs.
    exact (proreport_streams_have_windows pkts k stats Hs).
Qed.

Lemma C8_degenerate_flows_score_without_error_witness :
  let stats :=
    dd_get ProReport.new_Stats kAB (ProReport.main_loop single_packet) in
  (∃ d : Report.Diagnosis,
     Report.calculate_probabilities np_std_unused
       (report_flow single_packet) = Some d
     ∧ Report.rtt_avg d = 0%Q ∧ Report.rtt_max d = 0%Q
     ∧ Report.rtt_std d = 0%Q
     ∧ Report.p_client d = 0.33%Q ∧ Report.p_network d = 0.33%Q
     ∧ Report.p_server d = 0.34%Q)
  ∧ (∃ d : Report.Diagnosis,
       Report.calculate_probabilities np_std_unused Report.new_FlowMetrics
       = Some d
       ∧ Report.avg_win d = 0%Q)
  ∧ ProReport.main_loop single_packet !! kAB = Some stats
  ∧ (∃ m : ProReport.Metrics,
       ProReport.compute_flow_metrics np_std_unused stats = Some m
       ∧ ProReport.rtt_avg m = 0%Q ∧ ProReport.rtt_max m = 0%Q
       ∧ ProReport.rtt_jitter m = 0%Q
       ∧ ProReport.client m = (1.0 / 3.0)%Q
       ∧ ProReport.network m = (1.0 / 3.0)%Q
       ∧ ProReport.server m = (1.0 / 3.0)%Q)
  ∧ (∃ m : ProReport.Metrics,
       ProReport.compute_flow_metrics np_std_unused ProReport.new_Stats
       = Some m
       ∧ ProReport.avg_win m = 0%Q).
Proof.
  intros stats.
  destruct (C8_degenerate_flows_score_without_error np_std_unused)
    as (Hrep & Hreach & Hpro & _).
  assert (Report.flows (Report.analyze_pcap single_packet) !! kAB
          = Some (report_flow single_packet)) as Hfm
    by (vm_compute; reflexivity).
  destruct (Hreach single_packet kAB _ Hfm) as [Hdiv _].
  destruct (Hrep (report_flow single_packet) Hdiv)
    as (d & Hd & _ & Hrtt & Hdef & _).
  destruct (Hrep Report.new_FlowMetrics) as (d0 & Hd0 & Haw0 & _).
  { vm_compute. discriminate. }
  destruct (Hpro stats) as (m & Hm & _ & Hprtt & Huni & _).
  destruct (Hpro ProReport.new_Stats) as (m0 & Hm0 & Hmaw0 & _).
  assert (length (Report.rtt_samples (report_flow single_packet))
          < Report.MIN_RTT_SAMPLES)%nat as Hlen
    by (vm_compute; lia).
  assert (500 <= Report.avg_win d)%Q as Hwin.
  { vm_compute in Hd. injection Hd as <-. by vm_compute. }
  assert (200 <= ProReport.avg_win m)%Q as Hpwin.
  { vm_compute in Hm. injection Hm as <-. by vm_compute. }
  assert (ProReport.seq_ack_time stats = []) as Hsat
    by (vm_compute; reflexivity).
  split; [|split; [|split; [|split]]].
  - exists d. split; [exact Hd|].
    destruct (Hrtt Hlen) as (Ha & Hb & Hc).
    destruct (Hdef Hlen) as (H1 & H2 & H3);
      [vm_compute; reflexivity|vm_compute; reflexivity|by left|].
    repeat split; assumption.
  - exists d0. split; [exact Hd0|]. by apply Haw0.
  - vm_compute. reflexivity.
  - exists m. split; [exact Hm|].
    destruct (Hprtt Hsat) as (Ha & Hb & Hc).
    destruct (Huni Hsat) as (H1 & H2 & H3);
      [vm_compute; reflexivity|vm_compute; reflexivity
      |vm_compute; reflexivity|by right|].
    repeat split; assumption.
  - exists m0. split; [exact Hm0|]. by apply Hmaw0.
Defined.

End Degenerate_flows.


Section ProReport_aggregation.
Import ProReport.
Variable np_std : list Q → Q.

Lemma add_stream_balanced (s : Stats) (m : Metrics) (r : IpRow) :
  (client m + network m + server m == 1)%Q →
  0 ≤ ip_flow_count r
  ∧ (ip_client r + ip_network r + ip_server r
     == inject_Z (ip_flow_count r))%Q →
  1 ≤ ip_flow_count (add_stream s m r)
  ∧ (ip_client (add_stream s m r) + ip_network (add_stream s m r)
     + ip_server (add_stream s m r)
     == inject_Z (ip_flow_count (add_stream s m r)))%Q.
Proof.
  intros Hm [Hc Hr]. simpl. split; [lia|].
  rewrite inject_Z_plus. rewrite <- Hr. change (inject_Z 1) with 1%Q.
  rewrite <- Hm. ring.
Qed.

Lemma aggregate_step_balanced (s : Stats) (m : Metrics) (ip : string)
    (rows : gmap string IpRow) :
  (client m + network m + server m == 1)%Q →
  map_Forall (λ _ r, 1 ≤ ip_flow_count r
                     ∧ (ip_client r + ip_network r + ip_server r
                        == inject_Z (ip_flow_count r))%Q) rows →
  map_Forall (λ _ r, 1 ≤ ip_flow_count r
                     ∧ (ip_client r + ip_network r + ip_server r
                        == inject_Z (ip_flow_count r))%Q)
    (dd_update new_IpRow (add_stream s m) ip rows).
Proof.
  intros Hm Hrows. unfold dd_update, dd_get.
  apply map_Forall_insert_2; [|done].
  apply add_stream_balanced; [done|].
  destruct (rows !! ip) as [r|] eqn:E; simpl.
  - destruct (Hrows ip r E) as [H1 H2]. split; [lia|done].
  - split; [lia|]. reflexivity.
Qed.

(** X11. The per-IP aggregation of [main] (lines 185-205) succeeds for
    every stream table, and in both dictionaries every row has a positive
    [flow_count], its three accumulated probabilities add up to
    [flow_count], and the [flow_count] fields add up to the number of
    streams. *)
Theorem proreport_ip_rows_are_balanced (items : list (FlowKey * Stats)) :
  ∃ src_rows dst_rows : gmap string IpRow,
    aggregate np_std items = Some (src_rows, dst_rows)
    ∧ map_Forall (λ _ r, 1 ≤ ip_flow_count r
                         ∧ (ip_client r + ip_network r + ip_server r
                            == inject_Z (ip_flow_count r))%Q) src_rows
    ∧ map_Forall (λ _ r, 1 ≤ ip_flow_count r
                         ∧ (ip_client r + ip_network r + ip_server r
                            == inject_Z (ip_flow_count r))%Q) dst_rows
    ∧ sum_values ip_flow_count src_rows = Z.of_nat (length items)
    ∧ sum_values ip_flow_count dst_rows = Z.of_nat (length items).
Proof.
  unfold aggregate.
  assert (∀ (src dst : gmap string IpRow),
    map_Forall (λ _ r, 1 ≤ ip_flow_count r
                       ∧ (ip_client r + ip_network r + ip_server r
                          == inject_Z (ip_flow_count r))%Q) src →
    map_Forall (λ _ r, 1 ≤ ip_flow_count r
                       ∧ (ip_client r + ip_network r + ip_server r
                          == inject_Z (ip_flow_count r))%Q) dst →
    ∃ src_rows dst_rows : gmap string IpRow,
      foldl
        (λ acc kv,
           '(src_rows, dst_rows) ← acc;
           m ← compute_flow_metrics np_std kv.2;
           Some (dd_update new_IpRow (add_stream kv.2 m) kv.1.1.1.1 src_rows,
                 dd_update new_IpRow (add_stream kv.2 m) kv.1.1.2 dst_rows))
        (Some (src, dst)) items = Some (src_rows, dst_rows)
      ∧ map_Forall (λ _ r, 1 ≤ ip_flow_count r
                           ∧ (ip_client r + ip_network r + ip_server r
                              == inject_Z (ip_flow_count r))%Q) src_rows
      ∧ map_Forall (λ _ r, 1 ≤ ip_flow_count r
                           ∧ (ip_client r + ip_network r + ip_server r
                              == inject_Z (ip_flow_count r))%Q) dst_rows
      ∧ sum_values ip_flow_count src_rows
        = sum_values ip_flow_count src + Z.of_nat (length items)
      ∧ sum_values ip_flow_count dst_rows
        = sum_values ip_flow_count dst + Z.of_nat (length items)) as H.
  { induction items as [|[k s] items IH]; intros src dst Hsrc Hdst.
    - exists src, dst. simpl.
      split; [done|]. split; [done|]. split; [done|]. split; lia.
    - destruct (proreport_metrics np_std s)
        as (m & c & n & s' & Hm & _ & _ & _ & Hsum & _).
      cbn [foldl]. cbn [mbind option_bind]. simpl fst. simpl snd.
      rewrite Hm. cbn [mbind option_bind].
      destruct (IH (dd_update new_IpRow (add_stream s m) k.1.1.1 src)
                   (dd_update new_IpRow (add_stream s m) k.1.2 dst))
        as (src_rows & dst_rows & Hfold & H1 & H2 & H3 & H4).
      { by apply aggregate_step_balanced. }
      { by apply aggregate_step_balanced. }
      exists src_rows, dst_rows. split; [exact Hfold|].
      split; [done|]. split; [done|].
      rewrite H3, H4. rewrite !sum_values_dd_update by done.
      simpl length. simpl. lia. }
  destruct (H ∅ ∅) as (src_rows & dst_rows & Hfold & H1 & H2 & H3 & H4);
    [apply map_Forall_empty|apply map_Forall_empty|].
  exists src_rows, dst_rows. rewrite sum_values_empty in H3, H4.
  split; [done|]. split; [done|]. split; [done|]. split; lia.
Qed.
End ProReport_aggregation.

(** ** pcap_analyzer_v4.py: the flow table and the report figures *)

Lemma sum_values_alter_add `{Countable K} {V} (g : V → Z) (f : V → V)
    (m : gmap K V) (i : K) (d : Z) :
  is_Some (m !! i) → (∀ x, g (f x) = g x + d) →
  sum_values g (alter f i m) = sum_values g m + d.
Proof.
  intros [y Hy] Hf. rewrite (sum_values_alter g f m i y Hy), Hf. lia.
Qed.

Section V4_invariants.
Import V4.

Lemma ensure_flow_lookup (k j : FlowKey) (m : gmap FlowKey FlowMetrics) :
  ensure_flow k m !! j
  = match m !! j with
    | Some f => Some f
    | None => if decide (k = j) then Some (new_FlowMetrics k) else None
    end.
Proof.
  unfold ensure_flow. destruct (m !! k) as [f|] eqn:E.
  - destruct (m !! j) eqn:Ej; [done|].
    destruct (decide (k = j)) as [->|]; [congruence|done].
  - destruct (decide (k = j)) as [->|Hne].
    + by rewrite lookup_insert_eq, E.
    + rewrite lookup_insert_ne by done. by destruct (m !! j).
Qed.

Lemma ensure_flow_sum (g : FlowMetrics → Z) (k : FlowKey)
    (m : gmap FlowKey FlowMetrics) :
  (∀ k, g (new_FlowMetrics k) = 0) →
  sum_values g (ensure_flow k m) = sum_values g m.
Proof.
  intros Hnew. unfold ensure_flow. destruct (m !! k) eqn:E; [done|].
  rewrite sum_values_insert by done. rewrite Hnew. lia.
Qed.

(** A property [P] of keyed flow records holds throughout the table of
    every capture when the constructor establishes it and the analysers
    keep it; [Q] is what holds of the packet's own flow after
    [BasicStatsAnalyzer]. *)
Lemma v4_flows_invariant (P Q : FlowKey → FlowMetrics → Prop) :
  (∀ k, P k (new_FlowMetrics k)) →
  (∀ s f, P (flow_key_of s) f →
     Q (flow_key_of s)
       (BasicStatsAnalyzer_process (tcp_flags s) (wire_len s) f)) →
  (∀ s k f, P k f → P k (resolve_rtt s f)) →
  (∀ s k f, Q k f → Q k (resolve_rtt s f)) →
  (∀ s f, Q (flow_key_of s) f →
     P (flow_key_of s)
       (AnomalyDetector_process s (RTTAnalyzer_process s f))) →
  ∀ pkts : list Segment, map_Forall P (flows (run pkts)).
Proof.
  intros Hnew Hbs HresP HresQ Hown pkts. unfold run.
  assert (map_Forall P (flows new_GlobalState)) as H0
    by apply map_Forall_empty.
  revert H0. generalize new_GlobalState.
  induction pkts as [|s pkts IH]; intros st Hst; [done|].
  simpl. apply IH. clear IH. unfold process_packet. simpl.
  set (fk := flow_key_of s). set (rk := rev_flow_key_of s).
  set (m0 := ensure_flow rk (ensure_flow fk (flows st))).
  assert (map_Forall P m0) as H0.
  { intros j f. unfold m0. rewrite !ensure_flow_lookup.
    destruct (flows st !! j) as [g|] eqn:E.
    - intros [= <-]. exact (Hst j g E).
    - destruct (decide (fk = j)) as [<-|_]; [intros [= <-]; apply Hnew|].
      destruct (decide (rk = j)) as [<-|_]; [intros [= <-]; apply Hnew|done]. }
  assert (is_Some (m0 !! fk)) as Hfk0.
  { unfold m0. rewrite !ensure_flow_lookup.
    destruct (flows st !! fk); [eauto|]. rewrite decide_True by done. eauto. }
  intros j f.
  destruct (decide (fk = j)) as [<-|Hne].
  - rewrite !lookup_alter_eq. destruct Hfk0 as [g Hg].
    destruct (decide (rk = fk)) as [E|Hrk].
    + rewrite E, lookup_alter_eq, lookup_alter_eq, Hg. simpl.
      intros [= <-]. apply Hown, HresQ, Hbs. exact (H0 fk g Hg).
    + rewrite lookup_alter_ne by done. rewrite lookup_alter_eq, Hg. simpl.
      intros [= <-]. apply Hown, Hbs. exact (H0 fk g Hg).
  - rewrite !(lookup_alter_ne _ _ fk j) by done.
    destruct (decide (rk = j)) as [<-|Hrk].
    + rewrite lookup_alter_eq, lookup_alter_ne by done.
      destruct (m0 !! rk) as [g|] eqn:Hg; [|done]. simpl.
      intros [= <-]. apply HresP. exact (H0 rk g Hg).
    + rewrite lookup_alter_ne by done. rewrite lookup_alter_ne by done.
      apply H0.
Qed.

(** The total of an integer field over the flow table grows with each
    packet by what [BasicStatsAnalyzer] and [AnomalyDetector] add to it on
    the packet's own flow, when nothing else changes the field. *)
Lemma v4_field_total (g : FlowMetrics → Z) (d1 d2 : Segment → Z) :
  (∀ k, g (new_FlowMetrics k) = 0) →
  (∀ s f, g (BasicStatsAnalyzer_process (tcp_flags s) (wire_len s) f)
          = g f + d1 s) →
  (∀ s f, g (resolve_rtt s f) = g f) →
  (∀ s f, g (RTTAnalyzer_process s f) = g f) →
  (∀ s f, g (AnomalyDetector_process s f) = g f + d2 s) →
  ∀ pkts : list Segment,
    sum_values g (flows (run pkts))
    = foldr (λ s acc, d1 s + d2 s + acc) 0 pkts.
Proof.
  intros Hnew Hbs Hres Hrtt Had pkts. unfold run.
  assert (∀ st, sum_values g (flows (foldl process_packet st pkts))
                = sum_values g (flows st)
                  + foldr (λ s acc, d1 s + d2 s + acc) 0 pkts) as H.
  { induction pkts as [|s pkts IH]; intros st; simpl; [lia|].
    rewrite IH. clear IH.
    assert (sum_values g (flows (process_packet st s))
            = sum_values g (flows st) + (d1 s + d2 s)) as ->; [|lia].
    unfold process_packet. simpl.
    set (fk := flow_key_of s). set (rk := rev_flow_key_of s).
    set (m0 := ensure_flow rk (ensure_flow fk (flows st))).
    assert (is_Some (m0 !! fk)) as Hfk0.
    { unfold m0. rewrite !ensure_flow_lookup.
      destruct (flows st !! fk); [eauto|]. rewrite decide_True by done.
      eauto. }
    rewrite (sum_values_alter_add g _ _ fk (d2 s));
      [|by rewrite !lookup_alter_is_Some|apply Had].
    rewrite sum_values_alter_same by apply Hrtt.
    rewrite sum_values_alter_same by apply Hres.
    rewrite (sum_values_alter_add g _ _ fk (d1 s)); [|done|apply Hbs].
    unfold m0. rewrite !ensure_flow_sum by done. lia. }
  rewrite H. simpl. rewrite sum_values_empty. lia.
Qed.

Lemma v4_total_packets (pkts : list Segment) :
  total_packets (run pkts) = Z.of_nat (length pkts).
Proof.
  unfold run.
  assert (∀ st, total_packets (foldl process_packet st pkts)
                = total_packets st + Z.of_nat (length pkts)) as H.
  { induction pkts as [|s pkts IH]; intros st; simpl; [lia|].
    rewrite IH. simpl. lia. }
  rewrite H. simpl. lia.
Qed.

Lemma v4_packet_count_total (pkts : list Segment) :
  sum_values packet_count (flows (run pkts)) = Z.of_nat (length pkts).
Proof.
  rewrite (v4_field_total packet_count (λ _, 1) (λ _, 0)).
  - induction pkts; simpl; lia.
  - intros k. by destruct k as [[[a ap] b] bp].
  - done.
  - intros s f. unfold resolve_rtt. by repeat case_match.
  - done.
  - intros s f. unfold AnomalyDetector_process. case_match; simpl; lia.
Qed.

(** X12. Every decoded packet is counted once by pcap_analyzer_v4.py: the
    [packet_count] fields of the flow table add up to [total_packets],
    which is the number of packets, and the [byte_count] fields add up to
    the frame lengths. *)
Theorem v4_counts_add_up_to_the_capture (pkts : list Segment) :
  sum_values packet_count (flows (run pkts)) = total_packets (run pkts)
  ∧ total_packets (run pkts) = Z.of_nat (length pkts)
  ∧ sum_values byte_count (flows (run pkts))
    = foldr (λ s acc, wire_len s + acc) 0 pkts.
Proof.
  split; [|split].
  - by rewrite v4_packet_count_total, v4_total_packets.
  - apply v4_total_packets.
  - rewrite (v4_field_total byte_count wire_len (λ _, 0)).
    + induction pkts as [|s pkts IH]; simpl; [done|]. rewrite IH. lia.
    + intros k. by destruct k as [[[a ap] b] bp].
    + done.
    + intros s f. unfold resolve_rtt. by repeat case_match.
    + done.
    + intros s f. unfold AnomalyDetector_process. case_match; simpl; lia.
Qed.

Lemma v4_flow_counters (pkts : list Segment) :
  map_Forall (λ _ f,
      0 ≤ retransmissions f
      ∧ retransmissions f + Z.of_nat (size (seen_seqs f)) ≤ packet_count f
      ∧ 0 ≤ syn_count f ∧ 0 ≤ syn_ack_count f
      ∧ syn_count f + syn_ack_count f ≤ packet_count f
      ∧ 0 ≤ fin_count f ≤ packet_count f
      ∧ 0 ≤ rst_count f ≤ packet_count f
      ∧ 0 ≤ zero_window_count f ≤ packet_count f)
    (flows (run pkts)).
Proof.
  apply (v4_flows_invariant _
    (λ _ f, 0 ≤ retransmissions f
      ∧ retransmissions f + Z.of_nat (size (seen_seqs f)) < packet_count f
      ∧ 0 ≤ syn_count f ∧ 0 ≤ syn_ack_count f
      ∧ syn_count f + syn_ack_count f ≤ packet_count f
      ∧ 0 ≤ fin_count f ≤ packet_count f
      ∧ 0 ≤ rst_count f ≤ packet_count f
      ∧ 0 ≤ zero_window_count f < packet_count f)).
  - intros [[[a ap] b] bp]. unfold new_FlowMetrics.
    cbn [retransmissions seen_seqs packet_count syn_count syn_ack_count
         fin_count rst_count zero_window_count].
    rewrite size_empty. lia.
  - intros s f H. unfold BasicStatsAnalyzer_process. simpl.
    destruct (has_flag (tcp_flags s) TH_SYN),
      (has_flag (tcp_flags s) TH_ACK), (has_flag (tcp_flags s) TH_FIN),
      (has_flag (tcp_flags s) TH_RST); simpl; lia.
  - intros s k f H. unfold resolve_rtt. by repeat case_match.
  - intros s k f H. unfold resolve_rtt. by repeat case_match.
  - intros s f H. unfold AnomalyDetector_process, RTTAnalyzer_process.
    destruct (0 <? payload_len s); simpl.
    + destruct (bool_decide (tcp_seq s ∈ seen_seqs f)) eqn:E; simpl.
      * repeat case_match; lia.
      * apply bool_decide_eq_false in E.
        rewrite size_union by set_solver. rewrite size_singleton.
        repeat case_match; lia.
    + repeat case_match; lia.
Qed.

(** X13. In every flow record of pcap_analyzer_v4.py the anomaly counters
    are bounded by the packet count: a payload segment is either counted
    as a retransmission or adds a new entry to [seen_seqs], so
    [retransmissions + len(seen_seqs) <= packet_count]; SYN and SYN-ACK
    segments are counted apart; FIN, RST and zero-window events each occur
    at most once per packet. *)
Theorem v4_flow_counters_are_bounded (pkts : list Segment) :
  map_Forall (λ _ f,
      0 ≤ retransmissions f
      ∧ retransmissions f + Z.of_nat (size (seen_seqs f)) ≤ packet_count f
      ∧ 0 ≤ syn_count f ∧ 0 ≤ syn_ack_count f
      ∧ syn_count f + syn_ack_count f ≤ packet_count f
      ∧ 0 ≤ fin_count f ≤ packet_count f
      ∧ 0 ≤ rst_count f ≤ packet_count f
      ∧ 0 ≤ zero_window_count f ≤ packet_count f)
    (flows (run pkts)).
Proof. exact (v4_flow_counters pkts). Qed.
End V4_invariants.

Section V4_report.
Import V4.

Lemma Qpercent_bounds (a b : Z) :
  0 ≤ a ≤ b → 0 < b →
  (0 <= inject_Z a / inject_Z b * 100)%Q
  ∧ (inject_Z a / inject_Z b * 100 <= 100)%Q.
Proof.
  intros Ha Hb.
  assert (0 < inject_Z b)%Q as Hbq
    by (change 0%Q with (inject_Z 0); by rewrite <- Zlt_Qlt).
  assert (0 <= inject_Z a)%Q as Haq
    by (change 0%Q with (inject_Z 0); rewrite <- Zle_Qle; lia).
  assert (inject_Z a <= inject_Z b)%Q as Hab by (rewrite <- Zle_Qle; lia).
  assert (0 <= inject_Z a / inject_Z b)%Q as H0.
  { apply Qle_shift_div_l; [done|]. by rewrite Qmult_0_l. }
  assert (inject_Z a / inject_Z b <= 1)%Q as H1.
  { apply Qle_shift_div_r; [done|]. by rewrite Qmult_1_l. }
  split.
  - apply Qmult_le_0_compat; [done|by vm_compute].
  - assert (100 == 1 * 100)%Q as Heq by ring. rewrite Heq at 2.
    apply Qmult_le_compat_r; [done|by vm_compute].
Qed.

Lemma v4_generate_figures (pkts : list Segment) :
  ∃ r : Summary,
    generate (run pkts) = Some r
    ∧ total_flows r = Z.of_nat (size (flows (run pkts))) `div` 2
    ∧ total_pkts_tcp r = Z.of_nat (length pkts)
    ∧ 0 ≤ total_retrans r ≤ total_pkts_tcp r
    ∧ (0 < duration r)%Q
    ∧ (0 <= retrans_rate r)%Q ∧ (retrans_rate r <= 100)%Q
    ∧ (0 <= pps r)%Q.
Proof.
  unfold generate.
  set (st := run pkts).
  pose proof (v4_packet_count_total pkts) as Htot. fold st in Htot.
  pose proof (v4_total_packets pkts) as Htp. fold st in Htp.
  pose proof (v4_flow_counters pkts) as Hc. fold st in Hc.
  assert (0 ≤ sum_values retransmissions (flows st)) as Hre0.
  { apply sum_values_nonneg. intros k f Hf. specialize (Hc k f Hf).
    simpl in Hc. lia. }
  assert (sum_values retransmissions (flows st)
          ≤ sum_values packet_count (flows st)) as Hre1.
  { apply sum_values_le. intros k f Hf. specialize (Hc k f Hf).
    simpl in Hc. lia. }
  set (dur := Qmax (end_ts st - start_ts st) 0.000001).
  assert (0 < dur)%Q as Hdur.
  { eapply Qlt_le_trans; [|apply Q.le_max_r]. by vm_compute. }
  assert (¬ (dur == 0)%Q) as Hdnz.
  { intros E. rewrite E in Hdur. by apply Qlt_irrefl in Hdur. }
  assert (∃ avg, match concat_values rtt_samples (flows st) with
                 | [] => Some 0%Q
                 | _ => np_mean (concat_values rtt_samples (flows st))
                 end = Some avg) as [avg ->]
    by (destruct (concat_values rtt_samples (flows st)); simpl; eauto).
  assert (∃ mn, match concat_values rtt_samples (flows st) with
                | [] => Some 0%Q
                | _ => py_min (concat_values rtt_samples (flows st))
                end = Some mn) as [mn ->]
    by (destruct (concat_values rtt_samples (flows st)); simpl; eauto).
  assert (∃ mx, match concat_values rtt_samples (flows st) with
                | [] => Some 0%Q
                | _ => np_max (concat_values rtt_samples (flows st))
                end = Some mx) as [mx ->]
    by (destruct (concat_values rtt_samples (flows st)); simpl; eauto).
  assert (∃ rate,
            (if sum_values packet_count (flows st) =? 0 then Some 0%Q
             else r ← py_truediv
                        (inject_Z (sum_values retransmissions (flows st)))
                        (inject_Z (sum_values packet_count (flows st)));
                  Some (r * 100)%Q) = Some rate
            ∧ (0 <= rate)%Q ∧ (rate <= 100)%Q) as (rate & -> & Hr0 & Hr1).
  { destruct (_ =? 0) eqn:E.
    - eexists. split; [reflexivity|]. split; by vm_compute.
    - apply Z.eqb_neq in E.
      rewrite py_truediv_Some by (by apply inject_Z_nonzero). simpl.
      eexists. split; [reflexivity|]. apply Qpercent_bounds; lia. }
  assert (∃ hs,
            (if sum_values syn_count (flows st) =? 0 then Some 0%Q
             else r ← py_truediv
                        (inject_Z (sum_values syn_ack_count (flows st)))
                        (inject_Z (sum_values syn_count (flows st)));
                  Some (r * 100)%Q) = Some hs) as (hs & ->).
  { destruct (_ =? 0) eqn:E; [eauto|].
    apply Z.eqb_neq in E.
    rewrite py_truediv_Some by (by apply inject_Z_nonzero). simpl. eauto. }
  cbn [mbind option_bind].
  rewrite !py_truediv_Some by done. cbn [mbind option_bind].
  eexists. split; [reflexivity|]. cbn [total_pkts_tcp total_retrans duration
    retrans_rate pps total_flows].
  split; [done|]. split; [exact Htot|]. split; [lia|]. split; [done|].
  split; [done|]. split; [done|].
  apply Qle_shift_div_l; [done|]. rewrite Qmult_0_l.
  change 0%Q with (inject_Z 0). rewrite <- Zle_Qle. lia.
Qed.
(** X14. [ReportGenerator.generate] of pcap_analyzer_v4.py never divides by
    zero on the state of a capture, empty or not: it produces its figures,
    the TCP packet total it prints is the number of packets, the duration
    is positive, and the retransmission rate is a percentage between 0 and
    100. *)
Theorem v4_report_is_always_produced (pkts : list Segment) :
  ∃ r : Summary,
    generate (run pkts) = Some r
    ∧ total_pkts_tcp r = Z.of_nat (length pkts)
    ∧ 0 ≤ total_retrans r ≤ total_pkts_tcp r
    ∧ (0 < duration r)%Q
    ∧ (0 <= retrans_rate r)%Q ∧ (retrans_rate r <= 100)%Q
    ∧ (0 <= pps r)%Q.
Proof.
  destruct (v4_generate_figures pkts) as (r & Hr & _ & H).
  exists r. by split.
Qed.

Lemma session_key_idempotent (k : FlowKey) :
  Report.session_key (Report.session_key k) = Report.session_key k.
Proof.
  destruct (session_key_cases k) as [E|E]; rewrite E; [done|].
  by rewrite session_key_swap.
Qed.

Lemma size_set_map_inj `{Countable T, Countable U} (f : T → U)
    (X : gset T) :
  (∀ x y, f x = f y → x = y) →
  size (set_map (D:=gset U) f X) = size X.
Proof.
  intros Hinj.
  rewrite (size_set_map_same_kernel f id X).
  - f_equal. apply set_eq. intros x. split.
    + by intros (y & -> & Hy)%elem_of_map.
    + intros Hx. apply elem_of_map. by exists x.
  - intros x y. unfold id. split; [apply Hinj|congruence].
Qed.

(** A set of directed keys that holds both directions of each of its
    keys, none of them between an endpoint and itself, is twice as large
    as its set of sessions. *)
Lemma size_both_directions (D : gset FlowKey) :
  (∀ k, k ∈ D → swap_key k ∈ D) →
  (∀ k, k ∈ D → swap_key k ≠ k) →
  size D = (2 * size (set_map (D:=gset FlowKey) Report.session_key D))%nat.
Proof.
  intros Hclosed Hself.
  set (S := set_map (D:=gset FlowKey) Report.session_key D).
  set (T := set_map (D:=gset FlowKey) swap_key S).
  assert (S ⊆ D) as HS.
  { intros x (a & -> & Ha)%elem_of_map.
    destruct (session_key_cases a) as [-> | ->]; auto. }
  assert (T ⊆ D) as HT.
  { intros x (y & -> & Hy)%elem_of_map. auto. }
  assert (D = S ∪ T) as HD.
  { apply set_eq. intros k. rewrite elem_of_union. split; [|set_solver].
    intros Hk. destruct (session_key_cases k) as [E|E].
    - left. apply elem_of_map. exists k. by rewrite E.
    - right. apply elem_of_map. exists (Report.session_key k). split.
      + by rewrite E, swap_key_involutive.
      + apply elem_of_map. by exists k. }
  assert (S ## T) as Hdisj.
  { intros x Hx (y & -> & Hy)%elem_of_map.
    assert (Report.session_key y = y) as Ey.
    { apply elem_of_map in Hy as (b & -> & _).
      apply session_key_idempotent. }
    assert (Report.session_key (swap_key y) = swap_key y) as Ex.
    { apply elem_of_map in Hx as (a & -> & _).
      apply session_key_idempotent. }
    rewrite session_key_swap, Ey in Ex.
    apply (Hself y); [by apply HS|done]. }
  rewrite HD at 1. rewrite size_union by done.
  unfold T. rewrite size_set_map_inj; [lia|].
  intros x y E. by rewrite <- (swap_key_involutive x), E, swap_key_involutive.
Qed.

Lemma v4_flows_dom (pkts : list Segment) :
  dom (flows (run pkts))
  = list_to_set (C:=gset FlowKey) (flow_key_of <$> pkts)
    ∪ list_to_set (rev_flow_key_of <$> pkts).
Proof.
  unfold run.
  assert (∀ st, dom (flows (foldl process_packet st pkts))
                = dom (flows st)
                  ∪ (list_to_set (C:=gset FlowKey) (flow_key_of <$> pkts)
                     ∪ list_to_set (rev_flow_key_of <$> pkts))) as H.
  { induction pkts as [|s pkts IH]; intros st.
    - simpl. set_solver.
    - cbn [foldl]. rewrite IH. rewrite !fmap_cons, !list_to_set_cons.
      assert (dom (flows (process_packet st s))
              = dom (flows st) ∪ {[flow_key_of s; rev_flow_key_of s]}) as ->.
      { unfold process_packet. simpl. rewrite !dom_alter_L.
        apply set_eq. intros j. rewrite elem_of_union, !elem_of_dom.
        rewrite !ensure_flow_lookup.
        destruct (flows st !! j) as [g|] eqn:E.
        - split; [left|]; eauto.
        - destruct (decide (flow_key_of s = j)) as [<-|Hne].
          + split; [intros _; right; set_solver|eauto].
          + destruct (decide (rev_flow_key_of s = j)) as [<-|Hne'].
            * split; [intros _; right; set_solver|eauto].
            * split; [by intros [? ?]|].
              intros [[? ?]|Hj]; [done|]. set_solver. }
      generalize (list_to_set (C:=gset FlowKey) (flow_key_of <$> pkts)).
      generalize (list_to_set (C:=gset FlowKey) (rev_flow_key_of <$> pkts)).
      intros X Y. set_solver. }
  rewrite H. simpl. rewrite dom_empty_L. set_solver.
Qed.

Lemma v4_flows_store_their_key (pkts : list Segment) :
  map_Forall (λ k f, (src f, fsport f, dst f, fdport f) = k)
    (flows (run pkts)).
Proof.
  apply (v4_flows_invariant _
           (λ k f, (src f, fsport f, dst f, fdport f) = k)).
  - by intros [[[a ap] b] bp].
  - done.
  - intros s k f H. unfold resolve_rtt. by repeat case_match.
  - intros s k f H. unfold resolve_rtt. by repeat case_match.
  - intros s f H. unfold AnomalyDetector_process. by case_match.
Qed.

(** X15. The flow table of pcap_analyzer_v4.py holds exactly the two
    directions of the 4-tuple of every packet, so it is closed under
    reversal of a key, and every record carries the addresses and ports of
    its own key. *)
Theorem v4_flow_table_holds_both_directions (pkts : list Segment) :
  dom (flows (run pkts))
  = list_to_set (C:=gset FlowKey) (flow_key_of <$> pkts)
    ∪ list_to_set (rev_flow_key_of <$> pkts)
  ∧ map_Forall (λ k f,
        (src f, fsport f, dst f, fdport f) = k
        ∧ is_Some (flows (run pkts) !! swap_key k))
      (flows (run pkts)).
Proof.
  split; [apply v4_flows_dom|].
  intros k f Hf. split; [exact (v4_flows_store_their_key pkts k f Hf)|].
  apply elem_of_dom. apply elem_of_dom_2 in Hf. revert Hf.
  rewrite v4_flows_dom. rewrite !elem_of_union, !elem_of_list_to_set.
  rewrite !list_elem_of_fmap.
  intros [(s & -> & Hs)|(s & -> & Hs)]; [right|left]; by exists s.
Qed.

(** X16. When no packet goes from an endpoint to itself, the number of
    flows that the report of pcap_analyzer_v4.py prints
    ([len(state.flows) // 2]) is the number of distinct connections of the
    capture, a connection being the unordered pair of endpoints. *)
Theorem v4_total_flows_counts_connections (pkts : list Segment) :
  Forall (λ s, (src_ip s, sport s) ≠ (dst_ip s, dport s)) pkts →
  ∃ r : Summary,
    generate (run pkts) = Some r
    ∧ total_flows r
      = Z.of_nat (size (list_to_set (C:=gset (gset Endpoint))
                          ((λ s, endpoint_pair (flow_key_of s)) <$> pkts))).
Proof.
  intros Hdistinct.
  destruct (v4_generate_figures pkts) as (r & Hr & Hflows & _).
  exists r. split; [exact Hr|]. rewrite Hflows.
  rewrite <- (size_dom (D:=gset FlowKey)).
  assert (∀ k, k ∈ dom (flows (run pkts)) →
               ∃ s, s ∈ pkts ∧ (k = flow_key_of s ∨ k = rev_flow_key_of s))
    as Hfrom.
  { intros k. rewrite v4_flows_dom, !elem_of_union, !elem_of_list_to_set.
    rewrite !list_elem_of_fmap. intros [(s & -> & Hs)|(s & -> & Hs)]; eauto. }
  rewrite (size_both_directions (dom (flows (run pkts)))).
  - rewrite (size_set_map_same_kernel Report.session_key endpoint_pair)
      by apply session_key_kernel.
    replace (set_map (D:=gset (gset Endpoint)) endpoint_pair
               (dom (flows (run pkts))))
      with (list_to_set (C:=gset (gset Endpoint))
              ((λ s, endpoint_pair (flow_key_of s)) <$> pkts)).
    { rewrite Nat2Z.inj_mul. rewrite Z.mul_comm, Z.div_mul by lia. done. }
    apply set_eq. intros e.
    rewrite elem_of_list_to_set, list_elem_of_fmap, elem_of_map. split.
    + intros (s & -> & Hs). exists (flow_key_of s). split; [done|].
      rewrite v4_flows_dom, elem_of_union, elem_of_list_to_set.
      left. apply list_elem_of_fmap. by exists s.
    + intros (k & -> & Hk). destruct (Hfrom k Hk) as (s & Hs & [-> | ->]).
      * by exists s.
      * exists s. split; [|done].
        change (rev_flow_key_of s) with (swap_key (flow_key_of s)).
        apply endpoint_pair_swap.
  - intros k Hk. destruct (Hfrom k Hk) as (s & Hs & [-> | ->]).
    + change (swap_key (flow_key_of s)) with (rev_flow_key_of s).
      rewrite v4_flows_dom, elem_of_union, !elem_of_list_to_set.
      right. apply list_elem_of_fmap. by exists s.
    + change (swap_key (rev_flow_key_of s)) with (flow_key_of s).
      rewrite v4_flows_dom, elem_of_union, !elem_of_list_to_set.
      left. apply list_elem_of_fmap. by exists s.
  - intros k Hk. destruct (Hfrom k Hk) as (s & Hs & [-> | ->]).
    + rewrite Forall_forall in Hdistinct. specialize (Hdistinct s Hs).
      unfold swap_key, flow_key_of. intros [= E1 E2 E3 E4].
      apply Hdistinct. congruence.
    + rewrite Forall_forall in Hdistinct. specialize (Hdistinct s Hs).
      unfold swap_key, rev_flow_key_of. intros [= E1 E2 E3 E4].
      apply Hdistinct. congruence.
Qed.

Lemma v4_total_flows_counts_connections_witness :
  ∃ r : Summary,
    generate (run Scenario.data_then_ack) = Some r
    ∧ total_flows r
      = Z.of_nat (size (list_to_set (C:=gset (gset Endpoint))
                          ((λ s, endpoint_pair (flow_key_of s))
                             <$> Scenario.data_then_ack))).
Proof.
  apply (v4_total_flows_counts_connections Scenario.data_then_ack).
  repeat constructor; vm_compute; discriminate.
Defined.
End V4_report.

Section V4_samples.
Import V4.

(** X17. In every flow record of pcap_analyzer_v4.py the stored RTT
    samples lie strictly between 0 and 5 seconds, the inter-arrival
    samples are below 1 second, and [max_seq] is an upper bound of
    [seen_seqs]. *)
Theorem v4_samples_within_bounds (pkts : list Segment) :
  map_Forall (λ _ f,
      Forall (λ rtt, (0 < rtt)%Q ∧ (rtt < 5)%Q) (rtt_samples f)
      ∧ Forall (λ delta, (delta < 1)%Q) (jitter_samples f)
      ∧ ∀ q, q ∈ seen_seqs f → q ≤ max_seq f)
    (flows (run pkts)).
Proof.
  apply (v4_flows_invariant _
    (λ _ f, Forall (λ rtt, (0 < rtt)%Q ∧ (rtt < 5)%Q) (rtt_samples f)
            ∧ Forall (λ delta, (delta < 1)%Q) (jitter_samples f)
            ∧ ∀ q, q ∈ seen_seqs f → q ≤ max_seq f)).
  - intros [[[a ap] b] bp]. simpl. split; [constructor|].
    split; [constructor|set_solver].
  - intros s f H. exact H.
  - intros s k f (Hr & Hj & Hm). unfold resolve_rtt.
    destruct (has_flag _ _); [|done].
    destruct (_ !! _) as [sent|]; [|done]. simpl.
    split; [|done].
    destruct (Qltb 0 (ts s - sent)) eqn:E1; [|done].
    destruct (Qltb (ts s - sent) 5.0) eqn:E2; [|done]. simpl.
    apply Forall_app. split; [done|]. constructor; [|constructor].
    apply Qltb_lt in E1, E2. split; [done|].
    eapply Qlt_le_trans; [exact E2|]. by vm_compute.
  - intros s k f (Hr & Hj & Hm). unfold resolve_rtt.
    destruct (has_flag _ _); [|done].
    destruct (_ !! _) as [sent|]; [|done]. simpl.
    split; [|done].
    destruct (Qltb 0 (ts s - sent)) eqn:E1; [|done].
    destruct (Qltb (ts s - sent) 5.0) eqn:E2; [|done]. simpl.
    apply Forall_app. split; [done|]. constructor; [|constructor].
    apply Qltb_lt in E1, E2. split; [done|].
    eapply Qlt_le_trans; [exact E2|]. by vm_compute.
  - intros s f (Hr & Hj & Hm).
    assert (Forall (λ delta, (delta < 1)%Q)
              (jitter_samples (RTTAnalyzer_process s f))) as Hj'.
    { unfold RTTAnalyzer_process. simpl.
      destruct (Qltb 0 (last_packet_ts f)); [|done]. simpl.
      destruct (Qltb (ts s - last_packet_ts f) 1.0) eqn:E; [|done].
      apply Forall_app. split; [done|]. constructor; [|constructor].
      apply Qltb_lt in E. eapply Qlt_le_trans; [exact E|]. by vm_compute. }
    unfold AnomalyDetector_process.
    destruct (0 <? payload_len s); simpl; (split; [done|]);
      (split; [exact Hj'|]); [|done].
    intros q. destruct (bool_decide (tcp_seq s ∈ seen_seqs f)).
    + intros Hq. specialize (Hm q Hq). case_match; lia.
    + intros [->%elem_of_singleton|Hq]%elem_of_union.
      * destruct (max_seq f <? tcp_seq s) eqn:E; [lia|].
        apply Z.ltb_ge in E. lia.
      * specialize (Hm q Hq).
        destruct (max_seq f <? tcp_seq s) eqn:E; [|lia].
        apply Z.ltb_lt in E. lia.
Qed.
End V4_samples.

(** ** pcap_analyzer_v5.py: the stream table and the diagnosis *)

Section V5_invariants.
Import V5.

(** A property of keyed trackers holds throughout the stream table of
    every capture when the first [update] of a fresh tracker establishes
    it and every later [update] keeps it. *)
Lemma v5_streams_invariant (P : list Endpoint → StreamTracker → Prop) :
  (∀ s, P (get_stream_id s).1
          (update s (get_stream_id s).2
             (new_StreamTracker (get_stream_id s).1))) →
  (∀ s t, P (get_stream_id s).1 t →
          P (get_stream_id s).1 (update s (get_stream_id s).2 t)) →
  ∀ pkts : list Segment, map_Forall P (streams (run pkts)).
Proof.
  intros Hnew Hupd pkts. unfold run.
  assert (map_Forall P (streams new_TrafficAnalyzer)) as H0
    by apply map_Forall_empty.
  revert H0. generalize new_TrafficAnalyzer.
  induction pkts as [|s pkts IH]; intros an Han; [done|].
  simpl. apply IH. clear IH. unfold process_packet.
  specialize (Hnew s). specialize (Hupd s).
  destruct (get_stream_id s) as [sid d]. simpl in *.
  apply map_Forall_insert_2; [|done].
  destruct (streams an !! sid) as [t|] eqn:E; simpl; [|done].
  apply Hupd. exact (Han _ _ E).
Qed.

Lemma update_rtt_samples (s : Segment) (d : Z) (t : StreamTracker) :
  Forall (λ rtt, (0 <= rtt)%Q ∧ (rtt < 10000)%Q) (rtt_samples t) →
  Forall (λ rtt, (0 <= rtt)%Q ∧ (rtt < 10000)%Q)
    (rtt_samples (update s d t)).
Proof.
  intros H. unfold update.
  destruct (has_flag (tcp_flags s) TH_ACK); [|done].
  destruct (_ !! tcp_ack s) as [sent|]; [|done].
  destruct (Qle_bool 0 ((ts s - sent) * 1000.0)) eqn:E1; [|done].
  destruct (Qltb ((ts s - sent) * 1000.0) 10000) eqn:E2; [|done]. simpl.
  apply Forall_app. split; [done|]. constructor; [|constructor].
  apply Qle_bool_iff in E1. apply Qltb_lt in E2. done.
Qed.

Lemma update_counters (s : Segment) (d : Z) (t : StreamTracker) :
  0 ≤ packet_count t
  ∧ 0 ≤ retransmissions t
  ∧ retransmissions t + Z.of_nat (size (seen_seqs t)) ≤ packet_count t
  ∧ 0 ≤ syn_count t ≤ packet_count t
  ∧ 0 ≤ fin_count t ≤ packet_count t
  ∧ 0 ≤ rst_count t ≤ packet_count t
  ∧ has_syn t = false ∧ has_fin t = false →
  stream_id (update s d t) = stream_id t
  ∧ 1 ≤ packet_count (update s d t)
  ∧ 0 ≤ retransmissions (update s d t)
  ∧ retransmissions (update s d t)
    + Z.of_nat (size (seen_seqs (update s d t)))
    ≤ packet_count (update s d t)
  ∧ 0 ≤ syn_count (update s d t) ≤ packet_count (update s d t)
  ∧ 0 ≤ fin_count (update s d t) ≤ packet_count (update s d t)
  ∧ 0 ≤ rst_count (update s d t) ≤ packet_count (update s d t)
  ∧ is_Some (start_time (update s d t))
  ∧ is_Some (end_time (update s d t))
  ∧ has_syn (update s d t) = false ∧ has_fin (update s d t) = false.
Proof.
  intros (Hpc & Hre & Hseen & Hsyn & Hfin & Hrst & Hs & Hf).
  assert (∀ x : list Q * gmap Z Q,
            (let '(samples2, pending2) := x in
             mkStreamTracker (stream_id t) (packet_count t + 1)
               (bytes_transferred t + payload_len s)
               (match start_time t with
                | None => Some (ts s) | Some x => Some x end)
               (Some (ts s)) pending2 samples2
               (if (0 <? payload_len s)
                   && negb (bool_decide ((d, tcp_seq s) ∈ seen_seqs t))
                then {[(d, tcp_seq s)]} ∪ seen_seqs t else seen_seqs t)
               (if (0 <? payload_len s)
                   && bool_decide ((d, tcp_seq s) ∈ seen_seqs t)
                then retransmissions t + 1 else retransmissions t)
               (if has_flag (tcp_flags s) TH_SYN
                then syn_count t + 1 else syn_count t)
               (if has_flag (tcp_flags s) TH_FIN
                then fin_count t + 1 else fin_count t)
               (if has_flag (tcp_flags s) TH_RST
                then rst_count t + 1 else rst_count t)
               (has_syn t) (has_fin t))
            = mkStreamTracker (stream_id t) (packet_count t + 1)
               (bytes_transferred t + payload_len s)
               (match start_time t with
                | None => Some (ts s) | Some x => Some x end)
               (Some (ts s)) x.2 x.1
               (if (0 <? payload_len s)
                   && negb (bool_decide ((d, tcp_seq s) ∈ seen_seqs t))
                then {[(d, tcp_seq s)]} ∪ seen_seqs t else seen_seqs t)
               (if (0 <? payload_len s)
                   && bool_decide ((d, tcp_seq s) ∈ seen_seqs t)
                then retransmissions t + 1 else retransmissions t)
               (if has_flag (tcp_flags s) TH_SYN
                then syn_count t + 1 else syn_count t)
               (if has_flag (tcp_flags s) TH_FIN
                then fin_count t + 1 else fin_count t)
               (if has_flag (tcp_flags s) TH_RST
                then rst_count t + 1 else rst_count t)
               (has_syn t) (has_fin t)) as Hshape by (by intros [? ?]).
  unfold update. cbv zeta. rewrite Hshape. simpl.
  split; [done|]. split; [lia|].
  destruct (0 <? payload_len s); simpl.
  - destruct (bool_decide ((d, tcp_seq s) ∈ seen_seqs t)) eqn:E; simpl.
    + repeat split; try (repeat case_match; lia); try done;
        destruct (start_time t); eauto.
    + apply bool_decide_eq_false in E.
      rewrite size_union by set_solver. rewrite size_singleton.
      repeat split; try (repeat case_match; lia); try done;
        destruct (start_time t); eauto.
  - repeat split; try (repeat case_match; lia); try done;
      destruct (start_time t); eauto.
Qed.

Lemma v5_tracker_invariant (pkts : list Segment) :
  map_Forall (λ sid t,
      (stream_id t = sid ∧ length sid = 2%nat)
      ∧ (1 ≤ packet_count t
         ∧ 0 ≤ retransmissions t
         ∧ retransmissions t + Z.of_nat (size (seen_seqs t))
           ≤ packet_count t
         ∧ 0 ≤ syn_count t ≤ packet_count t
         ∧ 0 ≤ fin_count t ≤ packet_count t
         ∧ 0 ≤ rst_count t ≤ packet_count t
         ∧ is_Some (start_time t) ∧ is_Some (end_time t)
         ∧ has_syn t = false ∧ has_fin t = false)
      ∧ Forall (λ rtt, (0 <= rtt)%Q ∧ (rtt < 10000)%Q) (rtt_samples t))
    (streams (run pkts)).
Proof.
  apply v5_streams_invariant.
  - intros s.
    destruct (update_counters s (get_stream_id s).2
                (new_StreamTracker (get_stream_id s).1)) as [Hid Hc].
    { unfold new_StreamTracker.
      cbn [packet_count retransmissions seen_seqs syn_count fin_count
           rst_count has_syn has_fin].
      rewrite size_empty. repeat split; try done; lia. }
    split; [split|split].
    + by rewrite Hid.
    + unfold get_stream_id. cbn [fst]. rewrite py_sorted_pair.
      by destruct (endpoint_ltb _ _).
    + exact Hc.
    + apply update_rtt_samples. constructor.
  - intros s t ((Hid & Hlen) & Hc & Hr).
    destruct (update_counters s (get_stream_id s).2 t) as [Hid' Hc'].
    { destruct Hc as (? & ? & ? & ? & ? & ? & _ & _ & ? & ?).
      repeat split; try done; lia. }
    split; [split|split].
    + by rewrite Hid'.
    + done.
    + exact Hc'.
    + by apply update_rtt_samples.
Qed.

(** X18. In every stream tracker of pcap_analyzer_v5.py: the tracker
    carries its own two-endpoint stream id, it has seen at least one
    packet and both of its timestamps are set, a payload segment is either
    a retransmission or a new [(direction, seq)] entry
    ([retransmissions + len(seen_seqs) <= packet_count]), the flag
    counters do not exceed the packet count, the attributes [has_syn] and
    [has_fin] are never set, and every RTT sample is in [0, 10000) ms. *)
Theorem v5_trackers_are_consistent (pkts : list Segment) :
  map_Forall (λ sid t,
      (stream_id t = sid ∧ length sid = 2%nat)
      ∧ (1 ≤ packet_count t
         ∧ 0 ≤ retransmissions t
         ∧ retransmissions t + Z.of_nat (size (seen_seqs t))
           ≤ packet_count t
         ∧ 0 ≤ syn_count t ≤ packet_count t
         ∧ 0 ≤ fin_count t ≤ packet_count t
         ∧ 0 ≤ rst_count t ≤ packet_count t
         ∧ is_Some (start_time t) ∧ is_Some (end_time t)
         ∧ has_syn t = false ∧ has_fin t = false)
      ∧ Forall (λ rtt, (0 <= rtt)%Q ∧ (rtt < 10000)%Q) (rtt_samples t))
    (streams (run pkts)).
Proof. exact (v5_tracker_invariant pkts). Qed.
End V5_invariants.

Section V5_totals.
Import V5.

Lemma update_totals (s : Segment) (d : Z) (t : StreamTracker) :
  packet_count (update s d t) = packet_count t + 1
  ∧ bytes_transferred (update s d t) = bytes_transferred t + payload_len s.
Proof.
  unfold update. cbv zeta.
  match goal with
  | |- context [let '(a, b) := ?X in _] => by destruct X
  end.
Qed.

Lemma run_snoc (pkts : list Segment) (s : Segment) :
  run (pkts ++ [s]) = process_packet (run pkts) s.
Proof. unfold run. by rewrite foldl_app. Qed.

Lemma v5_totals (pkts : list Segment) :
  total_packets (run pkts) = Z.of_nat (length pkts)
  ∧ tcp_counts (run pkts) = Z.of_nat (length pkts)
  ∧ sum_values packet_count (streams (run pkts)) = Z.of_nat (length pkts)
  ∧ total_bytes (run pkts) = foldr (λ s acc, wire_len s + acc) 0 pkts
  ∧ sum_values id (ip_src_counts (run pkts)) = total_bytes (run pkts)
  ∧ sum_values bytes_transferred (streams (run pkts))
    = foldr (λ s acc, payload_len s + acc) 0 pkts.
Proof.
  induction pkts as [|s pkts IH] using rev_ind.
  - unfold run. simpl. rewrite !sum_values_empty. done.
  - destruct IH as (H1 & H2 & H3 & H4 & H5 & H6).
    rewrite run_snoc, length_app, !foldr_app. simpl length. simpl foldr.
    assert (∀ (g : Segment → Z) l z,
              foldr (λ s acc, g s + acc) z l
              = foldr (λ s acc, g s + acc) 0 l + z) as Hfold.
    { intros g l z. induction l as [|x l IHl]; simpl; lia. }
    rewrite (Hfold wire_len), (Hfold payload_len). clear Hfold.
    unfold process_packet.
    destruct (get_stream_id s) as [sid d].
    cbn [total_packets tcp_counts streams total_bytes ip_src_counts].
    change (<[sid := update s d
                       (default (new_StreamTracker sid)
                          (streams (run pkts) !! sid))]> (streams (run pkts)))
      with (dd_update (new_StreamTracker sid) (update s d) sid
              (streams (run pkts))).
    change (<[src_ip s := default 0 (ip_src_counts (run pkts) !! src_ip s)
                          + wire_len s]> (ip_src_counts (run pkts)))
      with (dd_update 0 (λ v, v + wire_len s) (src_ip s)
              (ip_src_counts (run pkts))).
    rewrite !sum_values_dd_update by done.
    destruct (update_totals s d
                (dd_get (new_StreamTracker sid) sid (streams (run pkts))))
      as [-> ->].
    unfold id in *. lia.
Qed.

(** X19. Totals of pcap_analyzer_v5.py: the per-stream packet counts add
    up to [total_packets], which equals [tcp_counts] and the number of
    packets; the per-source-IP byte counters add up to [total_bytes], the
    sum of the frame lengths; and the per-stream [bytes_transferred] add
    up to the payload lengths. *)
Theorem v5_totals_add_up_to_the_capture (pkts : list Segment) :
  total_packets (run pkts) = Z.of_nat (length pkts)
  ∧ tcp_counts (run pkts) = Z.of_nat (length pkts)
  ∧ sum_values packet_count (streams (run pkts)) = Z.of_nat (length pkts)
  ∧ total_bytes (run pkts) = foldr (λ s acc, wire_len s + acc) 0 pkts
  ∧ sum_values id (ip_src_counts (run pkts)) = total_bytes (run pkts)
  ∧ sum_values bytes_transferred (streams (run pkts))
    = foldr (λ s acc, payload_len s + acc) 0 pkts.
Proof. exact (v5_totals pkts). Qed.




(** X21. The direction flag of [get_stream_id]: a packet and its reply
    (addresses and ports exchanged) get the same stream id and, unless both
    endpoints coincide, opposite directions, so the [(direction, seq)] keys
    of the two senders never collide. *)
Theorem v5_reply_has_the_opposite_direction (s : Segment) :
  (src_ip s, sport s) ≠ (dst_ip s, dport s) →
  (get_stream_id (swap_segment s)).1 = (get_stream_id s).1
  ∧ ((get_stream_id s).2 = 0 ∨ (get_stream_id s).2 = 1)
  ∧ (get_stream_id (swap_segment s)).2 = 1 - (get_stream_id s).2.
Proof.
  intros Hne. split; [apply get_stream_id_swap|].
  unfold get_stream_id, swap_segment. cbn [fst snd src_ip sport dst_ip dport].
  rewrite !py_sorted_pair.
  set (a := (src_ip s, sport s)) in *. set (b := (dst_ip s, dport s)) in *.
  destruct (endpoint_ltb b a) eqn:E1.
  - rewrite (endpoint_ltb_asym _ _ E1). simpl.
    rewrite (bool_decide_eq_false_2 (Some b = Some a)) by congruence.
    rewrite (bool_decide_eq_true_2 (Some b = Some b)) by done.
    split; [by right|done].
  - destruct (endpoint_ltb a b) eqn:E2.
    + simpl.
      rewrite (bool_decide_eq_true_2 (Some a = Some a)) by done.
      rewrite (bool_decide_eq_false_2 (Some a = Some b)) by congruence.
      split; [by left|done].
    + exfalso. apply Hne. exact (endpoint_ltb_total _ _ E2 E1).
Qed.

Lemma v5_reply_has_the_opposite_direction_witness :
  (get_stream_id (swap_segment (Scenario.data 1.000 100 50))).1
  = (get_stream_id (Scenario.data 1.000 100 50)).1
  ∧ ((get_stream_id (Scenario.data 1.000 100 50)).2 = 0
     ∨ (get_stream_id (Scenario.data 1.000 100 50)).2 = 1)
  ∧ (get_stream_id (swap_segment (Scenario.data 1.000 100 50))).2
    = 1 - (get_stream_id (Scenario.data 1.000 100 50)).2.
Proof.
  apply (v5_reply_has_the_opposite_direction (Scenario.data 1.000 100 50)).
  vm_compute. discriminate.
Defined.
End V5_totals.

(** ** pcap_analyzer_v9.py: flow records and the verdict *)

Section V9_invariants.
Import V9.

Lemma v9_run_snoc (pkts : list Segment) (s : Segment) :
  process_pcap (pkts ++ [s]) = process_packet (process_pcap pkts) s.
Proof. unfold process_pcap. by rewrite foldl_app. Qed.

(** A property holds of every flow record of every capture when the first
    packet of a flow establishes it and every later packet keeps it. *)
Lemma v9_flows_invariant (P : FlowMetrics → Prop) :
  (∀ s, P (_analyze_packet s
             (touch s (new_FlowMetrics (src_ip s) (sport s) (dst_ip s)
                         (dport s))))) →
  (∀ s f, P f → P (_analyze_packet s (touch s f))) →
  ∀ pkts : list Segment, map_Forall (λ _, P) (flows (process_pcap pkts)).
Proof.
  intros Hnew Hupd pkts.
  induction pkts as [|s pkts IH] using rev_ind; [apply map_Forall_empty|].
  rewrite v9_run_snoc. unfold process_packet. cbn [flows].
  apply map_Forall_insert_2; [|done].
  destruct (flows (process_pcap pkts) !! _) as [f|] eqn:E; simpl; [|done].
  apply Hupd. exact (IH _ _ E).
Qed.

Lemma _analyze_packet_counters (s : Segment) (f : FlowMetrics) :
  packet_count (_analyze_packet s f) = packet_count f
  ∧ rtt_samples (_analyze_packet s f) = rtt_samples f
  ∧ retrans_spurious (_analyze_packet s f) = retrans_spurious f
  ∧ win_full_events (_analyze_packet s f) = win_full_events f
  ∧ retrans_fast f ≤ retrans_fast (_analyze_packet s f)
  ∧ retrans_rto f ≤ retrans_rto (_analyze_packet s f)
  ∧ zero_win_events f ≤ zero_win_events (_analyze_packet s f)
    ≤ zero_win_events f + 1
  ∧ retrans_fast (_analyze_packet s f) + retrans_rto (_analyze_packet s f)
    + Z.of_nat (size (seq_tracker (_analyze_packet s f)))
    = retrans_fast f + retrans_rto f + Z.of_nat (size (seq_tracker f))
      + (if 0 <? payload_len s then 1 else 0).
Proof.
  unfold _analyze_packet. cbv zeta.
  destruct (0 <? payload_len s).
  - destruct (seq_tracker f !! tcp_seq s) as [t0|] eqn:E.
    + destruct (is_rto f (ts s - t0)); simpl;
        repeat split; try done; try (case_match; lia); lia.
    + simpl. rewrite map_size_insert_None by done.
      repeat split; try done; try (case_match; lia); lia.
  - simpl. repeat split; try done; try (case_match; lia); lia.
Qed.

Lemma v9_flow_records (pkts : list Segment) :
  map_Forall (λ _ f,
      1 ≤ packet_count f
      ∧ 0 ≤ retrans_fast f ∧ 0 ≤ retrans_rto f
      ∧ retrans_fast f + retrans_rto f + Z.of_nat (size (seq_tracker f))
        ≤ packet_count f
      ∧ 0 ≤ zero_win_events f ≤ packet_count f
      ∧ retrans_spurious f = 0 ∧ win_full_events f = 0
      ∧ rtt_samples f = [])
    (flows (process_pcap pkts)).
Proof.
  assert (∀ s f,
    (0 ≤ packet_count f
     ∧ 0 ≤ retrans_fast f ∧ 0 ≤ retrans_rto f
     ∧ retrans_fast f + retrans_rto f + Z.of_nat (size (seq_tracker f))
       ≤ packet_count f
     ∧ 0 ≤ zero_win_events f ≤ packet_count f
     ∧ retrans_spurious f = 0 ∧ win_full_events f = 0
     ∧ rtt_samples f = []) →
    1 ≤ packet_count (_analyze_packet s (touch s f))
    ∧ 0 ≤ retrans_fast (_analyze_packet s (touch s f))
    ∧ 0 ≤ retrans_rto (_analyze_packet s (touch s f))
    ∧ retrans_fast (_analyze_packet s (touch s f))
      + retrans_rto (_analyze_packet s (touch s f))
      + Z.of_nat (size (seq_tracker (_analyze_packet s (touch s f))))
      ≤ packet_count (_analyze_packet s (touch s f))
    ∧ 0 ≤ zero_win_events (_analyze_packet s (touch s f))
      ≤ packet_count (_analyze_packet s (touch s f))
    ∧ retrans_spurious (_analyze_packet s (touch s f)) = 0
    ∧ win_full_events (_analyze_packet s (touch s f)) = 0
    ∧ rtt_samples (_analyze_packet s (touch s f)) = []) as Hstep.
  { intros s f (Hpc & Hf & Hr & Hsum & Hz & Hsp & Hwf & Hrtt).
    destruct (_analyze_packet_counters s (touch s f))
      as (-> & -> & -> & -> & H5 & H6 & H7 & H8).
    simpl in *. rewrite H8.
    repeat split; try done; try lia; case_match; lia. }
  apply v9_flows_invariant.
  - intros s. apply Hstep. unfold new_FlowMetrics.
    cbn [packet_count retrans_fast retrans_rto seq_tracker zero_win_events
         retrans_spurious win_full_events rtt_samples].
    rewrite map_size_empty. repeat split; try done; lia.
  - intros s f H. apply Hstep.
    destruct H as (? & ? & ? & ? & ? & ? & ? & ?).
    repeat split; try done; lia.
Qed.

(** X22. In every flow record of pcap_analyzer_v9.py a payload segment is
    counted as a fast retransmission, as a timeout, or as a new entry of
    [seq_tracker], so the three never add up to more than [packet_count];
    zero-window events do not exceed the packet count; and
    [retrans_spurious], [win_full_events] and [rtt_samples] are never
    written: they keep their initial 0, 0 and empty list. *)
Theorem v9_flow_records_are_consistent (pkts : list Segment) :
  map_Forall (λ _ f,
      1 ≤ packet_count f
      ∧ 0 ≤ retrans_fast f ∧ 0 ≤ retrans_rto f
      ∧ retrans_fast f + retrans_rto f + Z.of_nat (size (seq_tracker f))
        ≤ packet_count f
      ∧ 0 ≤ zero_win_events f ≤ packet_count f
      ∧ retrans_spurious f = 0 ∧ win_full_events f = 0
      ∧ rtt_samples f = [])
    (flows (process_pcap pkts)).
Proof. exact (v9_flow_records pkts). Qed.

(** X23. Because no RTT sample is ever stored, the adaptive parts of
    pcap_analyzer_v9.py are constant on every flow of every capture:
    [avg_rtt_ms] is 0, the baseline of the timeout test is its 0.1 s
    fallback, a repeated payload segment counts as a timeout exactly when
    it comes more than 0.2 s after the first transmission, and the
    per-flow verdict never contains "High Latency". *)
Theorem v9_timeout_threshold_is_constant (pkts : list Segment) :
  map_Forall (λ _ f,
      avg_rtt_ms f = 0%Q
      ∧ baseline f = 0.1%Q
      ∧ (∀ delta, is_rto f delta = true ↔ (0.2 < delta)%Q)
      ∧ HighLatency ∉ get_health_verdict f)
    (flows (process_pcap pkts)).
Proof.
  intros k f Hf.
  destruct (v9_flow_records pkts k f Hf) as (_ & _ & _ & _ & _ & _ & _ & Hs).
  simpl.
  assert (avg_rtt_ms f = 0%Q) as Havg by (unfold avg_rtt_ms; by rewrite Hs).
  assert (baseline f = 0.1%Q) as Hb by (unfold baseline; by rewrite Havg).
  split; [done|]. split; [done|]. split.
  - intros delta. unfold is_rto. rewrite Hb.
    rewrite andb_true_iff, !Qltb_lt. split.
    + intros [_ H]. eapply Qle_lt_trans; [|exact H]. by vm_compute.
    + intros H. split; (eapply Qle_lt_trans; [|exact H]); by vm_compute.
  - unfold get_health_verdict. rewrite Havg.
    assert (Qltb HIGH_LATENCY_MS 0 = false) as -> by (by vm_compute).
    rewrite !elem_of_app. intros [H|[H|[H|H]]]; revert H;
      try case_match; set_solver.
Qed.

Lemma v9_totals (pkts : list Segment) :
  total_packets (process_pcap pkts) = Z.of_nat (length pkts)
  ∧ sum_values packet_count (flows (process_pcap pkts))
    = Z.of_nat (length pkts)
  ∧ total_bytes (process_pcap pkts)
    = foldr (λ s acc, wire_len s + acc) 0 pkts.
Proof.
  induction pkts as [|s pkts IH] using rev_ind.
  - unfold process_pcap. simpl. by rewrite sum_values_empty.
  - destruct IH as (H1 & H2 & H3).
    rewrite v9_run_snoc, length_app, foldr_app. simpl length. simpl foldr.
    assert (∀ l z, foldr (λ s acc, wire_len s + acc) z l
                   = foldr (λ s acc, wire_len s + acc) 0 l + z) as Hfold.
    { intros l z. induction l as [|x l IHl]; simpl; lia. }
    rewrite Hfold. clear Hfold.
    unfold process_packet. cbn [total_packets flows total_bytes].
    set (key := _get_flow_key (src_ip s) (sport s) (dst_ip s) (dport s)).
    set (dflt := new_FlowMetrics (src_ip s) (sport s) (dst_ip s) (dport s)).
    change (<[key := _analyze_packet s
                       (touch s (default dflt
                                   (flows (process_pcap pkts) !! key)))]>
              (flows (process_pcap pkts)))
      with (dd_update dflt (λ f, _analyze_packet s (touch s f)) key
              (flows (process_pcap pkts))).
    rewrite sum_values_dd_update by done.
    destruct (_analyze_packet_counters s
                (touch s (dd_get dflt key (flows (process_pcap pkts)))))
      as (-> & _).
    simpl. lia.
Qed.

(** X24. [ReportWriter.generate] of pcap_analyzer_v9.py always reaches its
    verdict on the state of a capture.  The health is "NO TRAFFIC" exactly
    for the empty capture; otherwise the retransmission rate is a
    percentage between 0 and 100, the health is "HEALTHY" or "DEGRADED",
    it is "HEALTHY" exactly when the primary issue is "None", and the list
    of hypotheses is not empty. *)
Theorem v9_verdict_is_coherent (pkts : list Segment) :
  ∃ v : Verdict,
    generate (process_pcap pkts) = Some v
    ∧ (pkts = [] → health v = "NO TRAFFIC")
    ∧ (pkts ≠ [] →
       (0 <= retrans_rate v)%Q ∧ (retrans_rate v <= 100)%Q
       ∧ (health v = "HEALTHY" ∨ health v = "DEGRADED")
       ∧ (health v = "HEALTHY" ↔ primary_issue v = "None")
       ∧ hypotheses v ≠ []).
Proof.
  unfold generate.
  destruct (v9_totals pkts) as (Htp & Hsum & _).
  pose proof (v9_flow_records pkts) as Hinv.
  set (e := process_pcap pkts) in *.
  assert (∃ g, (if (handshake_stats (flows e)).2 =? 0 then Some 0%Q
                else py_truediv (handshake_stats (flows e)).1
                       (inject_Z (handshake_stats (flows e)).2)) = Some g)
    as [g ->].
  { destruct (_ =? 0) eqn:E; [eauto|]. apply Z.eqb_neq in E.
    rewrite py_truediv_Some by (by apply inject_Z_nonzero). eauto. }
  cbn [mbind option_bind].
  destruct (Z.of_nat (size (flows e)) =? 0) eqn:Esize.
  - eexists. split; [reflexivity|]. split; [done|].
    intros Hne. exfalso. apply Z.eqb_eq in Esize.
    assert (size (flows e) = 0%nat) as H0 by lia.
    apply map_size_empty_inv in H0.
    rewrite H0, sum_values_empty in Hsum.
    destruct pkts; [done|]. simpl in Hsum. lia.
  - assert (pkts ≠ []) as Hne.
    { intros ->. by vm_compute in Esize. }
    assert (0 ≤ sum_values (λ f, retrans_fast f + retrans_rto f) (flows e))
      as H0.
    { apply sum_values_nonneg. intros k f Hf.
      specialize (Hinv k f Hf). simpl in Hinv. simpl. lia. }
    assert (sum_values (λ f, retrans_fast f + retrans_rto f) (flows e)
            ≤ sum_values packet_count (flows e)) as H1.
    { apply sum_values_le. intros k f Hf.
      specialize (Hinv k f Hf). simpl in Hinv. simpl. lia. }
    assert (∃ rate,
              (if total_packets e =? 0 then Some 0%Q
               else r ← py_truediv
                          (inject_Z (sum_values
                                       (λ f, retrans_fast f + retrans_rto f)
                                       (flows e)))
                          (inject_Z (total_packets e));
                    Some (r * 100)%Q) = Some rate
              ∧ (0 <= rate)%Q ∧ (rate <= 100)%Q) as (rate & -> & Hr0 & Hr1).
    { destruct (total_packets e =? 0) eqn:E.
      - eexists. split; [reflexivity|]. split; by vm_compute.
      - apply Z.eqb_neq in E.
        rewrite py_truediv_Some by (by apply inject_Z_nonzero). simpl.
        eexists. split; [reflexivity|]. apply Qpercent_bounds; lia. }
    cbn [mbind option_bind].
    eexists. split; [reflexivity|]. split; [done|]. intros _.
    cbn [retrans_rate health primary_issue hypotheses].
    split; [done|]. split; [done|].
    destruct (Qltb 5 rate), (5 <? sum_values zero_win_events (flows e)),
      (Qltb 150 g); cbn; repeat split; auto; try discriminate;
      try (intros; discriminate); try (by destruct (_ <? _)).
Qed.
End V9_invariants.

(** ** pcap_analyzer_v10.py: streams, flow ids and the verdict *)

Section V10_invariants.
Import V10.

Lemma v10_run_snoc (pkts : list Segment) (s : Segment) :
  run (pkts ++ [s]) = analyze_packet (run pkts) s.
Proof. unfold run. by rewrite foldl_app. Qed.

Lemma analyze_stream_fields (s : Segment) (d : Z) (f : StreamMetrics) :
  flow_id (analyze_stream s d f) = flow_id f
  ∧ src_key (analyze_stream s d f) = src_key f
  ∧ dst_key (analyze_stream s d f) = dst_key f
  ∧ packets (analyze_stream s d f) = packets f + 1
  ∧ bytes_payload (analyze_stream s d f) = bytes_payload f + payload_len s
  ∧ bytes_total (analyze_stream s d f) = bytes_total f
  ∧ handshake_rtt (analyze_stream s d f) = handshake_rtt f
  ∧ retrans_spurious (analyze_stream s d f) = retrans_spurious f
  ∧ dup_acks (analyze_stream s d f) = dup_acks f
  ∧ win_full_events (analyze_stream s d f) = win_full_events f
  ∧ retrans_fast f ≤ retrans_fast (analyze_stream s d f)
  ∧ retrans_rto f ≤ retrans_rto (analyze_stream s d f)
  ∧ retrans_fast (analyze_stream s d f) + retrans_rto (analyze_stream s d f)
    ≤ retrans_fast f + retrans_rto f + 1
  ∧ zero_wins f ≤ zero_wins (analyze_stream s d f) ≤ zero_wins f + 1.
Proof.
  unfold analyze_stream. cbv zeta.
  match goal with
  | |- context [let '(a, b) := ?X in _] => destruct X as [samples2 unacked2]
  end.
  cbn [flow_id src_key dst_key packets bytes_payload bytes_total
       handshake_rtt retrans_spurious dup_acks win_full_events retrans_fast
       retrans_rto zero_wins].
  destruct (0 <? payload_len s); cbn [andb].
  - destruct (classify s d f); repeat case_bool_decide; try discriminate;
      repeat split; try done; try (case_match; lia); lia.
  - repeat split; try done; try (case_match; lia); lia.
Qed.

Lemma analyze_stream_rtt_samples (s : Segment) (d : Z) (f : StreamMetrics) :
  Forall (λ rtt, (0 < rtt)%Q ∧ (rtt < 5000)%Q) (rtt_samples f) →
  Forall (λ rtt, (0 < rtt)%Q ∧ (rtt < 5000)%Q)
    (rtt_samples (analyze_stream s d f)).
Proof.
  intros H. unfold analyze_stream. cbv zeta.
  destruct (has_flag (tcp_flags s) TH_ACK); [|done].
  match goal with
  | |- context [match ?X !! tcp_ack s with _ => _ end] =>
      destruct (X !! tcp_ack s) as [sent|]; [|done]
  end.
  destruct (Qltb 0 ((ts s - sent) * 1000.0)) eqn:E1; [|done].
  destruct (Qltb ((ts s - sent) * 1000.0) 5000) eqn:E2; [|done]. simpl.
  apply Forall_app. split; [done|]. constructor; [|constructor].
  apply Qltb_lt in E1, E2. done.
Qed.

(** A property holds of every stream of every capture when the first
    packet of a stream establishes it and every later packet keeps it. *)
Lemma v10_streams_invariant (P : StreamMetrics → Prop) :
  (∀ s d k m, P (analyze_stream s d (created s k m))) →
  (∀ s d f, P f → P (analyze_stream s d f)) →
  ∀ pkts : list Segment, map_Forall (λ _, P) (streams (run pkts)).
Proof.
  intros Hnew Hupd pkts.
  induction pkts as [|s pkts IH] using rev_ind; [apply map_Forall_empty|].
  rewrite v10_run_snoc. unfold analyze_packet.
  destruct (normalize_key s) as [key d]. cbn [streams].
  apply map_Forall_insert_2; [|done].
  destruct (streams (run pkts) !! key) as [f|] eqn:E; simpl; [|apply Hnew].
  apply Hupd. exact (IH _ _ E).
Qed.

Lemma v10_stream_records (pkts : list Segment) :
  map_Forall (λ _ f,
      1 ≤ packets f
      ∧ 0 ≤ retrans_fast f ∧ 0 ≤ retrans_rto f
      ∧ retrans_fast f + retrans_rto f ≤ packets f
      ∧ 0 ≤ zero_wins f ≤ packets f
      ∧ bytes_total f = 0 ∧ handshake_rtt f = 0%Q
      ∧ retrans_spurious f = 0 ∧ dup_acks f = 0 ∧ win_full_events f = 0
      ∧ Forall (λ rtt, (0 < rtt)%Q ∧ (rtt < 5000)%Q) (rtt_samples f))
    (streams (run pkts)).
Proof.
  assert (∀ s d f,
    (0 ≤ packets f
     ∧ 0 ≤ retrans_fast f ∧ 0 ≤ retrans_rto f
     ∧ retrans_fast f + retrans_rto f ≤ packets f
     ∧ 0 ≤ zero_wins f ≤ packets f
     ∧ bytes_total f = 0 ∧ handshake_rtt f = 0%Q
     ∧ retrans_spurious f = 0 ∧ dup_acks f = 0 ∧ win_full_events f = 0
     ∧ Forall (λ rtt, (0 < rtt)%Q ∧ (rtt < 5000)%Q) (rtt_samples f)) →
    1 ≤ packets (analyze_stream s d f)
    ∧ 0 ≤ retrans_fast (analyze_stream s d f)
    ∧ 0 ≤ retrans_rto (analyze_stream s d f)
    ∧ retrans_fast (analyze_stream s d f) + retrans_rto (analyze_stream s d f)
      ≤ packets (analyze_stream s d f)
    ∧ 0 ≤ zero_wins (analyze_stream s d f) ≤ packets (analyze_stream s d f)
    ∧ bytes_total (analyze_stream s d f) = 0
    ∧ handshake_rtt (analyze_stream s d f) = 0%Q
    ∧ retrans_spurious (analyze_stream s d f) = 0
    ∧ dup_acks (analyze_stream s d f) = 0
    ∧ win_full_events (analyze_stream s d f) = 0
    ∧ Forall (λ rtt, (0 < rtt)%Q ∧ (rtt < 5000)%Q)
        (rtt_samples (analyze_stream s d f))) as Hstep.
  { intros s d f (Hp & Hf & Hr & Hsum & Hz & Hb & Hh & Hsp & Hd & Hw & Hs).
    destruct (analyze_stream_fields s d f)
      as (_ & _ & _ & -> & _ & -> & -> & -> & -> & -> & H1 & H2 & H3 & H4).
    split; [lia|]. split; [lia|]. split; [lia|]. split; [lia|].
    split; [lia|]. do 5 (split; [done|]).
    by apply analyze_stream_rtt_samples. }
  apply v10_streams_invariant.
  - intros s d k m. apply Hstep. destruct k as [[[a ap] b] bp]. simpl.
    repeat split; try done; constructor.
  - intros s d f H. apply Hstep.
    destruct H as (? & ? & ? & ? & ? & ? & ? & ? & ? & ? & ?).
    repeat split; try done; lia.
Qed.

Lemma v10_flow_ids (pkts : list Segment) :
  (∀ k f, streams (run pkts) !! k = Some f →
          1 ≤ flow_id f ≤ Z.of_nat (size (streams (run pkts))))
  ∧ (∀ k1 k2 f1 f2,
       streams (run pkts) !! k1 = Some f1 →
       streams (run pkts) !! k2 = Some f2 →
       flow_id f1 = flow_id f2 → k1 = k2).
Proof.
  induction pkts as [|s pkts IH] using rev_ind.
  { split; intros k; unfold run; simpl; by rewrite lookup_empty. }
  destruct IH as [Hrange Hinj].
  rewrite v10_run_snoc. unfold analyze_packet.
  destruct (normalize_key s) as [key d]. cbn [streams].
  set (m := streams (run pkts)) in *.
  destruct (m !! key) as [f|] eqn:E; cbn [default].
  - rewrite map_size_insert_Some by eauto.
    destruct (analyze_stream_fields s d f) as (Hid & _).
    split.
    + intros k g. destruct (decide (key = k)) as [<-|Hne].
      * rewrite lookup_insert_eq. intros [= <-]. rewrite Hid. eauto.
      * rewrite lookup_insert_ne by done. apply Hrange.
    + intros k1 k2 f1 f2.
      destruct (decide (key = k1)) as [<-|Hne1];
        destruct (decide (key = k2)) as [<-|Hne2]; [done| | |].
      * rewrite lookup_insert_eq, lookup_insert_ne by done.
        intros [= <-] H2. rewrite Hid. eauto.
      * rewrite lookup_insert_eq, lookup_insert_ne by done.
        intros H1 [= <-]. rewrite Hid. eauto.
      * rewrite !lookup_insert_ne by done. apply Hinj.
  - rewrite map_size_insert_None by done.
    destruct (analyze_stream_fields s d (created s key m)) as (Hid & _).
    assert (flow_id (created s key m) = Z.of_nat (size m) + 1) as Hnew.
    { unfold created. destruct key as [[[a ap] b] bp]. done. }
    rewrite Hnew in Hid. split.
    + intros k g. destruct (decide (key = k)) as [<-|Hne].
      * rewrite lookup_insert_eq. intros [= <-]. rewrite Hid. lia.
      * rewrite lookup_insert_ne by done. intros Hg.
        specialize (Hrange k g Hg). lia.
    + intros k1 k2 f1 f2.
      destruct (decide (key = k1)) as [<-|Hne1];
        destruct (decide (key = k2)) as [<-|Hne2]; [done| | |].
      * rewrite lookup_insert_eq, lookup_insert_ne by done.
        intros [= <-] H2. rewrite Hid. specialize (Hrange k2 f2 H2). lia.
      * rewrite lookup_insert_eq, lookup_insert_ne by done.
        intros H1 [= <-]. rewrite Hid. specialize (Hrange k1 f1 H1). lia.
      * rewrite !lookup_insert_ne by done. apply Hinj.
Qed.

(** X25. Stream ids of pcap_analyzer_v10.py ([len(self.streams) + 1] at
    creation): every stream of a capture has an id between 1 and the
    number of streams, and two different streams never share an id. *)
Theorem v10_flow_ids_are_unique (pkts : list Segment) :
  map_Forall (λ _ f,
      1 ≤ flow_id f ≤ Z.of_nat (size (streams (run pkts))))
    (streams (run pkts))
  ∧ (∀ k1 k2 f1 f2,
       streams (run pkts) !! k1 = Some f1 →
       streams (run pkts) !! k2 = Some f2 →
       flow_id f1 = flow_id f2 → k1 = k2).
Proof. exact (v10_flow_ids pkts). Qed.

Lemma v10_totals (pkts : list Segment) :
  global_packets (run pkts) = Z.of_nat (length pkts)
  ∧ sum_values packets (streams (run pkts)) = Z.of_nat (length pkts)
  ∧ global_bytes (run pkts) = foldr (λ s acc, wire_len s + acc) 0 pkts
  ∧ sum_values bytes_payload (streams (run pkts))
    = foldr (λ s acc, payload_len s + acc) 0 pkts.
Proof.
  induction pkts as [|s pkts IH] using rev_ind.
  - unfold run. simpl. by rewrite !sum_values_empty.
  - destruct IH as (H1 & H2 & H3 & H4).
    rewrite v10_run_snoc, length_app, !foldr_app. simpl length. simpl foldr.
    assert (∀ (g : Segment → Z) l z,
              foldr (λ s acc, g s + acc) z l
              = foldr (λ s acc, g s + acc) 0 l + z) as Hfold.
    { intros g l z. induction l as [|x l IHl]; simpl; lia. }
    rewrite (Hfold wire_len), (Hfold payload_len). clear Hfold.
    unfold analyze_packet. destruct (normalize_key s) as [key d].
    cbn [global_packets streams global_bytes].
    set (m := streams (run pkts)) in *.
    change (<[key := analyze_stream s d (default (created s key m) (m !! key))]> m)
      with (dd_update (created s key m) (analyze_stream s d) key m).
    assert (packets (created s key m) = 0
            ∧ bytes_payload (created s key m) = 0) as [Hc1 Hc2].
    { unfold created. by destruct key as [[[a ap] b] bp]. }
    rewrite !sum_values_dd_update by done.
    destruct (analyze_stream_fields s d (dd_get (created s key m) key m))
      as (_ & _ & _ & -> & -> & _).
    lia.
Qed.

Lemma v10_frames_streams_from (frames : list Frame)
    (e e' : ForensicsEngine) :
  streams e = streams e' →
  streams (foldl analyze_frame e frames)
  = streams (foldl analyze_packet e' (tcp_segments frames)).
Proof.
  revert e e'. induction frames as [|fr frames IH]; intros e e' H;
    [exact H|].
  destruct fr as [s|t len]; simpl.
  - apply IH. unfold analyze_packet.
    destruct (normalize_key s) as [key d]. cbn [streams]. by rewrite H.
  - apply IH. exact H.
Qed.

Lemma v10_frames_streams (frames : list Frame) :
  streams (run_frames frames) = streams (run (tcp_segments frames)).
Proof. by apply v10_frames_streams_from. Qed.

Lemma v10_frames_counters_from (frames : list Frame) (e : ForensicsEngine) :
  global_packets (foldl analyze_frame e frames)
  = global_packets e + Z.of_nat (length frames)
  ∧ global_bytes (foldl analyze_frame e frames)
    = global_bytes e + foldr (λ fr acc, frame_len fr + acc) 0 frames.
Proof.
  revert e. induction frames as [|fr frames IH]; intros e.
  - simpl. lia.
  - cbn [foldl length foldr]. destruct (IH (analyze_frame e fr)) as [-> ->].
    destruct fr as [s|t len]; cbn [analyze_frame frame_len].
    + unfold analyze_packet. destruct (normalize_key s) as [key d].
      cbn [global_packets global_bytes]. lia.
    + cbn [count_frame global_packets global_bytes]. lia.
Qed.

Lemma v10_tcp_frames_only (pkts : list Segment) :
  tcp_segments (TcpFrame <$> pkts) = pkts
  ∧ run_frames (TcpFrame <$> pkts) = run pkts.
Proof.
  split.
  - induction pkts as [|s pkts IH]; [done|].
    change (tcp_segments (TcpFrame <$> s :: pkts))
      with (s :: tcp_segments (TcpFrame <$> pkts)). by rewrite IH.
  - unfold run_frames, run. generalize new_ForensicsEngine.
    induction pkts as [|s pkts IH]; intros e; [done|]. simpl. apply IH.
Qed.

Lemma v10_tcp_segments_length (frames : list Frame) :
  (length (tcp_segments frames) ≤ length frames)%nat.
Proof.
  induction frames as [|[s|t len] frames IH]; simpl; lia.
Qed.

(** X26. [analyze_packet] of pcap_analyzer_v10.py counts every frame of
    the capture in [global_packets] and [global_bytes], and only the
    frames that decode to IP/TCP reach the stream table.  In every stream:
    at least one packet was counted, the two retransmission counters
    together and the zero-window counter do not exceed [packets], every
    RTT sample lies strictly between 0 and 5000 ms, and the attributes
    [bytes_total], [handshake_rtt], [retrans_spurious], [dup_acks] and
    [win_full_events] are never written: they keep their initial zero.
    Over the whole table the packet counts add up to the number of TCP
    frames, which is at most [global_packets], the number of all frames
    (the two agree on a capture of TCP frames only); [global_bytes] is
    the sum of the lengths of all frames, and the payload byte counts add
    up to the payload lengths of the TCP frames. *)
Theorem v10_streams_are_consistent (frames : list Frame) :
  map_Forall (λ _ f,
      1 ≤ packets f
      ∧ 0 ≤ retrans_fast f ∧ 0 ≤ retrans_rto f
      ∧ retrans_fast f + retrans_rto f ≤ packets f
      ∧ 0 ≤ zero_wins f ≤ packets f
      ∧ bytes_total f = 0 ∧ handshake_rtt f = 0%Q
      ∧ retrans_spurious f = 0 ∧ dup_acks f = 0 ∧ win_full_events f = 0
      ∧ Forall (λ rtt, (0 < rtt)%Q ∧ (rtt < 5000)%Q) (rtt_samples f))
    (streams (run_frames frames))
  ∧ streams (run_frames frames) = streams (run (tcp_segments frames))
  ∧ global_packets (run_frames frames) = Z.of_nat (length frames)
  ∧ sum_values packets (streams (run_frames frames))
    = Z.of_nat (length (tcp_segments frames))
  ∧ sum_values packets (streams (run_frames frames))
    ≤ global_packets (run_frames frames)
  ∧ global_bytes (run_frames frames)
    = foldr (λ fr acc, frame_len fr + acc) 0 frames
  ∧ sum_values bytes_payload (streams (run_frames frames))
    = foldr (λ s acc, payload_len s + acc) 0 (tcp_segments frames)
  ∧ (∀ pkts : list Segment,
       run_frames (TcpFrame <$> pkts) = run pkts
       ∧ sum_values packets (streams (run pkts)) = global_packets (run pkts)).
Proof.
  rewrite v10_frames_streams.
  destruct (v10_totals (tcp_segments frames)) as (_ & Hp & _ & Hb).
  destruct (v10_frames_counters_from frames new_ForensicsEngine)
    as [Hgp Hgb].
  split; [exact (v10_stream_records (tcp_segments frames))|].
  split; [done|]. split; [exact Hgp|]. split; [exact Hp|].
  split.
  { rewrite Hp. unfold run_frames. rewrite Hgp.
    pose proof (v10_tcp_segments_length frames).
    cbn [new_ForensicsEngine global_packets]. lia. }
  split; [exact Hgb|]. split; [exact Hb|].
  intros pkts. split; [apply v10_tcp_frames_only|].
  destruct (v10_totals pkts) as (-> & -> & _). done.
Qed.
End V10_invariants.

Section V10_report.
Import V10.



(** X28. Canonical keys of pcap_analyzer_v9.py and pcap_analyzer_v10.py:
    a packet and its reply (addresses and ports exchanged) get the same
    key from [_get_flow_key] and the same flow key from the normalisation
    of [analyze_packet]; the latter is the session key of
    analyze_and_generate_report.py, and unless both endpoints coincide the
    two packets get opposite directions. *)
Theorem v9_v10_keys_are_direction_symmetric (s : Segment) :
  V9._get_flow_key (dst_ip s) (dport s) (src_ip s) (sport s)
  = V9._get_flow_key (src_ip s) (sport s) (dst_ip s) (dport s)
  ∧ (normalize_key s).1 = Report.session_key (flow_key_of s)
  ∧ (normalize_key (swap_segment s)).1 = (normalize_key s).1
  ∧ ((src_ip s, sport s) ≠ (dst_ip s, dport s) →
     (normalize_key (swap_segment s)).2 = 1 - (normalize_key s).2).
Proof.
  assert (∀ s, normalize_key s
               = (Report.session_key (flow_key_of s),
                  if endpoint_ltb (src_ip s, sport s) (dst_ip s, dport s)
                  then 0 else 1)) as Hnk.
  { intros s'. unfold normalize_key, Report.session_key, flow_key_of,
      endpoint_ltb. cbn [fst snd].
    destruct (String.compare (src_ip s') (dst_ip s')); [|done|done].
    by destruct (sport s' <? dport s'). }
  split; [|split; [|split]].
  - unfold V9._get_flow_key.
    set (a := (src_ip s, sport s)). set (b := (dst_ip s, dport s)).
    destruct (endpoint_ltb a b) eqn:E1.
    + by rewrite (endpoint_ltb_asym _ _ E1).
    + destruct (endpoint_ltb b a) eqn:E2; [done|].
      pose proof (endpoint_ltb_total _ _ E1 E2) as E.
      unfold a, b in E. injection E as -> ->. done.
  - by rewrite Hnk.
  - rewrite !Hnk. cbn [fst].
    change (flow_key_of (swap_segment s)) with (swap_key (flow_key_of s)).
    apply session_key_swap.
  - intros Hne. rewrite !Hnk. cbn [snd src_ip sport dst_ip dport swap_segment].
    set (a := (src_ip s, sport s)) in *. set (b := (dst_ip s, dport s)) in *.
    destruct (endpoint_ltb a b) eqn:E1.
    + by rewrite (endpoint_ltb_asym _ _ E1).
    + destruct (endpoint_ltb b a) eqn:E2; [done|].
      exfalso. apply Hne. exact (endpoint_ltb_total _ _ E1 E2).
Qed.
End V10_report.

(** ** analyze_tcp_dpkt_full_trend.py: streams and probabilities *)

Section FullTrend_streams.
Import FullTrend.

Lemma capture_loop_snoc (pkts : list Segment) (s : Segment) :
  capture_loop (pkts ++ [s]) = process_packet (capture_loop pkts) s.
Proof. unfold capture_loop. by rewrite foldl_app. Qed.

Lemma fulltrend_stream_invariant (pkts : list Segment) :
  ∀ k stats,
    streams (capture_loop pkts) !! k = Some stats →
    ∃ seen : gset Z,
      seen_seq (capture_loop pkts) !! k = Some seen
      ∧ count stats = Z.of_nat (length (wins stats))
      ∧ length (seqs stats) = length (wins stats)
      ∧ length (timestamps stats) = length (wins stats)
      ∧ length (win_ts stats) = length (wins stats)
      ∧ 0 ≤ rto stats ≤ retrans stats
      ∧ 0 ≤ cont_retrans stats ≤ retrans stats
      ∧ count stats = retrans stats + Z.of_nat (size seen)
      ∧ 1 ≤ Z.of_nat (size seen)
      ∧ 0 ≤ psh_small stats ≤ count stats.
Proof.
  induction pkts as [|s pkts IH] using rev_ind.
  { intros k stats. unfold capture_loop. simpl. by rewrite lookup_empty. }
  intros k stats. rewrite capture_loop_snoc. unfold process_packet.
  cbn [streams seen_seq].
  set (st := capture_loop pkts) in *.
  destruct (decide (flow_key_of s = k)) as [<-|Hne].
  - rewrite !lookup_insert_eq. intros [= <-].
    eexists. split; [reflexivity|]. unfold dd_get.
    destruct (streams st !! flow_key_of s) as [old|] eqn:E;
      cbn [default from_option id].
    + destruct (IH _ _ E) as (seen & -> & Hc & Hs & Ht & Hw & Hrto & Hcont
                              & Hsum & Hpos & Hpsh).
      cbn [default from_option id update_stats count wins seqs timestamps
           win_ts rto retrans cont_retrans psh_small].
      rewrite !length_app. cbn [length].
      destruct (bool_decide (tcp_seq s ∈ seen)) eqn:Eseen.
      * apply bool_decide_eq_true in Eseen.
        replace ({[tcp_seq s]} ∪ seen) with seen by set_solver.
        cbn [andb].
        repeat split; try lia; repeat case_match; lia.
      * apply bool_decide_eq_false in Eseen.
        rewrite size_union by set_solver. rewrite size_singleton.
        cbn [andb]. repeat split; try lia; repeat case_match; lia.
    + assert (seen_seq st !! flow_key_of s = None) as ->.
      { destruct (seen_seq st !! flow_key_of s) eqn:Es; [|done].
        exfalso. revert E Es. clear. unfold st. generalize (flow_key_of s).
        intros k. induction pkts as [|p pkts IH] using rev_ind.
        - unfold capture_loop. simpl. by rewrite lookup_empty.
        - rewrite capture_loop_snoc. unfold process_packet.
          cbn [streams seen_seq].
          destruct (decide (flow_key_of p = k)) as [<-|Hne].
          + by rewrite lookup_insert_eq.
          + rewrite !lookup_insert_ne by done. apply IH. }
      cbn [default from_option id].
      rewrite bool_decide_eq_false_2 by set_solver.
      rewrite union_empty_r_L, size_singleton. cbn.
      repeat split; try lia; repeat case_match; lia.
  - rewrite !lookup_insert_ne by done. apply IH.
Qed.

(** X29. In every stream that the capture loop of
    analyze_tcp_dpkt_full_trend.py builds, [count] is the length of each
    per-packet list ([wins], [seqs], [timestamps], [win_ts]); every packet
    is either a retransmission or the first of its sequence number
    ([count = retrans + len(seen_seq[key])]), so the first packet of a
    stream is never a retransmission; and [rto], [cont_retrans] never
    exceed [retrans]. *)
Theorem fulltrend_stream_counters (pkts : list Segment) :
  map_Forall (λ k stats,
      ∃ seen : gset Z,
        seen_seq (capture_loop pkts) !! k = Some seen
        ∧ count stats = Z.of_nat (length (wins stats))
        ∧ length (seqs stats) = length (wins stats)
        ∧ length (timestamps stats) = length (wins stats)
        ∧ length (win_ts stats) = length (wins stats)
        ∧ 0 ≤ rto stats ≤ retrans stats
        ∧ 0 ≤ cont_retrans stats ≤ retrans stats
        ∧ count stats = retrans stats + Z.of_nat (size seen)
        ∧ 1 ≤ Z.of_nat (size seen)
        ∧ 0 ≤ psh_small stats ≤ count stats)
    (streams (capture_loop pkts)).
Proof. exact (fulltrend_stream_invariant pkts). Qed.
End FullTrend_streams.

Section FullTrend_probabilities.
Import FullTrend.
Variable np_std : list Q → Q.

Lemma foldl_Qplus (l : list Q) (a : Q) : (foldl Qplus a l == a + Qsum l)%Q.
Proof.
  revert a. induction l as [|x l IH]; intros a; simpl.
  - ring.
  - rewrite IH. ring.
Qed.

Lemma py_sum_Qsum (l : list Q) : (py_sum l == Qsum l)%Q.
Proof. unfold py_sum. rewrite foldl_Qplus. ring. Qed.

Lemma raw_prob_nonneg (stats : Stats) (aw j : Q) :
  0 ≤ rto stats → 0 ≤ retrans stats → 0 ≤ cont_retrans stats →
  (0 <= (raw_prob stats aw j).1.1)%Q
  ∧ (0 <= (raw_prob stats aw j).1.2)%Q
  ∧ (0 <= (raw_prob stats aw j).2)%Q.
Proof.
  intros Hrto Hre Hcont. unfold raw_prob.
  assert (0 <= inject_Z (rto stats))%Q as H1
    by (change 0%Q with (inject_Z 0); by rewrite <- Zle_Qle).
  assert (0 <= inject_Z (retrans stats))%Q as H2
    by (change 0%Q with (inject_Z 0); by rewrite <- Zle_Qle).
  assert (0 <= inject_Z (cont_retrans stats))%Q as H3
    by (change 0%Q with (inject_Z 0); by rewrite <- Zle_Qle).
  revert H1 H2 H3.
  generalize (inject_Z (rto stats)) (inject_Z (retrans stats))
    (inject_Z (cont_retrans stats)).
  intros a b c Ha Hb Hc.
  assert (∀ x y : Q, (0 <= x)%Q → (0 <= y)%Q → (0 <= x + y)%Q) as Hadd.
  { intros x y Hx Hy. assert (0 == 0 + 0)%Q as -> by ring.
    by apply Qplus_le_compat. }
  assert (∀ x y : Q, (0 <= x)%Q → (0 <= y)%Q → (0 <= x * y)%Q) as Hmul
    by (intros; by apply Qmult_le_0_compat).
  assert (0 <= rto_w)%Q by (by vm_compute).
  assert (0 <= retrans_w)%Q by (by vm_compute).
  assert (0 <= cont_retrans_w)%Q by (by vm_compute).
  assert (0 <= rtt_w)%Q by (by vm_compute).
  assert (0 <= win_w)%Q by (by vm_compute).
  assert (0 <= win_w / 2)%Q by (by vm_compute).
  assert (0 <= 0.5)%Q by (by vm_compute).
  assert (0 <= 0)%Q by apply Qle_refl.
  destruct (Qltb aw 200), (Qltb 0.03 j); cbn [fst snd];
    repeat split; repeat (apply Hadd || apply Hmul); assumption.
Qed.

(** [compute_flow_prob] with its outcome spelled out. *)
Lemma compute_flow_prob_cases (stats : Stats) :
  ∃ (r : FlowResult) (aw j : Q),
    compute_flow_prob np_std stats = Some (r, aw, j)
    ∧ ((0 < (raw_prob stats aw j).1.1 + (raw_prob stats aw j).1.2
            + (raw_prob stats aw j).2)%Q
       ∧ client r
         = ((raw_prob stats aw j).1.1
            / ((raw_prob stats aw j).1.1 + (raw_prob stats aw j).1.2
               + (raw_prob stats aw j).2))%Q
       ∧ network r
         = ((raw_prob stats aw j).1.2
            / ((raw_prob stats aw j).1.1 + (raw_prob stats aw j).1.2
               + (raw_prob stats aw j).2))%Q
       ∧ server r
         = ((raw_prob stats aw j).2
            / ((raw_prob stats aw j).1.1 + (raw_prob stats aw j).1.2
               + (raw_prob stats aw j).2))%Q
       ∨ ((raw_prob stats aw j).1.1 + (raw_prob stats aw j).1.2
          + (raw_prob stats aw j).2 <= 0)%Q
         ∧ r = mkFlowResult 0.33 0.33 0.33).
Proof.
  unfold compute_flow_prob.
  assert (∃ aw : Q,
            match wins stats with
            | [] => Some 0%Q
            | _ => np_mean (inject_Z <$> wins stats)
            end = Some aw) as (aw & ->)
    by (destruct (wins stats); simpl; eauto).
  cbn [mbind option_bind].
  set (j := if decide (1 < length (timestamps stats))%nat
            then np_std (np_diff (timestamps stats)) else 0%Q).
  destruct (raw_prob stats aw j) as [[c n] s] eqn:Eraw. cbn [fst snd].
  destruct (Qltb 0 (c + n + s)) eqn:E.
  - apply Qltb_lt in E.
    assert (¬ (c + n + s == 0)%Q) as Hnz.
    { intros H0. rewrite H0 in E. by apply Qlt_irrefl in E. }
    rewrite !py_truediv_Some by done. cbn [mbind option_bind].
    do 3 eexists. split; [reflexivity|]. rewrite Eraw. cbn [fst snd].
    left. done.
  - apply Qltb_ge in E.
    do 3 eexists. split; [reflexivity|]. rewrite Eraw. cbn [fst snd].
    right. done.
Qed.

Lemma compute_flow_prob_result (stats : Stats) :
  0 ≤ rto stats → 0 ≤ retrans stats → 0 ≤ cont_retrans stats →
  ∃ (r : FlowResult) (aw j : Q),
    compute_flow_prob np_std stats = Some (r, aw, j)
    ∧ (0 <= client r)%Q ∧ (0 <= network r)%Q ∧ (0 <= server r)%Q
    ∧ ((client r + network r + server r == 1)%Q
       ∨ r = mkFlowResult 0.33 0.33 0.33).
Proof.
  intros Hrto Hre Hcont.
  destruct (compute_flow_prob_cases stats) as (r & aw & j & Hr & Hcase).
  exists r, aw, j. split; [exact Hr|].
  destruct (raw_prob_nonneg stats aw j Hrto Hre Hcont) as (Hc & Hn & Hs).
  destruct Hcase as [(Hpos & -> & -> & ->)|[_ ->]].
  - revert Hc Hn Hs Hpos.
    generalize ((raw_prob stats aw j).1.1) ((raw_prob stats aw j).1.2)
      ((raw_prob stats aw j).2).
    intros c n s Hc Hn Hs Hpos.
    assert (∀ x, (0 <= x)%Q → (0 <= x / (c + n + s))%Q) as Hdiv.
    { intros x Hx. apply Qle_shift_div_l; [done|]. by rewrite Qmult_0_l. }
    split; [by apply Hdiv|]. split; [by apply Hdiv|]. split; [by apply Hdiv|].
    left. apply normalised_sum. intros H0. rewrite H0 in Hpos.
    by apply Qlt_irrefl in Hpos.
  - cbn. split; [by vm_compute|]. split; [by vm_compute|].
    split; [by vm_compute|]. by right.
Qed.

(** The totals of a list of results whose triples are not negative and
    add up to at least 0.99 each. *)
Lemma overall_values_defined (results : list (FlowKey * FlowResult)) :
  results ≠ [] →
  Forall (λ kv, (0 <= client kv.2)%Q ∧ (0 <= network kv.2)%Q
                ∧ (0 <= server kv.2)%Q
                ∧ (0.99 <= client kv.2 + network kv.2 + server kv.2)%Q)
    results →
  ∃ c n s : Q,
    overall_values results = Some (c, n, s) ∧ (c + n + s == 1)%Q.
Proof.
  intros Hne Hall. unfold overall_values.
  set (tc := py_sum ((λ kv, client kv.2) <$> results)).
  set (tn := py_sum ((λ kv, network kv.2) <$> results)).
  set (ts' := py_sum ((λ kv, server kv.2) <$> results)).
  assert (0 < tc + tn + ts')%Q as Hpos.
  { unfold tc, tn, ts'. rewrite !py_sum_Qsum.
    destruct results as [|kv results]; [done|].
    apply Forall_cons in Hall as [(H1 & H2 & H3 & H4) Hall].
    assert (0 <= Qsum ((λ kv, client kv.2) <$> results)
                 + Qsum ((λ kv, network kv.2) <$> results)
                 + Qsum ((λ kv, server kv.2) <$> results))%Q as Hrest.
    { clear -Hall. induction Hall as [|x l (H1 & H2 & H3 & _) _ IH]; simpl.
      - by vm_compute.
      - assert (0 == 0 + 0 + 0 + 0)%Q as -> by ring.
        assert (client x.2 + Qsum ((λ kv, client kv.2) <$> l)
                + (network x.2 + Qsum ((λ kv, network kv.2) <$> l))
                + (server x.2 + Qsum ((λ kv, server kv.2) <$> l))
                == client x.2 + network x.2 + server x.2
                   + (Qsum ((λ kv, client kv.2) <$> l)
                      + Qsum ((λ kv, network kv.2) <$> l)
                      + Qsum ((λ kv, server kv.2) <$> l)))%Q as -> by ring.
        by repeat apply Qplus_le_compat. }
    simpl.
    assert (client kv.2 + Qsum ((λ kv, client kv.2) <$> results)
            + (network kv.2 + Qsum ((λ kv, network kv.2) <$> results))
            + (server kv.2 + Qsum ((λ kv, server kv.2) <$> results))
            == client kv.2 + network kv.2 + server kv.2
               + (Qsum ((λ kv, client kv.2) <$> results)
                  + Qsum ((λ kv, network kv.2) <$> results)
                  + Qsum ((λ kv, server kv.2) <$> results)))%Q as -> by ring.
    eapply Qlt_le_trans; [|apply Qplus_le_compat; [exact H4|exact Hrest]].
    by vm_compute. }
  assert (¬ (tc + tn + ts' == 0)%Q) as Hnz.
  { intros H0. rewrite H0 in Hpos. by apply Qlt_irrefl in Hpos. }
  rewrite !py_truediv_Some by done. cbn [mbind option_bind].
  do 3 eexists. split; [reflexivity|]. by apply normalised_sum.
Qed.

Lemma capture_loop_streams_nonempty (pkts : list Segment) :
  pkts ≠ [] → streams (capture_loop pkts) ≠ ∅.
Proof.
  destruct pkts as [|s pkts _] using rev_ind; [done|]. intros _.
  rewrite capture_loop_snoc. unfold process_packet. cbn [streams].
  apply insert_non_empty.
Qed.

(** X30. The overall chart of analyze_tcp_dpkt_full_trend.py (lines
    130-150), for the streams of a capture taken in any order:
    [compute_flow_prob] returns for every stream a triple of non-negative
    values that either adds up to 1 or is the fallback 0.33 / 0.33 / 0.33;
    on a capture without TCP packets the division by [total_sum] raises
    ZeroDivisionError; on every other capture the three bars are defined and
    add up to 1. *)
Theorem fulltrend_overall_chart (pkts : list Segment)
    (items : list (FlowKey * Stats)) :
  items ≡ₚ map_to_list (streams (capture_loop pkts)) →
  ∃ results : list (FlowKey * FlowResult),
    flow_results_of np_std items = Some results
    ∧ Forall (λ kv, (0 <= client kv.2)%Q ∧ (0 <= network kv.2)%Q
                    ∧ (0 <= server kv.2)%Q
                    ∧ ((client kv.2 + network kv.2 + server kv.2 == 1)%Q
                       ∨ kv.2 = mkFlowResult 0.33 0.33 0.33))
        results
    ∧ (pkts = [] → overall_values results = None)
    ∧ (pkts ≠ [] →
       ∃ c n s : Q,
         overall_values results = Some (c, n, s) ∧ (c + n + s == 1)%Q).
Proof.
  intros Hperm.
  assert (Forall (λ kv : FlowKey * Stats,
                    0 ≤ rto kv.2 ∧ 0 ≤ retrans kv.2 ∧ 0 ≤ cont_retrans kv.2)
            items) as Hitems.
  { rewrite Hperm. apply Forall_forall. intros [k stats] Hin.
    apply elem_of_map_to_list in Hin.
    destruct (fulltrend_stream_invariant pkts k stats Hin)
      as (seen & _ & _ & _ & _ & _ & H1 & H2 & _).
    simpl. lia. }
  assert (∃ results : list (FlowKey * FlowResult),
            flow_results_of np_std items = Some results
            ∧ length results = length items
            ∧ Forall (λ kv, (0 <= client kv.2)%Q ∧ (0 <= network kv.2)%Q
                            ∧ (0 <= server kv.2)%Q
                            ∧ ((client kv.2 + network kv.2 + server kv.2
                                == 1)%Q
                               ∨ kv.2 = mkFlowResult 0.33 0.33 0.33))
                results) as (results & Hres & Hlen & Hall).
  { clear Hperm. unfold flow_results_of.
    induction items as [|[k stats] items IH].
    - exists []. split; [done|]. split; [done|constructor].
    - apply Forall_cons in Hitems as [(H1 & H2 & H3) Hitems].
      destruct (IH Hitems) as (results & Hres & Hlen & Hall).
      destruct (compute_flow_prob_result stats H1 H2 H3)
        as (r & aw & j & Hr & Hc & Hn & Hs & Hsum).
      exists ((k, r) :: results). split; [|split].
      + change (mapM ?f ((k, stats) :: items))
          with (y ← f (k, stats); ks ← mapM f items; mret (y :: ks)).
        cbn [fst snd]. rewrite Hr. cbn [mbind option_bind fst snd].
        rewrite Hres. reflexivity.
      + simpl. by rewrite Hlen.
      + constructor; [|done]. done. }
  exists results. split; [exact Hres|]. split; [exact Hall|]. split.
  - intros ->.
    assert (items = []) as ->.
    { apply Permutation_nil_r. rewrite Hperm. unfold capture_loop. simpl.
      by rewrite map_to_list_empty. }
    destruct results; [|done]. by vm_compute.
  - intros Hne. apply overall_values_defined.
    + intros ->. simpl in Hlen. symmetry in Hlen.
      apply length_zero_iff_nil in Hlen. subst items.
      apply Permutation_nil_l in Hperm. symmetry in Hperm.
      apply map_to_list_empty_iff in Hperm.
      by apply (capture_loop_streams_nonempty pkts).
    + eapply Forall_impl; [exact Hall|].
      intros kv (H1 & H2 & H3 & [Hsum| ->]).
      * split; [done|]. split; [done|]. split; [done|].
        rewrite Hsum. by vm_compute.
      * cbn. repeat split; by vm_compute.
Qed.
End FullTrend_probabilities.

Lemma fulltrend_overall_chart_witness :
  ∃ results : list (FlowKey * FullTrend.FlowResult),
    FullTrend.flow_results_of Scenario.np_std_unused
      (map_to_list
         (FullTrend.streams (FullTrend.capture_loop Scenario.repeat_100)))
    = Some results
    ∧ Forall (λ kv, (0 <= FullTrend.client kv.2)%Q
                    ∧ (0 <= FullTrend.network kv.2)%Q
                    ∧ (0 <= FullTrend.server kv.2)%Q
                    ∧ ((FullTrend.client kv.2 + FullTrend.network kv.2
                        + FullTrend.server kv.2 == 1)%Q
                       ∨ kv.2 = FullTrend.mkFlowResult 0.33 0.33 0.33))
        results
    ∧ (Scenario.repeat_100 = [] → FullTrend.overall_values results = None)
    ∧ (Scenario.repeat_100 ≠ [] →
       ∃ c n s : Q,
         FullTrend.overall_values results = Some (c, n, s)
         ∧ (c + n + s == 1)%Q).
Proof.
  apply (fulltrend_overall_chart Scenario.np_std_unused Scenario.repeat_100).
  reflexivity.
Defined.
